(** * Devign driver ([main.py]): a shallow embedding and its properties

    The repository's entry point parses the command line, builds the
    dataset and one of two models, runs the training loop and optionally
    exports the graph embeddings.  The driver is glue around collaborators
    that live in other modules ([data_loader.dataset], [modules.model],
    [trainer], [utils]) and in libraries (torch, numpy, argparse, pickle,
    json, os).  The embedding keeps the driver's control flow as it is
    written and takes the collaborators as an interface.  What the driver
    prints, the seeds it sets, the directories and files it writes and its
    calls to the dataset, the model constructors, the training loop and
    the embedding readout are recorded in a trace, each call with its
    answer; the forward pass, the loss, the parameter count, the device
    moves and the queries of the file system leave no entry.

    Conventions.
    - Python [int] is [Z]; Python [float] is a binary64 [float]; [str] is
      [string].
    - A run is a function of the initial world and yields either normal
      completion or the exception that ended it, with the final world.
    - The file system is the operating system's.  [os.makedirs] and
      [open(path, 'w')] are calls into it, like the calls into the other
      collaborators: they answer or raise, and they may change the
      environment in any way.  [os.path.exists] reads the environment.
      The one write that is taken to succeed is the [pickle.dump] of lines
      90-92, into the directory the dataset has just been read from.
    - Paths are POSIX paths and are compared as strings.  [assert]
      statements are active (no [-O]).  [torch.no_grad()] changes nothing
      that is modelled. *)

From Stdlib Require Import ZArith NArith String Ascii List Bool Lia.
From Stdlib Require Import PrimFloat FloatOps SpecFloat.
From stdpp Require Import base gmap strings list fin_maps pretty.
Import ListNotations.

#[local] Set Warnings "-inexact-float".

Local Open Scope string_scope.
Local Open Scope list_scope.
Local Open Scope Z_scope.

(** ** Python values used by the driver *)

(** [str * n] for a one-character string. *)
Fixpoint str_repeat (c : string) (n : nat) : string :=
  match n with
  | O => ""
  | S k => c +:+ str_repeat c k
  end.

(** [s.startswith(p)] *)
Definition startswith (s p : string) : bool := String.prefix p s.

(** [s.endswith('/')] *)
Fixpoint endswith_sep (s : string) : bool :=
  match s with
  | EmptyString => false
  | String c EmptyString => Ascii.eqb c "/"%char
  | String _ rest => endswith_sep rest
  end.

(** [os.path.join(a, b)] of [posixpath]: an absolute second component
    discards the first; otherwise the components are joined with exactly
    one separator unless the first is empty or already ends with one. *)
Definition os_path_join (a b : string) : string :=
  if startswith b "/" then b
  else if String.eqb a "" || endswith_sep a then a +:+ b
  else a +:+ "/" +:+ b.

(** Exceptions that can end a run. *)
Inductive Exn : Type :=
  | SystemExit (code : Z)            (* argparse: usage error, exit status 2 *)
  | AssertionError (msg : string)
  | ValueError (msg : string)
  | OverflowError (msg : string)
  | UnpicklingError
  | PyError (name : string).         (* raised inside a collaborator *)

(** [int(x)] for a float [x]: truncation towards zero; [nan] and the
    infinities raise. *)
Definition int_of_float (x : float) : Exn + Z :=
  match Prim2SF x with
  | S754_zero _ => inr 0
  | S754_infinity _ => inl (OverflowError "cannot convert float infinity to integer")
  | S754_nan => inl (ValueError "cannot convert float NaN to integer")
  | S754_finite s m e =>
      let mag := Z.shiftl (Z.pos m) e in
      inr (if s then - mag else mag)
  end.

(** What [json.dumps] is given: the value tree, not its text. *)
#[local] Unset Elimination Schemes.
Inductive Json : Type :=
  | JFloat (f : float)
  | JInt (z : Z)
  | JStr (s : string)
  | JList (l : list Json)
  | JDict (kv : list (string * Json)).
#[local] Set Elimination Schemes.

(** ** Command line and parsed namespace *)

(** What the user supplied for each destination, after argparse's own
    tokenisation and [type=] conversion; [None] is an omitted flag. *)
Module cmdline.
Record t : Type := mk {
  model_type : option string;
  dataset : option string;
  input_dir : option string;
  node_tag : option string;
  graph_tag : option string;
  label_tag : option string;
  feature_size : option Z;
  graph_embed_size : option Z;
  num_steps : option Z;
  batch_size : option Z;
  save_after_ggnn : bool
}.
End cmdline.

(** The namespace returned by [parser.parse_args()]. *)
Module args.
Record t : Type := mk {
  model_type : string;
  dataset : string;
  input_dir : string;
  node_tag : string;
  graph_tag : string;
  label_tag : string;
  feature_size : Z;
  graph_embed_size : Z;
  num_steps : Z;
  batch_size : Z;
  save_after_ggnn : bool
}.

(** [args.graph_embed_size = v] *)
Definition set_graph_embed_size (a : t) (v : Z) : t :=
  mk (model_type a) (dataset a) (input_dir a) (node_tag a) (graph_tag a)
     (label_tag a) (feature_size a) v (num_steps a) (batch_size a)
     (save_after_ggnn a).
End args.

(** Lines 54-68: the declared options with their defaults, [required] and
    [choices]. *)
Definition parse_args (c : cmdline.t) : Exn + args.t :=
  let model_type := default "devign" (cmdline.model_type c) in
  if negb (String.eqb model_type "devign" || String.eqb model_type "ggnn")
  then inl (SystemExit 2)
  else
    match cmdline.dataset c, cmdline.input_dir c with
    | Some dataset, Some input_dir =>
        inr (args.mk model_type dataset input_dir
               (default "node_features" (cmdline.node_tag c))
               (default "graph" (cmdline.graph_tag c))
               (default "target" (cmdline.label_tag c))
               (default 100 (cmdline.feature_size c))
               (default 200 (cmdline.graph_embed_size c))
               (default 6 (cmdline.num_steps c))
               (default 128 (cmdline.batch_size c))
               (cmdline.save_after_ggnn c))
    | _, _ => inl (SystemExit 2)
    end.

(** ** Collaborators

    Objects owned by code outside [main.py].  [Rng] is the state of a
    pseudo-random generator, [Heap] the mutable state behind the handles
    (model parameters, batch cursors of the dataset). *)
Class Objects : Type := {
  Rng : Type;
  Heap : Type;
  DataSet : Type;
  Model : Type;
  Graph : Type
}.

Inductive Split : Type := Test | Valid | Train.

Inductive ModelKind : Type := KDevign | KGGNN.

(** [BCELoss(reduction=...)] *)
Inductive LossFn : Type := BCELoss (reduction : string).

Section Interface.
Context {Obj : Objects}.

(** Content of a regular file. *)
Inductive FileData : Type :=
  | FPickle (d : DataSet)
  | FJson (j : Json)
  | FRaw (s : string).

(** Everything a collaborator can read or change. *)
Record Env : Type := mkEnv {
  environ : gmap string string;
  files : gmap string FileData;
  dirs : gset string;
  torch_rng : Rng;
  numpy_rng : Rng;
  heap : Heap
}.

(** A call into a collaborator: it answers or raises, and may change the
    environment. *)
Definition Ext (A : Type) : Type := Env -> (Exn + A) * Env.

(** Keyword arguments of [DataSet(...)]. *)
Record DataSetArgs : Type := mkDataSetArgs {
  train_src : string;
  valid_src : string;
  test_src : string;
  ds_batch_size : Z;
  n_ident : string;
  g_ident : string;
  l_ident : string
}.

(** [Adam(model.parameters(), lr=..., weight_decay=...)] *)
Inductive Optimizer : Type :=
  | Adam (parameters_of : Model) (lr weight_decay : float).

(** Keyword arguments of [train(...)]. *)
Record TrainCall : Type := mkTrainCall {
  tc_model : Model;
  tc_dataset : DataSet;
  tc_max_steps : Z;
  tc_dev_every : Z;
  tc_loss_function : LossFn;
  tc_optimizer : Optimizer;
  tc_save_path : string;
  tc_max_patience : Z;
  tc_log_every : option Z
}.

(** The interface of the modules and libraries the driver calls. *)
Class Collaborators : Type := {
  (* torch.manual_seed / np.random.seed: the state a seed determines *)
  rng_seed : Z -> Rng;
  (* data_loader.dataset.DataSet *)
  DataSet_init : DataSetArgs -> Ext DataSet;
  DataSet_feature_size : DataSet -> Z;
  DataSet_max_edge_type : DataSet -> Z;
  DataSet_len_examples : Split -> DataSet -> Z;
  DataSet_initialize_batch : Split -> DataSet -> Ext Z;
  DataSet_get_next_batch : Split -> DataSet -> Ext (Graph * list float);
  (* modules.model *)
  GGNNSum_init : Z -> Z -> Z -> Z -> Ext Model;
  DevignModel_init : Z -> Z -> Z -> Z -> Ext Model;
  Model_call : Model -> Graph -> bool -> Ext (list float);
  Model_get_graph_embeddings : Model -> Graph -> Ext (list (list float));
  Model_cuda : Model -> Ext unit;
  (* device placement of a batch *)
  Graph_cuda : Graph -> Ext unit;
  Graph_graph_to_cuda : Graph -> Ext unit;
  Tensor_cuda : list float -> Ext unit;
  (* torch.nn.BCELoss.__call__ *)
  LossFn_call : LossFn -> list float -> list float -> Ext float;
  (* utils.tally_param *)
  tally_param : Model -> Ext Z;
  (* trainer.train *)
  train : TrainCall -> Ext unit;
  (* os.makedirs(path, exist_ok=...): what the operating system makes of
     the path, and whether it raises *)
  OS_makedirs : string -> bool -> Ext unit;
  (* open(path, 'w'): raises, or the file is open for writing *)
  OS_open_w : string -> Ext unit
}.

(** One entry of the trace: a call the driver made, with its answer where
    the call has one. *)
Inductive Event : Type :=
  | EvStdout (line : string)
  | EvStderr (line : string)
  | EvDebug (msg : list string)
  | EvTorchManualSeed (seed : Z)
  | EvNumpySeed (seed : Z)
  | EvMakedirs (path : string)
  | EvPickleLoad (path : string) (r : Exn + DataSet)
  | EvDataSet (a : DataSetArgs) (r : Exn + DataSet)
  | EvPickleDump (path : string) (d : DataSet)
  | EvModel (k : ModelKind) (input_dim output_dim num_steps max_edge_types : Z)
            (r : Exn + Model)
  | EvModelCuda (m : Model) (r : Exn + unit)
  | EvTrain (c : TrainCall) (r : Exn + unit)
  | EvInitBatch (s : Split) (d : DataSet) (r : Exn + Z)
  | EvNextBatch (s : Split) (d : DataSet) (r : Exn + Graph * list float)
  | EvEmbeddings (m : Model) (g : Graph) (r : Exn + list (list float))
  | EvWrite (path : string) (j : Json).

Record World : Type := mkWorld {
  env : Env;
  trace : list Event
}.

(** ** The monad of runs *)

Definition M (A : Type) : Type := World -> (Exn + A) * World.

#[export] Instance M_ret : MRet M := fun A x w => (inr x, w).

#[export] Instance M_bind : MBind M := fun A B k c w =>
  match c w with
  | (inl e, w') => (inl e, w')
  | (inr x, w') => k x w'
  end.

Definition raise {A : Type} (e : Exn) : M A := fun w => (inl e, w).

(** Append one entry to the trace. *)
Definition log (ev : Event) : M unit :=
  fun w => (inr tt, mkWorld (env w) (trace w ++ [ev])).

(** A collaborator call that leaves no entry. *)
Definition ext {A : Type} (f : Ext A) : M A :=
  fun w => let '(r, e') := f (env w) in (r, mkWorld e' (trace w)).

(** A collaborator call recorded with its answer. *)
Definition call {A : Type} (mk : Exn + A -> Event) (f : Ext A) : M A :=
  fun w => let '(r, e') := f (env w) in (r, mkWorld e' (trace w ++ [mk r])).

Definition get_env : M Env := fun w => (inr (env w), w).

Definition set_env (e : Env) : M unit :=
  fun w => (inr tt, mkWorld e (trace w)).

Definition lift {A : Type} (r : Exn + A) : M A := fun w => (r, w).

(** [for x in xs: acc = f(acc, x)] with early exit on an exception. *)
Fixpoint mapM {A B : Type} (f : A -> Exn + B) (l : list A) : Exn + list B :=
  match l with
  | [] => inr []
  | x :: rest =>
      match f x with
      | inl e => inl e
      | inr y =>
          match mapM f rest with
          | inl e => inl e
          | inr ys => inr (y :: ys)
          end
      end
  end.

(** [a and b] on computations: [b] is not evaluated when [a] is false. *)
Definition py_and (a b : M bool) : M bool :=
  x ← a; if x : bool then b else mret false.
End Interface.

(** ** The driver *)

Section Driver.
Context {Obj : Objects} {C : Collaborators}.

Definition set_files (e : Env) (f : gmap string FileData) : Env :=
  mkEnv (environ e) f (dirs e) (torch_rng e) (numpy_rng e) (heap e).
Definition set_dirs (e : Env) (d : gset string) : Env :=
  mkEnv (environ e) (files e) d (torch_rng e) (numpy_rng e) (heap e).
Definition set_torch_rng (e : Env) (r : Rng) : Env :=
  mkEnv (environ e) (files e) (dirs e) r (numpy_rng e) (heap e).
Definition set_numpy_rng (e : Env) (r : Rng) : Env :=
  mkEnv (environ e) (files e) (dirs e) (torch_rng e) r (heap e).

(** *** Library calls with a fixed meaning *)

(** [print(line)] and [print(line, file=sys.stderr)] *)
Definition print (line : string) : M unit := log (EvStdout line).
Definition print_stderr (line : string) : M unit := log (EvStderr line).

(** [utils.debug] applied to its message arguments *)
Definition debug (msg : list string) : M unit := log (EvDebug msg).

(** [torch.manual_seed(seed)] *)
Definition torch_manual_seed (seed : Z) : M unit :=
  e ← get_env;
  set_env (set_torch_rng e (rng_seed seed));;
  log (EvTorchManualSeed seed).

(** [np.random.seed(seed)] *)
Definition np_random_seed (seed : Z) : M unit :=
  e ← get_env;
  set_env (set_numpy_rng e (rng_seed seed));;
  log (EvNumpySeed seed).

Definition isdir (e : Env) (path : string) : bool := bool_decide (path ∈ dirs e).
Definition isfile (e : Env) (path : string) : bool :=
  bool_decide (is_Some (files e !! path)).

(** [os.path.exists(path)] *)
Definition os_path_exists (path : string) : M bool :=
  e ← get_env; mret (isfile e path || isdir e path).

(** [os.makedirs(path, exist_ok=...)].  The entry records that the call
    was made; which directories it creates on the way and whether it
    raises is the answer of the operating system. *)
Definition os_makedirs (path : string) (exist_ok : bool) : M unit :=
  log (EvMakedirs path);;
  ext (OS_makedirs path exist_ok).

(** [file = open(path, 'wb'); pickle.dump(obj, file); file.close()].  The
    directory is the one the dataset has just been read from; the file is
    taken to open. *)
Definition pickle_dump (obj : DataSet) (path : string) : M unit :=
  e ← get_env;
  set_env (set_files e (<[path := FPickle obj]> (files e)));;
  log (EvPickleDump path obj).

(** [pickle.load(open(path, 'rb'))] *)
Definition pickle_load (path : string) : M DataSet :=
  e ← get_env;
  let r := match files e !! path with
           | Some (FPickle d) => inr d
           | Some _ => inl UnpicklingError
           | None => inl (PyError (if isdir e path then "IsADirectoryError"
                                   else "FileNotFoundError"))
           end in
  log (EvPickleLoad path r);;
  lift r.

(** [with open(path, 'w') as f: f.write(json.dumps(value))].  [open]
    raises when the directory of [path] is missing or is no directory;
    the entry is that of a completed write. *)
Definition write_json (path : string) (value : Json) : M unit :=
  ext (OS_open_w path);;
  e ← get_env;
  set_env (set_files e (<[path := FJson value]> (files e)));;
  log (EvWrite path value).

(** *** Line 17: the module-level switch *)

(** ["CUDA" in os.environ and os.environ["CUDA"] == "1"] *)
Definition CUDA_of (e : Env) : bool :=
  bool_decide (environ e !! "CUDA" = Some "1").

(** *** Lines 20-49: [save_after_ggnn] *)

(** The four lists the loop appends to. *)
Record Acc : Type := mkAcc {
  all_predictions : list Z;
  all_targets : list Z;
  all_loss : list float;
  final : list (list float * Z)
}.

(** One element of [predictions.ge(torch.ones_like(predictions) / 2).int()]. *)
Definition ge_half (p : float) : Z :=
  if PrimFloat.leb (1 / 2)%float p then 1 else 0.

(** One element of [targets.int()].  The cast of a non-finite value is
    left to the platform by torch; the list it lands in is never read. *)
Definition tensor_int (x : float) : Z :=
  match int_of_float x with
  | inr z => z
  | inl _ => -2147483648
  end.

(** The body of [for l in range(num_batches)], [n] iterations. *)
Fixpoint save_after_ggnn_loop (CUDA : bool) (model : Model)
    (loss_function : LossFn) (get_fn : M (Graph * list float))
    (n : nat) (acc : Acc) : M Acc :=
  match n with
  | O => mret acc
  | S k =>
      '(graph, targets) ← get_fn;
      predictions ←
        (if CUDA : bool then
           ext (Graph_cuda graph);;
           ext (Graph_graph_to_cuda graph);;
           ext (Tensor_cuda targets);;
           ext (Model_call model graph true)
         else ext (Model_call model graph false));
      batch_loss ← ext (LossFn_call loss_function predictions targets);
      let all_predictions' := all_predictions acc ++ map ge_half predictions in
      let all_targets' := all_targets acc ++ map tensor_int targets in
      let all_loss' := all_loss acc ++ [batch_loss] in
      output ← call (EvEmbeddings model graph)
                    (Model_get_graph_embeddings model graph);
      ints ← lift (mapM int_of_float targets);
      let final' := final acc ++ combine output ints in
      save_after_ggnn_loop CUDA model loss_function get_fn k
        (mkAcc all_predictions' all_targets' all_loss' final')
  end.

(** [{'graph_feature': f[0], 'target': f[1]}] *)
Definition export_object (f : list float * Z) : Json :=
  JDict [("graph_feature", JList (map JFloat f.1)); ("target", JInt f.2)].

Definition save_after_ggnn (CUDA : bool) (output_dir : string) (model : Model)
    (loss_function : LossFn) (name : string) (num_batches : Z)
    (get_fn : M (Graph * list float)) (logger_fn : string -> M unit) : M unit :=
  acc ← save_after_ggnn_loop CUDA model loss_function get_fn
          (Z.to_nat num_batches) (mkAcc [] [] [] []);
  let final := map export_object (final acc) in
  let dst_filepath := os_path_join output_dir (name +:+ "_GGNNinput_graph.json") in
  logger_fn ("Saving to " +:+ dst_filepath);;
  write_json dst_filepath (JList final).

(** *** Lines 51-122: the [__main__] block *)

Definition warning_text : string :=
  "Warning!!! Graph Embed dimension should be at least equal to the feature dimension."
  +:+ String "010"%char "Setting graph embedding size to feature size".

Definition assertion_text : string :=
  "Dataset contains different feature vector than argument feature size. "
  +:+ "Either change the feature vector size in argument, or provide different dataset.".

(** Lines 70-73. *)
Definition check_embed_size (a : args.t) : M args.t :=
  if args.feature_size a >? args.graph_embed_size a then
    print_stderr warning_text;;
    mret (args.set_graph_embed_size a (args.feature_size a))
  else mret a.

(** The keyword arguments of lines 85-89. *)
Definition dataset_args (a : args.t) : DataSetArgs :=
  let input_dir := args.input_dir a in
  mkDataSetArgs (os_path_join input_dir "train_GGNNinput.json")
                (os_path_join input_dir "valid_GGNNinput.json")
                (os_path_join input_dir "test_GGNNinput.json")
                (args.batch_size a) (args.node_tag a) (args.graph_tag a)
                (args.label_tag a).

(** Lines 78-92. *)
Definition load_dataset (a : args.t) : M DataSet :=
  let input_dir := args.input_dir a in
  let processed_data_path := os_path_join input_dir "processed.bin" in
  c ← py_and (mret false) (os_path_exists processed_data_path);
  if c : bool then
    debug ["Reading already processed data from " +:+ processed_data_path +:+ "!"];;
    dataset ← pickle_load processed_data_path;
    debug [pretty (DataSet_len_examples Train dataset);
           pretty (DataSet_len_examples Valid dataset);
           pretty (DataSet_len_examples Test dataset)];;
    mret dataset
  else
    dataset ← call (EvDataSet (dataset_args a)) (DataSet_init (dataset_args a));
    pickle_dump dataset processed_data_path;;
    mret dataset.

(** Lines 93-95. *)
Definition assert_feature_size (a : args.t) (dataset : DataSet) : M unit :=
  if args.feature_size a =? DataSet_feature_size dataset then mret tt
  else raise (AssertionError assertion_text).

(** Lines 96-101. *)
Definition build_model (a : args.t) (dataset : DataSet) : M Model :=
  let input_dim := DataSet_feature_size dataset in
  let output_dim := args.graph_embed_size a in
  let num_steps := args.num_steps a in
  let max_edge_types := DataSet_max_edge_type dataset in
  if String.eqb (args.model_type a) "ggnn" then
    call (EvModel KGGNN input_dim output_dim num_steps max_edge_types)
         (GGNNSum_init input_dim output_dim num_steps max_edge_types)
  else
    call (EvModel KDevign input_dim output_dim num_steps max_edge_types)
         (DevignModel_init input_dim output_dim num_steps max_edge_types).

(** The keyword arguments of lines 112-114, with the loss and the
    optimizer of lines 107-108. *)
Definition train_call (model_dir : string) (model : Model) (dataset : DataSet)
    : TrainCall :=
  let loss_function := BCELoss "sum" in
  let optim := Adam model 0.0001 0.001 in
  mkTrainCall model dataset 1000000 128 loss_function optim
              (model_dir +:+ "/GGNNSumModel") 5 None.

(** Lines 116-122. *)
Definition export_embeddings (CUDA : bool) (a : args.t) (model : Model)
    (loss_function : LossFn) (dataset : DataSet) : M unit :=
  if args.save_after_ggnn a then
    let after_ggnn_dir := os_path_join (args.input_dir a) "after_ggnn" in
    x ← os_path_exists after_ggnn_dir;
    (if negb x then os_makedirs after_ggnn_dir true else mret tt);;
    n ← call (EvInitBatch Test dataset) (DataSet_initialize_batch Test dataset);
    save_after_ggnn CUDA after_ggnn_dir model loss_function "test" n
      (call (EvNextBatch Test dataset) (DataSet_get_next_batch Test dataset)) print;;
    n ← call (EvInitBatch Valid dataset) (DataSet_initialize_batch Valid dataset);
    save_after_ggnn CUDA after_ggnn_dir model loss_function "valid" n
      (call (EvNextBatch Valid dataset) (DataSet_get_next_batch Valid dataset)) print;;
    n ← call (EvInitBatch Train dataset) (DataSet_initialize_batch Train dataset);
    save_after_ggnn CUDA after_ggnn_dir model loss_function "train" n
      (call (EvNextBatch Train dataset) (DataSet_get_next_batch Train dataset)) print
  else mret tt.

Definition main (CUDA : bool) (argv : cmdline.t) : M unit :=
  torch_manual_seed 1000;;
  np_random_seed 1000;;
  a ← lift (parse_args argv);
  a ← check_embed_size a;
  let model_dir := os_path_join "models" (args.dataset a) in
  x ← os_path_exists model_dir;
  (if negb x then os_makedirs model_dir false else mret tt);;
  dataset ← load_dataset a;
  assert_feature_size a dataset;;
  model ← build_model a dataset;
  n ← ext (tally_param model);
  debug ["Total Parameters : " +:+ pretty n];;
  debug [str_repeat "#" 100];;
  (if CUDA then call (EvModelCuda model) (Model_cuda model) else mret tt);;
  let tc := train_call model_dir model dataset in
  call (EvTrain tc) (train tc);;
  export_embeddings CUDA a model (tc_loss_function tc) dataset.

(** The whole script: line 17-18, then the [__main__] block. *)
Definition script (argv : cmdline.t) : M unit :=
  e ← get_env;
  let CUDA := CUDA_of e in
  print ("CUDA is " +:+ (if CUDA then "enabled" else "disabled"));;
  main CUDA argv.

(** The entries a run appended to the trace. *)
Definition run {A : Type} (c : M A) (e : Env) : (Exn + A) * World :=
  c (mkWorld e []).
End Driver.

(** ** The training loop

    [trainer.train] is not part of the driver's file; the driver only fixes
    its arguments.  The loop below follows the description of the training
    loop as a state machine. *)
Module Trainer.

(** Modelled from the spec: the training loop ([trainer.train]) is missing
    from the sources.  The four states of the loop. *)
Inductive Phase : Type :=
  | Training
  | Validating
  | EarlyStopped
  | ConvergedByMaxSteps.

(** Modelled from the spec: the training loop ([trainer.train]) is missing
    from the sources.  What the loop keeps between turns. *)
Record State : Type := mkState {
  phase : Phase;
  steps : Z;                 (* optimization steps taken *)
  checks : Z;                (* validation checks made *)
  best : option float;       (* best validation metric seen so far *)
  best_check : Z;            (* the check that produced it *)
  patience : Z;              (* consecutive checks without improvement *)
  saved : list Z             (* checks after which the parameters were persisted *)
}.

(** Modelled from the spec: the training loop ([trainer.train]) is missing
    from the sources.  Nothing done, nothing seen. *)
Definition init : State := mkState Training 0 0 None 0 0 [].

(** Modelled from the spec: the training loop ([trainer.train]) is missing
    from the sources.  One optimization step; every [dev_every] steps the
    machine moves to validation. *)
Definition optimize (dev_every : Z) (s : State) : State :=
  match phase s with
  | Training =>
      let n := steps s + 1 in
      let due := (0 <? dev_every) && (n mod dev_every =? 0) in
      mkState (if due then Validating else Training) n (checks s) (best s)
              (best_check s) (patience s) (saved s)
  | _ => s
  end.

(** Modelled from the spec: the training loop ([trainer.train]) is missing
    from the sources.  [m] is a new best against the best seen so far; the
    first metric observed is one. *)
Definition improves (m : float) (b : option float) : bool :=
  match b with
  | None => true
  | Some x => PrimFloat.ltb x m
  end.

(** Modelled from the spec: the training loop ([trainer.train]) is missing
    from the sources.  One validation check: a new best is recorded and
    persisted and resets the patience counter; otherwise the counter grows,
    and [max_patience] consecutive checks without improvement stop the
    training. *)
Definition validate (max_patience : Z) (metric : Z -> float) (s : State) : State :=
  match phase s with
  | Validating =>
      let k := checks s + 1 in
      let m := metric k in
      if improves m (best s) then
        mkState (if max_patience <=? 0 then EarlyStopped else Training)
                (steps s) k (Some m) k 0 (saved s ++ [k])
      else
        let p := patience s + 1 in
        mkState (if max_patience <=? p then EarlyStopped else Training)
                (steps s) k (best s) (best_check s) p (saved s)
  | _ => s
  end.

(** Modelled from the spec: the training loop ([trainer.train]) is missing
    from the sources.  One turn of the loop: a step, and the check when it
    is due. *)
Definition iteration (dev_every max_patience : Z) (metric : Z -> float)
    (s : State) : State :=
  validate max_patience metric (optimize dev_every s).

(** Modelled from the spec: the training loop ([trainer.train]) is missing
    from the sources.  Leaving the loop without having stopped early. *)
Definition finish (s : State) : State :=
  match phase s with
  | Training =>
      mkState ConvergedByMaxSteps (steps s) (checks s) (best s) (best_check s)
              (patience s) (saved s)
  | _ => s
  end.

(** Modelled from the spec: the training loop ([trainer.train]) is missing
    from the sources.  At most [max_steps] turns; [metric k] is the
    validation metric observed at the [k]-th check. *)
Definition train (max_steps dev_every max_patience : Z) (metric : Z -> float)
    : State :=
  finish (N.iter (Z.to_N max_steps) (iteration dev_every max_patience metric) init).

(** The state after [j] checks of a run whose first check is its best,
    [1 <= j <= max_patience]. *)
Definition waiting (dev_every : Z) (metric : Z -> float) (j : Z) : State :=
  mkState Training (j * dev_every) j (Some (metric 1)) 1 (j - 1) [1].

(** The state in which such a run stops. *)
Definition stopped (dev_every max_patience : Z) (metric : Z -> float) : State :=
  mkState EarlyStopped ((max_patience + 1) * dev_every) (max_patience + 1)
          (Some (metric 1)) 1 max_patience [1].

End Trainer.

(** ** A small concrete set of collaborators

    Used to run the driver on concrete inputs.  The heap holds the feature
    width of the JSON data on disk and the number of batches handed out so
    far.  The dataset handle is the feature width it found; a model handle
    records which constructor built it and the embedding size it was
    given; a batch is identified by its serial number and holds two
    examples. *)
Module Toy.

#[export] Instance objects : Objects := {|
  Rng := Z;
  Heap := Z * nat;
  DataSet := Z;
  Model := ModelKind * Z;
  Graph := nat
|}.

Definition answer {A : Type} (x : A) : Ext A := fun e => (inr x, e).

Definition next_batch : Ext (Graph * list float) := fun e =>
  (inr ((heap e).2, [1%float; 0%float]),
   mkEnv (environ e) (files e) (dirs e) (torch_rng e) (numpy_rng e)
         ((heap e).1, S (heap e).2)).

(** A small file system: relative paths without [.] components, one
    working directory that is writable.  [parent] is what precedes the last
    separator of a path and [basename] what follows it. *)
Fixpoint has_sep (s : string) : bool :=
  match s with
  | EmptyString => false
  | String c rest => Ascii.eqb c "/"%char || has_sep rest
  end.

Fixpoint parent (s : string) : string :=
  match s with
  | EmptyString => EmptyString
  | String c rest => if has_sep rest then String c (parent rest) else EmptyString
  end.

Fixpoint basename (s : string) : string :=
  match s with
  | EmptyString => EmptyString
  | String c rest =>
      if has_sep rest then basename rest
      else if Ascii.eqb c "/"%char then rest else s
  end.

(** A path and the directories above it. *)
Fixpoint ancestors (fuel : nat) (path : string) : list string :=
  match fuel with
  | O => []
  | S k => if String.eqb path "" then [] else path :: ancestors k (parent path)
  end.

Definition add_dirs (e : Env) (l : list string) : Env :=
  set_dirs e (list_to_set l ∪ dirs e).

(** [os.makedirs]: the missing directories above [path] are created
    first, which a regular file in their place prevents.  A path ending in
    [..] then names the directory above the one just created, which is in
    place, and the final [mkdir] finds it so. *)
Definition makedirs (path : string) (exist_ok : bool) : Ext unit := fun e =>
  if isfile e path || isdir e path then
    if exist_ok && isdir e path then (inr tt, e)
    else (inl (PyError "FileExistsError"), e)
  else if existsb (isfile e) (ancestors (String.length path) (parent path)) then
    (inl (PyError "NotADirectoryError"), e)
  else if String.eqb (basename path) ".." then
    (inl (PyError "FileExistsError"),
     add_dirs e (ancestors (String.length path) (parent path)))
  else (inr tt, add_dirs e (ancestors (String.length path) path)).

(** [open(path, 'w')] needs the directory of [path]. *)
Definition open_w (path : string) : Ext unit := fun e =>
  if isdir e path then (inl (PyError "IsADirectoryError"), e)
  else if String.eqb (parent path) "" || isdir e (parent path) then (inr tt, e)
  else if isfile e (parent path) then (inl (PyError "NotADirectoryError"), e)
  else (inl (PyError "FileNotFoundError"), e).

#[export] Instance collaborators : Collaborators := {|
  rng_seed := fun seed => seed;
  DataSet_init := fun _ e => (inr (heap e).1, e);
  DataSet_feature_size := fun d => d;
  DataSet_max_edge_type := fun _ => 4;
  DataSet_len_examples := fun _ _ => 4;
  DataSet_initialize_batch := fun _ _ => answer 2;
  DataSet_get_next_batch := fun _ _ => next_batch;
  GGNNSum_init := fun _ output_dim _ _ => answer (KGGNN, output_dim);
  DevignModel_init := fun _ output_dim _ _ => answer (KDevign, output_dim);
  Model_call := fun _ _ _ => answer [0.75%float; 0.25%float];
  Model_get_graph_embeddings := fun _ _ =>
    answer [[0.5%float; 0.5%float]; [0.25%float; 0.25%float]];
  Model_cuda := fun _ => answer tt;
  Graph_cuda := fun _ => answer tt;
  Graph_graph_to_cuda := fun _ => answer tt;
  Tensor_cuda := fun _ => answer tt;
  LossFn_call := fun _ _ _ => answer 1%float;
  tally_param := fun _ => answer 42;
  train := fun _ => answer tt;
  OS_makedirs := makedirs;
  OS_open_w := open_w
|}.

(** An empty file system, no [CUDA] variable, unseeded generators, data
    with 100 features per node. *)
Definition env0 : Env := mkEnv ∅ ∅ ∅ 0 0 (100, 0%nat).

(** As [env0], with a pickle of an earlier run already in place and the
    generators in some other state. *)
Definition env_cached : Env :=
  mkEnv ∅ {["data/processed.bin" := FPickle 64]} ∅ 17 23 (100, 0%nat).

(** As [env0], with [CUDA=1] in the process environment. *)
Definition env_cuda : Env := mkEnv {["CUDA" := "1"]} ∅ ∅ 0 0 (100, 0%nat).

(** As [env0], with data of 300 features per node. *)
Definition env_wide : Env := mkEnv ∅ ∅ ∅ 0 0 (300, 0%nat).

(** [--dataset devign --input_dir data] *)
Definition argv0 : cmdline.t :=
  cmdline.mk None (Some "devign") (Some "data") None None None None None None None false.

(** [--dataset /ckpt --input_dir data --model_type ggnn] *)
Definition argv_abs : cmdline.t :=
  cmdline.mk (Some "ggnn") (Some "/ckpt") (Some "data") None None None None None None
             None false.

(** [--dataset devign --input_dir data --feature_size 300] *)
Definition argv_wide : cmdline.t :=
  cmdline.mk None (Some "devign") (Some "data") None None None (Some 300) None None
             None false.

(** [--dataset devign --input_dir data --node_tag nf --graph_tag g --label_tag y] *)
Definition argv_tags : cmdline.t :=
  cmdline.mk None (Some "devign") (Some "data") (Some "nf") (Some "g") (Some "y")
             None None None None false.

(** [--dataset devign --input_dir data --save_after_ggnn] *)
Definition argv_export : cmdline.t :=
  cmdline.mk None (Some "devign") (Some "data") None None None None None None None true.

(** The namespaces these command lines parse to. *)
Definition args0 : args.t :=
  args.mk "devign" "devign" "data" "node_features" "graph" "target" 100 200 6 128 false.
Definition args_abs : args.t :=
  args.mk "ggnn" "/ckpt" "data" "node_features" "graph" "target" 100 200 6 128 false.
Definition args_wide : args.t :=
  args.mk "devign" "devign" "data" "node_features" "graph" "target" 300 200 6 128 false.
Definition args_tags : args.t :=
  args.mk "devign" "devign" "data" "nf" "g" "y" 100 200 6 128 false.
Definition args_export : args.t :=
  args.mk "devign" "devign" "data" "node_features" "graph" "target" 100 200 6 128 true.

(** The [train] arguments of the run on [argv0]. *)
Definition tc0 : TrainCall := train_call "models/devign" (KDevign, 200) 100.

(** The [train] arguments of the run on [argv_abs]. *)
Definition tc_abs : TrainCall := train_call "/ckpt" (KGGNN, 200) 100.

(** The [DataSet] arguments of the runs on [argv0]. *)
Definition dataset_args0 : DataSetArgs :=
  mkDataSetArgs "data/train_GGNNinput.json" "data/valid_GGNNinput.json"
                "data/test_GGNNinput.json" 128 "node_features" "graph" "target".

(** The [DataSet] arguments of the run on [argv_tags]. *)
Definition dataset_args_tags : DataSetArgs :=
  mkDataSetArgs "data/train_GGNNinput.json" "data/valid_GGNNinput.json"
                "data/test_GGNNinput.json" 128 "nf" "g" "y".

(** The runs used below. *)
Definition run0 : (Exn + unit) * World := run (script argv0) env0.
Definition run_cached : (Exn + unit) * World := run (script argv0) env_cached.
Definition run_abs : (Exn + unit) * World := run (script argv_abs) env0.
Definition run_wide : (Exn + unit) * World := run (script argv_wide) env_wide.
Definition run_mismatch : (Exn + unit) * World := run (script argv_wide) env0.
Definition run_tags : (Exn + unit) * World := run (script argv_tags) env0.
Definition run_export : (Exn + unit) * World := run (script argv_export) env0.

End Toy.

(** ** The shape of a run's trace

    The answers of the collaborators are not known in advance, but the
    calls the driver makes, their arguments and their order are.  The
    definitions below describe the trace of every run in terms of those
    answers. *)
Section Shape.
Context {Obj : Objects} {C : Collaborators}.

(** The namespace after lines 70-73. *)
Definition adjusted (a : args.t) : args.t :=
  if args.feature_size a >? args.graph_embed_size a
  then args.set_graph_embed_size a (args.feature_size a)
  else a.

Definition warning_events (a : args.t) : list Event :=
  if args.feature_size a >? args.graph_embed_size a
  then [EvStderr warning_text] else [].

Definition model_dir_of (a : args.t) : string :=
  os_path_join "models" (args.dataset a).

Definition processed_path (a : args.t) : string :=
  os_path_join (args.input_dir a) "processed.bin".

Definition after_ggnn_dir_of (a : args.t) : string :=
  os_path_join (args.input_dir a) "after_ggnn".

Definition exists_in (e : Env) (path : string) : bool :=
  isfile e path || isdir e path.

(** [if not os.path.exists(path): os.makedirs(path)] *)
Definition mkdir_events (e : Env) (path : string) : list Event :=
  if exists_in e path then [] else [EvMakedirs path].

Definition seeded (e : Env) : Env :=
  set_numpy_rng (set_torch_rng e (rng_seed 1000)) (rng_seed 1000).

Definition cuda_line (e : Env) : Event :=
  EvStdout ("CUDA is " +:+ (if CUDA_of e then "enabled" else "disabled")).

(** Line 18 and lines 52-53. *)
Definition opening (e : Env) : list Event :=
  [cuda_line e; EvTorchManualSeed 1000; EvNumpySeed 1000].

(** Everything before the dataset is touched. *)
Definition prologue (e : Env) (a : args.t) : list Event :=
  opening e ++ warning_events a ++ mkdir_events e (model_dir_of a).

Definition dataset_events (a : args.t) (d : DataSet) : list Event :=
  [EvDataSet (dataset_args a) (inr d); EvPickleDump (processed_path a) d].

Definition kind_of (a : args.t) : ModelKind :=
  if String.eqb (args.model_type a) "ggnn" then KGGNN else KDevign.

Definition model_event (a : args.t) (d : DataSet) (r : Exn + Model) : Event :=
  EvModel (kind_of a) (DataSet_feature_size d) (args.graph_embed_size (adjusted a))
          (args.num_steps a) (DataSet_max_edge_type d) r.

Definition report_events (n : Z) : list Event :=
  [EvDebug ["Total Parameters : " +:+ pretty n]; EvDebug [str_repeat "#" 100]].

(** The trace up to the point where the model is built and reported. *)
Definition built (e : Env) (a : args.t) (d : DataSet) (m : Model) (n : Z)
    : list Event :=
  prologue e a ++ dataset_events a d ++ [model_event a d (inr m)] ++ report_events n.

Definition the_train_call (a : args.t) (d : DataSet) (m : Model) : TrainCall :=
  train_call (model_dir_of a) m d.

(** One iteration of the export loop that completed: the batch, the
    embeddings and the integer labels. *)
Record Fetched : Type := mkFetched {
  f_graph : Graph;
  f_targets : list float;
  f_output : list (list float);
  f_ints : list Z
}.

Definition fetched_ok (b : Fetched) : Prop :=
  mapM int_of_float (f_targets b) = inr (f_ints b).

Definition fetched_events (s : Split) (d : DataSet) (m : Model) (b : Fetched)
    : list Event :=
  [EvNextBatch s d (inr (f_graph b, f_targets b));
   EvEmbeddings m (f_graph b) (inr (f_output b))].

(** The pairs one iteration appends to [final]. *)
Definition fetched_rows (b : Fetched) : list (list float * Z) :=
  combine (f_output b) (f_ints b).

Definition split_name (s : Split) : string :=
  match s with Test => "test" | Valid => "valid" | Train => "train" end.

Definition export_path (output_dir : string) (s : Split) : string :=
  os_path_join output_dir (split_name s +:+ "_GGNNinput_graph.json").

(** What is written for a split whose iterations were [bs]. *)
Definition export_content (bs : list Fetched) : Json :=
  JList (map export_object (flat_map fetched_rows bs)).

(** The trace of one completed call of line 120, 121 or 122. *)
Definition split_events (output_dir : string) (s : Split) (d : DataSet)
    (m : Model) (n : Z) (bs : list Fetched) : list Event :=
  [EvInitBatch s d (inr n)]
  ++ flat_map (fetched_events s d m) bs
  ++ [EvStdout ("Saving to " +:+ export_path output_dir s);
      EvWrite (export_path output_dir s) (export_content bs)].

(** Entries that only the export stage produces. *)
Definition export_event (ev : Event) : bool :=
  match ev with
  | EvMakedirs _ | EvInitBatch _ _ _ | EvNextBatch _ _ _ | EvEmbeddings _ _ _
  | EvStdout _ | EvWrite _ _ => true
  | _ => false
  end.

(** The trace of lines 116-122 with the answer of the stage. *)
Inductive Export (a : args.t) (d : DataSet) (m : Model)
    : Exn + unit -> list Event -> Prop :=
  | Export_off :
      args.save_after_ggnn a = false ->
      Export a d m (inr tt) []
  | Export_done (dirs_ev : list Event) (nt nv nr : Z) (bt bv br : list Fetched) :
      args.save_after_ggnn a = true ->
      dirs_ev = [] \/ dirs_ev = [EvMakedirs (after_ggnn_dir_of a)] ->
      length bt = Z.to_nat nt -> length bv = Z.to_nat nv -> length br = Z.to_nat nr ->
      Forall fetched_ok bt -> Forall fetched_ok bv -> Forall fetched_ok br ->
      Export a d m (inr tt)
        (dirs_ev
         ++ split_events (after_ggnn_dir_of a) Test d m nt bt
         ++ split_events (after_ggnn_dir_of a) Valid d m nv bv
         ++ split_events (after_ggnn_dir_of a) Train d m nr br)
  | Export_failed (ex : Exn) (evs : list Event) :
      args.save_after_ggnn a = true ->
      forallb export_event evs = true ->
      Export a d m (inl ex) evs.

(** Every run of the script, by the point at which it ends. *)
Inductive Outcome (argv : cmdline.t) (e : Env) : Exn + unit -> list Event -> Prop :=
  | Out_usage (ex : Exn) :
      parse_args argv = inl ex ->
      Outcome argv e (inl ex) (opening e)
  | Out_model_dir (a : args.t) (ex : Exn) :
      parse_args argv = inr a ->
      exists_in e (model_dir_of a) = false ->
      (OS_makedirs (model_dir_of a) false (seeded e)).1 = inl ex ->
      Outcome argv e (inl ex) (prologue e a)
  | Out_dataset (a : args.t) (ex : Exn) :
      parse_args argv = inr a ->
      Outcome argv e (inl ex)
        (prologue e a ++ [EvDataSet (dataset_args a) (inl ex)])
  | Out_assert (a : args.t) (d : DataSet) :
      parse_args argv = inr a ->
      args.feature_size a <> DataSet_feature_size d ->
      Outcome argv e (inl (AssertionError assertion_text))
        (prologue e a ++ dataset_events a d)
  | Out_model (a : args.t) (d : DataSet) (ex : Exn) :
      parse_args argv = inr a ->
      args.feature_size a = DataSet_feature_size d ->
      Outcome argv e (inl ex)
        (prologue e a ++ dataset_events a d ++ [model_event a d (inl ex)])
  | Out_tally (a : args.t) (d : DataSet) (m : Model) (ex : Exn) :
      parse_args argv = inr a ->
      args.feature_size a = DataSet_feature_size d ->
      Outcome argv e (inl ex)
        (prologue e a ++ dataset_events a d ++ [model_event a d (inr m)])
  | Out_cuda (a : args.t) (d : DataSet) (m : Model) (n : Z) (ex : Exn) :
      parse_args argv = inr a ->
      args.feature_size a = DataSet_feature_size d ->
      CUDA_of e = true ->
      Outcome argv e (inl ex) (built e a d m n ++ [EvModelCuda m (inl ex)])
  | Out_train (a : args.t) (d : DataSet) (m : Model) (n : Z) (cuda_ev : list Event)
      (ex : Exn) :
      parse_args argv = inr a ->
      args.feature_size a = DataSet_feature_size d ->
      cuda_ev = (if CUDA_of e then [EvModelCuda m (inr tt)] else []) ->
      Outcome argv e (inl ex)
        (built e a d m n ++ cuda_ev ++ [EvTrain (the_train_call a d m) (inl ex)])
  | Out_trained (a : args.t) (d : DataSet) (m : Model) (n : Z) (cuda_ev : list Event)
      (r : Exn + unit) (evs : list Event) :
      parse_args argv = inr a ->
      args.feature_size a = DataSet_feature_size d ->
      cuda_ev = (if CUDA_of e then [EvModelCuda m (inr tt)] else []) ->
      Export a d m r evs ->
      Outcome argv e r
        (built e a d m n ++ cuda_ev ++ [EvTrain (the_train_call a d m) (inr tt)] ++ evs).

(** The entries of a run, by the stage that wrote them. *)
Inductive Entry (e : Env) (a : args.t) : Event -> Prop :=
  | Entry_opening ev : In ev (opening e) -> Entry e a ev
  | Entry_warning :
      args.feature_size a > args.graph_embed_size a ->
      Entry e a (EvStderr warning_text)
  | Entry_model_dir : Entry e a (EvMakedirs (model_dir_of a))
  | Entry_dataset rd : Entry e a (EvDataSet (dataset_args a) rd)
  | Entry_dump d : Entry e a (EvPickleDump (processed_path a) d)
  | Entry_model d rm : Entry e a (model_event a d rm)
  | Entry_report msg : Entry e a (EvDebug msg)
  | Entry_model_cuda m rc : CUDA_of e = true -> Entry e a (EvModelCuda m rc)
  | Entry_train d m rt : Entry e a (EvTrain (the_train_call a d m) rt)
  | Entry_export ev : export_event ev = true -> Entry e a ev.

(** Entries written after the model is built. *)
Definition late_event (ev : Event) : bool :=
  match ev with
  | EvDebug _ | EvModelCuda _ _ | EvTrain _ _ => true
  | _ => export_event ev
  end.

(** The model returned one embedding per label of the batch. *)
Definition one_row_per_example (b : Fetched) : Prop :=
  length (f_output b) = length (f_targets b).

End Shape.

(** ** Definitions for the further properties *)
Section FurtherDefinitions.
Context {Obj : Objects} {C : Collaborators}.

(** Every run of [c] only appends to the trace, and what it appends
    satisfies [P]. *)
Definition emits {A : Type} (P : Event -> Prop) (c : M A) : Prop :=
  forall w r w', c w = (r, w') ->
    exists evs, trace w' = trace w ++ evs /\ Forall P evs.

(** The entries of the export loop: a batch fetched from split [s], or the
    embeddings of a batch. *)
Definition fetch_entry (s : Split) (d : DataSet) (m : Model) (ev : Event) : Prop :=
  (exists rb, ev = EvNextBatch s d rb) \/ (exists g ro, ev = EvEmbeddings m g ro).

(** The part of the [__main__] block that follows the construction of the
    dataset (lines 93-122). *)
Definition after_dataset (CUDA : bool) (a : args.t) (model_dir : string)
    (dataset : DataSet) : M unit :=
  assert_feature_size a dataset;;
  model ← build_model a dataset;
  n ← ext (tally_param model);
  debug ["Total Parameters : " +:+ pretty n];;
  debug [str_repeat "#" 100];;
  (if CUDA then call (EvModelCuda model) (Model_cuda model) else mret tt);;
  let tc := train_call model_dir model dataset in
  call (EvTrain tc) (train tc);;
  export_embeddings CUDA a model (tc_loss_function tc) dataset.

(** The part that follows the parsing of the command line (lines 70-122). *)
Definition after_parse (CUDA : bool) (a : args.t) : M unit :=
  a ← check_embed_size a;
  let model_dir := os_path_join "models" (args.dataset a) in
  x ← os_path_exists model_dir;
  (if negb x then os_makedirs model_dir false else mret tt);;
  dataset ← load_dataset a;
  after_dataset CUDA a model_dir dataset.

Definition is_dataset_call (ev : Event) : bool :=
  match ev with EvDataSet _ _ => true | _ => false end.

Definition is_model_call (ev : Event) : bool :=
  match ev with EvModel _ _ _ _ _ _ => true | _ => false end.

Definition is_train_call (ev : Event) : bool :=
  match ev with EvTrain _ _ => true | _ => false end.

(** Entries of the export stage proper: batch iteration, readout, file. *)
Definition is_export_call (ev : Event) : bool :=
  match ev with
  | EvInitBatch _ _ _ | EvNextBatch _ _ _ | EvEmbeddings _ _ _ | EvWrite _ _ => true
  | _ => false
  end.

(** A call of [get_fn]. *)
Definition is_fetch_call (ev : Event) : bool :=
  match ev with EvNextBatch _ _ _ => true | _ => false end.

(** How many entries of a trace satisfy [p]. *)
Definition calls (p : Event -> bool) (l : list Event) : nat :=
  length (List.filter p l).

(** [path] begins with [dir]. *)
Definition under (dir path : string) : Prop := startswith path dir = true.

(** The paths an entry names lie under the input directory, the model
    directory apart. *)
Definition paths_under (input_dir model_dir : string) (ev : Event) : Prop :=
  match ev with
  | EvDataSet da _ =>
      under input_dir (train_src da) /\ under input_dir (valid_src da)
      /\ under input_dir (test_src da)
  | EvPickleDump path _ | EvPickleLoad path _ | EvWrite path _ => under input_dir path
  | EvMakedirs path => path = model_dir \/ under input_dir path
  | EvTrain tc _ => under model_dir (tc_save_path tc)
  | _ => True
  end.

(** What [os.path.join] puts between its components. *)
Definition sep_of (a : string) : string :=
  if String.eqb a "" || endswith_sep a then "" else "/".

(** The files the driver writes: the pickle and the three exports. *)
Definition writes_only (a : args.t) (ev : Event) : Prop :=
  match ev with
  | EvPickleDump path _ => path = processed_path a
  | EvWrite path _ => exists s, path = export_path (after_ggnn_dir_of a) s
  | _ => True
  end.

(** A call into a collaborator that leaves the file at [path] as it is. *)
Definition keeps_file {A : Type} (path : string) (f : Ext A) : Prop :=
  forall e, files (f e).2 !! path = files e !! path.

(** None of the collaborators, the operating system among them, changes
    the file at [path]. *)
Definition collaborators_keep (path : string) : Prop :=
  (forall da, keeps_file path (DataSet_init da))
  /\ (forall s d, keeps_file path (DataSet_initialize_batch s d))
  /\ (forall s d, keeps_file path (DataSet_get_next_batch s d))
  /\ (forall i o n t, keeps_file path (GGNNSum_init i o n t))
  /\ (forall i o n t, keeps_file path (DevignModel_init i o n t))
  /\ (forall m g c, keeps_file path (Model_call m g c))
  /\ (forall m g, keeps_file path (Model_get_graph_embeddings m g))
  /\ (forall m, keeps_file path (Model_cuda m))
  /\ (forall g, keeps_file path (Graph_cuda g))
  /\ (forall g, keeps_file path (Graph_graph_to_cuda g))
  /\ (forall t, keeps_file path (Tensor_cuda t))
  /\ (forall lf p t, keeps_file path (LossFn_call lf p t))
  /\ (forall m, keeps_file path (tally_param m))
  /\ (forall tc, keeps_file path (train tc))
  /\ (forall p ok, keeps_file path (OS_makedirs p ok))
  /\ (forall p, keeps_file path (OS_open_w p)).

(** A computation that leaves the file at [path] as it is. *)
Definition preserves {A : Type} (path : string) (c : M A) : Prop :=
  forall w r w', c w = (r, w') -> files (env w') !! path = files (env w) !! path.
End FurtherDefinitions.

(** Further concrete inputs over the toy collaborators. *)
Module ToyMore.
Import Toy.

(** [--input_dir data], without [--dataset]. *)
Definition argv_no_dataset : cmdline.t :=
  cmdline.mk None None (Some "data") None None None None None None None false.

(** The toy collaborators, with a dataset whose labels are not numbers. *)
Definition nan_labels : Collaborators := {|
  rng_seed := fun seed => seed;
  DataSet_init := fun _ e => (inr (heap e).1, e);
  DataSet_feature_size := fun d => d;
  DataSet_max_edge_type := fun _ => 4;
  DataSet_len_examples := fun _ _ => 4;
  DataSet_initialize_batch := fun _ _ => answer 2;
  DataSet_get_next_batch := fun _ _ => answer (0%nat, [1%float; nan]);
  GGNNSum_init := fun _ output_dim _ _ => answer (KGGNN, output_dim);
  DevignModel_init := fun _ output_dim _ _ => answer (KDevign, output_dim);
  Model_call := fun _ _ _ => answer [0.75%float; 0.25%float];
  Model_get_graph_embeddings := fun _ _ =>
    answer [[0.5%float; 0.5%float]; [0.25%float; 0.25%float]];
  Model_cuda := fun _ => answer tt;
  Graph_cuda := fun _ => answer tt;
  Graph_graph_to_cuda := fun _ => answer tt;
  Tensor_cuda := fun _ => answer tt;
  LossFn_call := fun _ _ _ => answer 1%float;
  tally_param := fun _ => answer 42;
  train := fun _ => answer tt;
  OS_makedirs := makedirs;
  OS_open_w := open_w
|}.

(** [--dataset .. --input_dir data]: the model directory is [models/..]. *)
Definition argv_dotdot : cmdline.t :=
  cmdline.mk None (Some "..") (Some "data") None None None None None None None false.

Definition args_dotdot : args.t :=
  args.mk "devign" ".." "data" "node_features" "graph" "target" 100 200 6 128 false.

Definition run_dotdot : (Exn + unit) * World := run (script argv_dotdot) env0.

(** As [env0], with the three JSON files of the dataset in place. *)
Definition env_data : Env :=
  mkEnv ∅ {["data/train_GGNNinput.json" := FRaw "[]";
            "data/valid_GGNNinput.json" := FRaw "[]";
            "data/test_GGNNinput.json" := FRaw "[]"]}
        {["data"]} 0 0 (100, 0%nat).

(** As [env0], with a directory [out]. *)
Definition env_out : Env := mkEnv ∅ ∅ {["out"]} 0 0 (100, 0%nat).

(** A call of [save_after_ggnn] on the test split, two batches, into a
    directory that exists. *)
Definition save_test : (Exn + unit) * World :=
  save_after_ggnn false "out" (KDevign, 200) (BCELoss "sum") "test" 2
    (call (EvNextBatch Test 100) (DataSet_get_next_batch Test 100)) print
    (mkWorld env_out []).

(** The same call where there is no directory [out]. *)
Definition save_test_missing : (Exn + unit) * World :=
  save_after_ggnn false "out" (KDevign, 200) (BCELoss "sum") "test" 2
    (call (EvNextBatch Test 100) (DataSet_get_next_batch Test 100)) print
    (mkWorld env0 []).

(** The same call over the dataset with a label that is not a number. *)
Definition save_test_nan : (Exn + unit) * World :=
  save_after_ggnn (C := nan_labels) false "out" (KDevign, 200) (BCELoss "sum") "test" 2
    (call (EvNextBatch Test 100) (DataSet_get_next_batch (Collaborators := nan_labels) Test 100))
    print (mkWorld env0 []).
End ToyMore.

(** ** Running the driver step by step *)
Section Stepping.
Context {Obj : Objects} {C : Collaborators}.

Lemma bind_run {A B : Type} (c : M A) (k : A -> M B) (w : World) :
  (c ≫= k) w = match c w with
               | (inl ex, w') => (inl ex, w')
               | (inr x, w') => k x w'
               end.
Proof. reflexivity. Qed.

Lemma bind_inv {A B : Type} (c : M A) (k : A -> M B) (w w' : World) (r : Exn + B) :
  (c ≫= k) w = (r, w') ->
  (exists ex, c w = (inl ex, w') /\ r = inl ex) \/
  (exists x w1, c w = (inr x, w1) /\ k x w1 = (r, w')).
Proof.
  rewrite bind_run. destruct (c w) as [[ex | x] w1]; intros H.
  - left. exists ex. inversion H; subst. split; reflexivity.
  - right. exists x, w1. split; [reflexivity | exact H].
Qed.

Lemma ext_inv {A : Type} (f : Ext A) (w w' : World) (r : Exn + A) :
  ext f w = (r, w') -> trace w' = trace w /\ f (env w) = (r, env w').
Proof.
  unfold ext. destruct (f (env w)) as [r1 e1]. intros H. inversion H; subst.
  split; reflexivity.
Qed.

Lemma call_inv {A : Type} (mk : Exn + A -> Event) (f : Ext A) (w w' : World)
    (r : Exn + A) :
  call mk f w = (r, w') -> trace w' = trace w ++ [mk r] /\ f (env w) = (r, env w').
Proof.
  unfold call. destruct (f (env w)) as [r1 e1]. intros H. inversion H; subst.
  split; reflexivity.
Qed.

Lemma log_run (ev : Event) (w : World) :
  log ev w = (inr tt, mkWorld (env w) (trace w ++ [ev])).
Proof. reflexivity. Qed.

Lemma world_eta (w : World) : mkWorld (env w) (trace w) = w.
Proof. destruct w; reflexivity. Qed.

(** *** The namespace after the embedding-size check *)

Lemma adjusted_feature_size a : args.feature_size (adjusted a) = args.feature_size a.
Proof. unfold adjusted. destruct (_ >? _); reflexivity. Qed.

Lemma adjusted_dataset a : args.dataset (adjusted a) = args.dataset a.
Proof. unfold adjusted. destruct (_ >? _); reflexivity. Qed.

Lemma adjusted_input_dir a : args.input_dir (adjusted a) = args.input_dir a.
Proof. unfold adjusted. destruct (_ >? _); reflexivity. Qed.

Lemma adjusted_model_type a : args.model_type (adjusted a) = args.model_type a.
Proof. unfold adjusted. destruct (_ >? _); reflexivity. Qed.

Lemma adjusted_num_steps a : args.num_steps (adjusted a) = args.num_steps a.
Proof. unfold adjusted. destruct (_ >? _); reflexivity. Qed.

Lemma adjusted_save_after_ggnn a :
  args.save_after_ggnn (adjusted a) = args.save_after_ggnn a.
Proof. unfold adjusted. destruct (_ >? _); reflexivity. Qed.

Lemma adjusted_dataset_args a : dataset_args (adjusted a) = dataset_args a.
Proof. unfold adjusted. destruct (_ >? _); reflexivity. Qed.

Lemma adjusted_graph_embed_size a :
  args.graph_embed_size (adjusted a)
  = Z.max (args.feature_size a) (args.graph_embed_size a).
Proof.
  unfold adjusted. destruct (Z.gtb_spec (args.feature_size a) (args.graph_embed_size a));
    simpl; lia.
Qed.

(** *** Stage by stage *)

Lemma check_embed_size_run a w :
  check_embed_size a w
  = (inr (adjusted a), mkWorld (env w) (trace w ++ warning_events a)).
Proof.
  unfold check_embed_size, adjusted, warning_events.
  destruct (_ >? _).
  - reflexivity.
  - rewrite app_nil_r, world_eta. reflexivity.
Qed.

(** [if not os.path.exists(path): os.makedirs(path, exist_ok=ok)], and
    what follows it when the directory is there or could be made. *)
Lemma ensure_dir_run {B : Type} path ok (k : unit -> M B) w :
  (os_path_exists path ≫= λ x : bool,
     (if negb x then os_makedirs path ok else mret tt) ≫= k) w
  = if exists_in (env w) path then k tt w
    else match OS_makedirs path ok (env w) with
         | (inl ex, e1) => (inl ex, mkWorld e1 (trace w ++ [EvMakedirs path]))
         | (inr _, e1) => k tt (mkWorld e1 (trace w ++ [EvMakedirs path]))
         end.
Proof.
  rewrite bind_run. unfold os_path_exists at 1. rewrite bind_run. simpl.
  unfold exists_in.
  destruct (isfile (env w) path || isdir (env w) path) eqn:Hex; simpl.
  - rewrite bind_run. simpl. reflexivity.
  - rewrite bind_run. unfold os_makedirs. rewrite bind_run, log_run. simpl.
    unfold ext. simpl.
    destruct (OS_makedirs path ok (env w)) as [[ex | []] e1]; reflexivity.
Qed.

Lemma ensure_dir_inv {B : Type} path ok (k : unit -> M B) w r w' :
  (os_path_exists path ≫= λ x : bool,
     (if negb x then os_makedirs path ok else mret tt) ≫= k) w = (r, w') ->
  (exists ex, exists_in (env w) path = false
              /\ (OS_makedirs path ok (env w)).1 = inl ex
              /\ r = inl ex
              /\ trace w' = trace w ++ mkdir_events (env w) path)
  \/ (exists e1, k tt (mkWorld e1 (trace w ++ mkdir_events (env w) path)) = (r, w')).
Proof.
  rewrite ensure_dir_run. unfold mkdir_events.
  destruct (exists_in (env w) path) eqn:Hex.
  - intros H. right. exists (env w). rewrite app_nil_r, world_eta. exact H.
  - destruct (OS_makedirs path ok (env w)) as [[ex | []] e1] eqn:Hmk; intros H.
    + left. exists ex. injection H as <- <-. repeat split.
    + right. exists e1. exact H.
Qed.

Lemma load_dataset_inv a w r w' :
  load_dataset a w = (r, w') ->
  (exists ex, r = inl ex /\ trace w' = trace w ++ [EvDataSet (dataset_args a) (inl ex)])
  \/ (exists d, r = inr d /\ trace w' = trace w ++ dataset_events a d
                /\ files (env w') !! processed_path a = Some (FPickle d)).
Proof.
  unfold load_dataset, py_and. rewrite bind_run. simpl. intros H.
  apply bind_inv in H as [(ex & Hc & ->) | (d & w1 & Hc & H)];
    apply call_inv in Hc as [Ht _].
  - left. exists ex. split; [reflexivity | exact Ht].
  - unfold pickle_dump in H. rewrite !bind_run in H. simpl in H.
    inversion H; subst. right. exists d. simpl. rewrite Ht.
    split; [reflexivity |]. split.
    + rewrite <- app_assoc. reflexivity.
    + apply lookup_insert_eq.
Qed.

Lemma build_model_inv a d w r w' :
  build_model (adjusted a) d w = (r, w') ->
  trace w' = trace w ++ [model_event a d r].
Proof.
  unfold build_model, model_event, kind_of.
  rewrite adjusted_model_type, adjusted_num_steps.
  destruct (String.eqb (args.model_type a) "ggnn"); intros H;
    apply call_inv in H as [Ht _]; exact Ht.
Qed.

(** *** The export loop *)

Lemma lift_inv {A : Type} (x : Exn + A) (w w' : World) (r : Exn + A) :
  lift x w = (r, w') -> r = x /\ w' = w.
Proof. unfold lift. intros H. inversion H; subst. split; reflexivity. Qed.

(** The forward pass leaves no entry, on either device. *)
Lemma predictions_inv (CUDA : bool) m g t w r w' :
  (if CUDA then
     ext (Graph_cuda g);; ext (Graph_graph_to_cuda g);; ext (Tensor_cuda t);;
     ext (Model_call m g true)
   else ext (Model_call m g false)) w = (r, w') ->
  trace w' = trace w.
Proof.
  destruct CUDA; intros H.
  - apply bind_inv in H as [(ex & Hc & ->) | (x1 & w1 & Hc & H)];
      apply ext_inv in Hc as [Ht1 _]; [exact Ht1 |].
    apply bind_inv in H as [(ex & Hc & ->) | (x2 & w2 & Hc & H)];
      apply ext_inv in Hc as [Ht2 _]; [congruence |].
    apply bind_inv in H as [(ex & Hc & ->) | (x3 & w3 & Hc & H)];
      apply ext_inv in Hc as [Ht3 _]; [congruence |].
    apply ext_inv in H as [Ht4 _]. congruence.
  - apply ext_inv in H as [Ht _]. exact Ht.
Qed.

Lemma fetched_events_export s d m bs :
  forallb export_event (flat_map (fetched_events s d m) bs) = true.
Proof. induction bs as [| b bs IH]; simpl; [reflexivity | exact IH]. Qed.

Lemma save_loop_inv (CUDA : bool) m lf s d n :
  forall acc w r w',
    save_after_ggnn_loop CUDA m lf
      (call (EvNextBatch s d) (DataSet_get_next_batch s d)) n acc w = (r, w') ->
    (exists acc' bs,
        r = inr acc' /\ length bs = n /\ Forall fetched_ok bs
        /\ trace w' = trace w ++ flat_map (fetched_events s d m) bs
        /\ final acc' = final acc ++ flat_map fetched_rows bs)
    \/ (exists ex evs,
           r = inl ex /\ trace w' = trace w ++ evs
           /\ forallb export_event evs = true).
Proof.
  induction n as [| n IH]; intros acc w r w' H.
  - inversion H; subst. left. exists acc, []. simpl.
    rewrite !app_nil_r. repeat split; constructor.
  - simpl in H.
    apply bind_inv in H as [(ex & Hc & ->) | ([g t] & w1 & Hc & H)];
      apply call_inv in Hc as [Ht1 _].
    { right. exists ex, [EvNextBatch s d (inl ex)]. repeat split; assumption. }
    apply bind_inv in H as [(ex & Hc & ->) | (preds & w2 & Hc & H)];
      apply predictions_inv in Hc; rename Hc into Ht2.
    { right. exists ex, [EvNextBatch s d (inr (g, t))]. rewrite Ht2.
      repeat split; assumption. }
    apply bind_inv in H as [(ex & Hc & ->) | (loss & w3 & Hc & H)];
      apply ext_inv in Hc as [Ht3 _].
    { right. exists ex, [EvNextBatch s d (inr (g, t))]. rewrite Ht3, Ht2.
      repeat split; assumption. }
    apply bind_inv in H as [(ex & Hc & ->) | (out & w4 & Hc & H)];
      apply call_inv in Hc as [Ht4 _].
    { right. exists ex, [EvNextBatch s d (inr (g, t)); EvEmbeddings m g (inl ex)].
      rewrite Ht4, Ht3, Ht2, Ht1, <- app_assoc. repeat split. }
    apply bind_inv in H as [(ex & Hc & ->) | (ints & w5 & Hc & H)];
      apply lift_inv in Hc as [Hints ->].
    { right. exists ex, [EvNextBatch s d (inr (g, t)); EvEmbeddings m g (inr out)].
      rewrite Ht4, Ht3, Ht2, Ht1, <- app_assoc. repeat split. }
    assert (Hpre : trace w4 = trace w ++ fetched_events s d m (mkFetched g t out ints)).
    { rewrite Ht4, Ht3, Ht2, Ht1, <- app_assoc. reflexivity. }
    apply IH in H as [(acc' & bs & -> & Hlen & Hok & Ht & Hfin)
                     | (ex & evs & -> & Ht & Hev)].
    + left. exists acc', (mkFetched g t out ints :: bs). simpl in Hfin.
      split; [reflexivity |]. split; [simpl; congruence |].
      split; [constructor; [symmetry; exact Hints | exact Hok] |].
      split.
      * rewrite Ht, Hpre, <- app_assoc. reflexivity.
      * rewrite Hfin, <- app_assoc. reflexivity.
    + right. exists ex, (fetched_events s d m (mkFetched g t out ints) ++ evs).
      split; [reflexivity |]. split.
      * rewrite Ht, Hpre, <- app_assoc. reflexivity.
      * simpl. exact Hev.
Qed.

Lemma split_events_export dir s d m n bs :
  forallb export_event (split_events dir s d m n bs) = true.
Proof.
  unfold split_events. rewrite !forallb_app, fetched_events_export. reflexivity.
Qed.

Lemma write_json_run path value w :
  write_json path value w
  = match OS_open_w path (env w) with
    | (inl ex, e1) => (inl ex, mkWorld e1 (trace w))
    | (inr _, e1) =>
        (inr tt, mkWorld (set_files e1 (<[path := FJson value]> (files e1)))
                         (trace w ++ [EvWrite path value]))
    end.
Proof.
  unfold write_json. rewrite bind_run. unfold ext.
  destruct (OS_open_w path (env w)) as [[ex | []] e1]; reflexivity.
Qed.

(** Lines 45-49, after the loop. *)
Lemma save_tail_inv path value w r w' :
  (print ("Saving to " +:+ path) ≫= λ _, write_json path value) w = (r, w') ->
  (exists ex, r = inl ex /\ (OS_open_w path (env w)).1 = inl ex
              /\ trace w' = trace w ++ [EvStdout ("Saving to " +:+ path)])
  \/ (r = inr tt
      /\ (OS_open_w path (env w)).1 = inr tt
      /\ trace w' = trace w ++ [EvStdout ("Saving to " +:+ path); EvWrite path value]
      /\ files (env w') !! path = Some (FJson value)).
Proof.
  unfold print. rewrite bind_run, log_run, write_json_run. cbn [env trace].
  destruct (OS_open_w path (env w)) as [[ex | []] e1]; intros H; injection H as <- <-.
  - left. exists ex. repeat split.
  - right. cbn [env trace]. rewrite <- app_assoc. repeat split.
    apply lookup_insert_eq.
Qed.

(** One of lines 120-122: [initialize_*_batch()] is evaluated first, then
    the call itself. *)
Lemma export_split_inv {B : Type} (CUDA : bool) dir m lf s d (k : unit -> M B) w r w' :
  (call (EvInitBatch s d) (DataSet_initialize_batch s d) ≫= λ n : Z,
     save_after_ggnn CUDA dir m lf (split_name s) n
       (call (EvNextBatch s d) (DataSet_get_next_batch s d)) print ≫= k) w
  = (r, w') ->
  (exists n bs w1,
      length bs = Z.to_nat n /\ Forall fetched_ok bs
      /\ trace w1 = trace w ++ split_events dir s d m n bs
      /\ k tt w1 = (r, w'))
  \/ (exists ex evs,
         r = inl ex /\ trace w' = trace w ++ evs /\ forallb export_event evs = true).
Proof.
  intros H.
  apply bind_inv in H as [(ex & Hc & ->) | (n & w1 & Hc & H)];
    apply call_inv in Hc as [Ht1 _].
  { right. exists ex, [EvInitBatch s d (inl ex)]. repeat split; assumption. }
  apply bind_inv in H as [(ex & Hc & ->) | ([] & w2 & Hc & H)].
  - right. unfold save_after_ggnn in Hc.
    apply bind_inv in Hc as [(ex' & Hc & Heq) | (acc & w3 & Hc & H)].
    + apply save_loop_inv in Hc as [(? & ? & ? & _) | (ex2 & evs & _ & Ht & Hev)];
        [discriminate |].
      exists ex, (EvInitBatch s d (inr n) :: evs).
      rewrite Ht, Ht1, <- app_assoc. repeat split. exact Hev.
    + apply save_loop_inv in Hc as [(acc' & bs & _ & _ & _ & Ht & _)
                                   | (? & ? & ? & _)]; [| discriminate].
      apply save_tail_inv in H as [(ex2 & _ & _ & Ht2) | (? & _)]; [| discriminate].
      eexists ex, (EvInitBatch s d (inr n) :: flat_map (fetched_events s d m) bs ++ [_]).
      rewrite Ht2, Ht, Ht1, <- !app_assoc. split; [reflexivity |].
      split; [reflexivity |]. simpl.
      rewrite forallb_app, fetched_events_export. reflexivity.
  - left. unfold save_after_ggnn in Hc.
    apply bind_inv in Hc as [(ex' & Hc & Heq) | (acc & w3 & Hc & Hw)];
      [discriminate |].
    apply save_loop_inv in Hc as [(acc' & bs & Hacc & Hlen & Hok & Ht & Hfin)
                                 | (? & ? & ? & _)]; [| discriminate].
    inversion Hacc; subst acc'; clear Hacc.
    apply save_tail_inv in Hw as [(? & ? & _) | (_ & _ & Ht2 & _)]; [discriminate |].
    exists n, bs, w2. split; [exact Hlen |]. split; [exact Hok |].
    split; [| exact H]. simpl in Hfin.
    rewrite Ht2, Ht, Ht1, Hfin. unfold split_events, export_content, export_path.
    rewrite <- !app_assoc. reflexivity.
Qed.

Lemma bind_mret {A : Type} (c : M A) (w : World) : (c ≫= mret) w = c w.
Proof. rewrite bind_run. destruct (c w) as [[ex | x] w1]; reflexivity. Qed.

Lemma mkdir_events_cases e path :
  mkdir_events e path = [] \/ mkdir_events e path = [EvMakedirs path].
Proof. unfold mkdir_events. destruct (exists_in e path); [left | right]; reflexivity. Qed.

Lemma mkdir_events_export e path : forallb export_event (mkdir_events e path) = true.
Proof. destruct (mkdir_events_cases e path) as [-> | ->]; reflexivity. Qed.

Lemma export_embeddings_inv (CUDA : bool) a m lf d w r w' :
  export_embeddings CUDA a m lf d w = (r, w') ->
  exists evs, trace w' = trace w ++ evs /\ Export a d m r evs.
Proof.
  unfold export_embeddings. destruct (args.save_after_ggnn a) eqn:Hflag.
  2: { intros H. inversion H; subst. exists []. rewrite app_nil_r.
       split; [reflexivity | constructor; exact Hflag]. }
  intros H. pose proof (mkdir_events_export (env w) (after_ggnn_dir_of a)) as Hmk.
  apply ensure_dir_inv in H as [(ex & _ & _ & -> & Ht) | (e1 & H)].
  { eexists. split; [exact Ht |]. apply Export_failed; [exact Hflag | exact Hmk]. }
  set (w0 := mkWorld e1 _) in H.
  assert (Hw0 : trace w0 = trace w ++ mkdir_events (env w) (after_ggnn_dir_of a))
    by reflexivity.
  apply (export_split_inv CUDA _ m lf Test d) in H
    as [(nt & bt & w1 & Hlt & Hokt & Ht1 & H) | (ex & evs & -> & Ht & Hev)].
  2: { eexists. rewrite Ht, Hw0, <- app_assoc. split; [reflexivity |].
       apply Export_failed; [exact Hflag |]. rewrite forallb_app, Hmk. exact Hev. }
  apply (export_split_inv CUDA _ m lf Valid d) in H
    as [(nv & bv & w2 & Hlv & Hokv & Ht2 & H) | (ex & evs & -> & Ht & Hev)].
  2: { eexists. rewrite Ht, Ht1, Hw0, <- !app_assoc. split; [reflexivity |].
       apply Export_failed; [exact Hflag |].
       rewrite !forallb_app, Hmk, split_events_export. exact Hev. }
  assert (H' : (call (EvInitBatch Train d) (DataSet_initialize_batch Train d) ≫= λ n : Z,
                  save_after_ggnn CUDA (os_path_join (args.input_dir a) "after_ggnn")
                    m lf (split_name Train) n
                    (call (EvNextBatch Train d) (DataSet_get_next_batch Train d)) print
                  ≫= mret) w2 = (r, w')).
  { rewrite bind_run in H |- *.
    destruct (call (EvInitBatch Train d) (DataSet_initialize_batch Train d) w2)
      as [[ex | n] w3]; [exact H |]. rewrite bind_mret. exact H. }
  clear H.
  apply (export_split_inv CUDA _ m lf Train d) in H'
    as [(nr & br & w3 & Hlr & Hokr & Ht3 & H) | (ex & evs & -> & Ht & Hev)].
  2: { eexists. rewrite Ht, Ht2, Ht1, Hw0, <- !app_assoc. split; [reflexivity |].
       apply Export_failed; [exact Hflag |].
       rewrite !forallb_app, Hmk, !split_events_export. exact Hev. }
  inversion H; subst r w3; clear H.
  eexists. rewrite Ht3, Ht2, Ht1, Hw0, <- !app_assoc. split; [reflexivity |].
  apply Export_done; try assumption. apply mkdir_events_cases.
Qed.

Lemma export_embeddings_adjusted (CUDA : bool) a m lf d :
  export_embeddings CUDA (adjusted a) m lf d = export_embeddings CUDA a m lf d.
Proof.
  unfold export_embeddings.
  rewrite adjusted_save_after_ggnn, adjusted_input_dir. reflexivity.
Qed.

Lemma torch_manual_seed_run seed w :
  torch_manual_seed seed w
  = (inr tt, mkWorld (set_torch_rng (env w) (rng_seed seed))
                     (trace w ++ [EvTorchManualSeed seed])).
Proof. reflexivity. Qed.

Lemma np_random_seed_run seed w :
  np_random_seed seed w
  = (inr tt, mkWorld (set_numpy_rng (env w) (rng_seed seed))
                     (trace w ++ [EvNumpySeed seed])).
Proof. reflexivity. Qed.

(** Lines 17-18 and 52-53 do not depend on the command line. *)
Lemma script_opening argv e :
  run (script argv) e
  = (lift (parse_args argv) ≫= λ a,
       check_embed_size a ≫= λ a,
         let model_dir := os_path_join "models" (args.dataset a) in
         os_path_exists model_dir ≫= λ x : bool,
           (if negb x then os_makedirs model_dir false else mret tt) ≫= λ _,
             load_dataset a ≫= λ dataset,
               assert_feature_size a dataset ≫= λ _,
                 build_model a dataset ≫= λ model,
                   ext (tally_param model) ≫= λ n,
                     debug ["Total Parameters : " +:+ pretty n] ≫= λ _,
                       debug [str_repeat "#" 100] ≫= λ _,
                         (if CUDA_of e
                          then call (EvModelCuda model) (Model_cuda model)
                          else mret tt) ≫= λ _,
                           let tc := train_call model_dir model dataset in
                           call (EvTrain tc) (train tc) ≫= λ _,
                             export_embeddings (CUDA_of e) a model
                               (tc_loss_function tc) dataset)
      (mkWorld (seeded e) (opening e)).
Proof. reflexivity. Qed.

Theorem script_outcome argv e r w :
  run (script argv) e = (r, w) -> Outcome argv e r (trace w).
Proof.
  rewrite script_opening. intros H.
  rewrite bind_run in H. unfold lift at 1 in H.
  destruct (parse_args argv) as [ex | a] eqn:Hp.
  { inversion H; subst. apply Out_usage. exact Hp. }
  rewrite bind_run, check_embed_size_run in H. cbv zeta in H.
  apply ensure_dir_inv in H. cbn [env trace] in H.
  rewrite adjusted_dataset in H. fold (model_dir_of a) in H.
  change (mkdir_events (seeded e) (model_dir_of a))
    with (mkdir_events e (model_dir_of a)) in H.
  change (exists_in (seeded e) (model_dir_of a))
    with (exists_in e (model_dir_of a)) in H.
  rewrite <- app_assoc in H. fold (prologue e a) in H.
  (* lines 75-77 *)
  destruct H as [(ex & Hex & Hmk & -> & Ht) | (e1 & H)].
  { rewrite Ht. apply Out_model_dir; assumption. }
  set (w0 := mkWorld e1 (prologue e a)) in H.
  (* lines 78-92 *)
  apply bind_inv in H as [(ex & Hc & ->) | (d & w1 & Hc & H)];
    apply load_dataset_inv in Hc
      as [(ex' & Hr & Ht) | (d' & Hr & Ht & _)]; try discriminate;
    unfold dataset_events, processed_path in Ht;
    rewrite ?adjusted_dataset_args, ?adjusted_input_dir in Ht.
  { inversion Hr; subst ex'. rewrite Ht. apply Out_dataset. exact Hp. }
  inversion Hr; subst d'; clear Hr.
  assert (Ht1 : trace w1 = prologue e a ++ dataset_events a d).
  { rewrite Ht. reflexivity. }
  clear Ht.
  (* lines 93-95 *)
  rewrite bind_run in H. unfold assert_feature_size at 1 in H.
  rewrite adjusted_feature_size in H.
  destruct (Z.eqb_spec (args.feature_size a) (DataSet_feature_size d)) as [Hfs | Hfs].
  2: { inversion H; subst. rewrite Ht1. apply Out_assert; assumption. }
  cbn [mret M_ret] in H.
  (* lines 96-101 *)
  apply bind_inv in H as [(ex & Hc & ->) | (m & w2 & Hc & H)];
    apply build_model_inv in Hc.
  { rewrite Hc, Ht1, <- app_assoc. apply Out_model; assumption. }
  (* line 103 *)
  apply bind_inv in H as [(ex & Hc' & ->) | (n & w3 & Hc' & H)];
    apply ext_inv in Hc' as [Ht3 _].
  { rewrite Ht3, Hc, Ht1, <- app_assoc. apply Out_tally; assumption. }
  rewrite bind_run in H. unfold debug at 1 in H. rewrite log_run in H.
  rewrite bind_run in H. unfold debug at 1 in H. rewrite log_run in H.
  cbn [env trace] in H.
  assert (Hb : (trace w3 ++ [EvDebug ["Total Parameters : " +:+ pretty n]])
               ++ [EvDebug [str_repeat "#" 100]] = built e a d m n).
  { rewrite Ht3, Hc, Ht1. unfold built, report_events.
    rewrite <- !app_assoc. reflexivity. }
  rewrite Hb in H. clear Hb.
  set (w4 := mkWorld (env w3) (built e a d m n)) in H.
  (* lines 105-106 *)
  assert (Hcuda : (exists ex, CUDA_of e = true /\ r = inl ex
                              /\ trace w = built e a d m n ++ [EvModelCuda m (inl ex)])
                  \/ (exists w5,
                         trace w5 = built e a d m n
                                    ++ (if CUDA_of e then [EvModelCuda m (inr tt)] else [])
                         /\ (call (EvTrain (the_train_call a d m))
                                  (train (the_train_call a d m)) ≫= λ _,
                               export_embeddings (CUDA_of e) (adjusted a) m
                                 (tc_loss_function (the_train_call a d m)) d) w5
                            = (r, w))).
  { unfold the_train_call. destruct (CUDA_of e) eqn:Hcu.
    - apply bind_inv in H as [(ex & Hc5 & ->) | ([] & w5 & Hc5 & H)];
        apply call_inv in Hc5 as [Ht5 _].
      + left. exists ex. repeat split. exact Ht5.
      + right. exists w5. split; [exact Ht5 | exact H].
    - rewrite bind_run in H. cbn [mret M_ret] in H. right. exists w4.
      split; [simpl; rewrite app_nil_r; reflexivity | exact H]. }
  clear H. destruct Hcuda as [(ex & Hcu & -> & Ht) | (w5 & Ht5 & H)].
  { rewrite Ht. apply Out_cuda; assumption. }
  (* lines 112-114 *)
  apply bind_inv in H as [(ex & Hc6 & ->) | ([] & w6 & Hc6 & H)];
    apply call_inv in Hc6 as [Ht6 _].
  { rewrite Ht6, Ht5, <- app_assoc.
    apply Out_train with (cuda_ev := if CUDA_of e then [EvModelCuda m (inr tt)] else []);
      auto. }
  (* lines 116-122 *)
  rewrite export_embeddings_adjusted in H.
  apply export_embeddings_inv in H as (evs & Ht7 & Hex).
  rewrite Ht7, Ht6, Ht5, <- !app_assoc.
  apply Out_trained with (cuda_ev := if CUDA_of e then [EvModelCuda m (inr tt)] else []);
    auto.
Qed.
End Stepping.

(** ** Which entries a trace can hold *)
Section Entries.
Context {Obj : Objects} {C : Collaborators}.

Lemma in_opening e ev :
  In ev (opening e) ->
  ev = cuda_line e \/ ev = EvTorchManualSeed 1000 \/ ev = EvNumpySeed 1000.
Proof. simpl. intuition. Qed.

Lemma in_warning_events a ev :
  In ev (warning_events a) ->
  ev = EvStderr warning_text /\ args.feature_size a > args.graph_embed_size a.
Proof.
  unfold warning_events.
  destruct (Z.gtb_spec (args.feature_size a) (args.graph_embed_size a)) as [Hgt | Hle];
    simpl; intros Hin; [| contradiction].
  destruct Hin as [<- | []]. split; [reflexivity | lia].
Qed.

Lemma in_mkdir_events e path ev : In ev (mkdir_events e path) -> ev = EvMakedirs path.
Proof.
  unfold mkdir_events. destruct (exists_in e path); simpl; intuition.
Qed.

Lemma in_export_events evs ev :
  forallb export_event evs = true -> In ev evs -> export_event ev = true.
Proof. intros H Hin. rewrite forallb_forall in H. apply H. exact Hin. Qed.

Lemma Export_events a d m r evs :
  Export a d m r evs -> forallb export_event evs = true.
Proof.
  intros H. destruct H as [Hoff | dv nt nv nr bt bv br Hon Hdv | ex evs Hon Hev].
  - reflexivity.
  - rewrite !forallb_app, !split_events_export.
    destruct Hdv as [-> | ->]; reflexivity.
  - exact Hev.
Qed.

Ltac split_in :=
  repeat match goal with
         | H : In _ (_ ++ _) |- _ => apply in_app_or in H as [H | H]
         | H : In _ (_ :: _) |- _ => destruct H as [H | H]
         | H : In _ [] |- _ => destruct H
         end.

Lemma in_prologue e a ev : In ev (prologue e a) -> Entry e a ev.
Proof.
  unfold prologue. intros H. apply in_app_or in H as [H | H].
  - apply Entry_opening. exact H.
  - apply in_app_or in H as [H | H].
    + apply in_warning_events in H as [-> Hgt]. apply Entry_warning. exact Hgt.
    + apply in_mkdir_events in H as ->. apply Entry_model_dir.
Qed.

Lemma in_dataset_events e a d ev : In ev (dataset_events a d) -> Entry e a ev.
Proof.
  unfold dataset_events. intros H. split_in; subst ev.
  - apply Entry_dataset.
  - apply Entry_dump.
Qed.

Lemma in_built e a d m n ev : In ev (built e a d m n) -> Entry e a ev.
Proof.
  unfold built, report_events. intros H. apply in_app_or in H as [H | H].
  { apply in_prologue. exact H. }
  apply in_app_or in H as [H | H].
  { apply in_dataset_events with d. exact H. }
  split_in; subst ev.
  - apply Entry_model.
  - apply Entry_report.
  - apply Entry_report.
Qed.

Lemma in_cuda_events e a m ev :
  In ev (if CUDA_of e then [EvModelCuda m (inr tt)] else []) -> Entry e a ev.
Proof.
  destruct (CUDA_of e) eqn:Hcu; intros H; split_in. subst ev.
  apply Entry_model_cuda. exact Hcu.
Qed.

(** Every entry of every run comes from one of the stages. *)
Lemma trace_entries argv e r w a :
  parse_args argv = inr a ->
  run (script argv) e = (r, w) ->
  forall ev, In ev (trace w) -> Entry e a ev.
Proof.
  intros Hp Hrun ev Hin. apply script_outcome in Hrun.
  remember (trace w) as tr eqn:Htr. clear Htr.
  destruct Hrun as
    [ ex Hp' | a' ex Hp' Hex Hmk | a' ex Hp' | a' d Hp' Hfs | a' d ex Hp' Hfs | a' d m ex Hp' Hfs
    | a' d m n ex Hp' Hfs Hcu | a' d m n cuda_ev ex Hp' Hfs Hcev
    | a' d m n cuda_ev r' evs Hp' Hfs Hcev Hexp ];
    rewrite Hp in Hp'; inversion Hp'; subst; clear Hp'.
  - apply in_prologue. exact Hin.
  - apply in_app_or in Hin as [Hin | Hin]; [apply in_prologue; exact Hin |].
    split_in; subst ev. apply Entry_dataset.
  - apply in_app_or in Hin as [Hin | Hin]; [apply in_prologue; exact Hin |].
    apply in_dataset_events with d. exact Hin.
  - apply in_app_or in Hin as [Hin | Hin]; [apply in_prologue; exact Hin |].
    apply in_app_or in Hin as [Hin | Hin];
      [apply in_dataset_events with d; exact Hin |].
    split_in; subst ev. apply Entry_model.
  - apply in_app_or in Hin as [Hin | Hin]; [apply in_prologue; exact Hin |].
    apply in_app_or in Hin as [Hin | Hin];
      [apply in_dataset_events with d; exact Hin |].
    split_in; subst ev. apply Entry_model.
  - apply in_app_or in Hin as [Hin | Hin]; [eapply in_built; exact Hin |].
    split_in; subst ev. apply Entry_model_cuda. assumption.
  - apply in_app_or in Hin as [Hin | Hin]; [eapply in_built; exact Hin |].
    apply in_app_or in Hin as [Hin | Hin]; [eapply in_cuda_events; exact Hin |].
    split_in; subst ev. apply Entry_train.
  - apply in_app_or in Hin as [Hin | Hin]; [eapply in_built; exact Hin |].
    apply in_app_or in Hin as [Hin | Hin]; [eapply in_cuda_events; exact Hin |].
    destruct Hin as [<- | Hin]; [apply Entry_train |].
    apply Entry_export. apply in_export_events with evs; [| exact Hin].
    apply Export_events in Hexp. exact Hexp.
Qed.
End Entries.

(** ** Properties of the driver *)
Section Properties.
Context {Obj : Objects} {C : Collaborators}.

(** Case analysis on the stage at which a run ended. *)
Ltac by_outcome Hrun Hp :=
  apply script_outcome in Hrun;
  match type of Hrun with
  | Outcome _ _ _ (trace ?w) =>
      let tr := fresh "tr" in
      let Htr := fresh "Htr" in
      remember (trace w) as tr eqn:Htr; clear Htr
  end;
  destruct Hrun as
    [ ex Hp' | a' ex Hp' Hex Hmk | a' ex Hp' | a' d Hp' Hfs | a' d ex Hp' Hfs | a' d m ex Hp' Hfs
    | a' d m n ex Hp' Hfs Hcu | a' d m n cuda_ev ex Hp' Hfs Hcev
    | a' d m n cuda_ev r' evs Hp' Hfs Hcev Hexp ];
  rewrite Hp in Hp';
  first [discriminate Hp' | injection Hp' as <-];
  try subst cuda_ev.

(** Membership in the explicit part of a trace. *)
Ltac stage_in H :=
  unfold built, prologue, opening, dataset_events, report_events,
    warning_events, mkdir_events, model_event, cuda_line in H;
  repeat match type of H with
         | context [if ?c then _ else _] => destruct c
         end;
  simpl in H;
  repeat match type of H with
         | _ \/ _ => destruct H as [H | H]
         | False => destruct H
         end;
  try discriminate H.

Lemma export_not_train a d m r evs tc rt :
  Export a d m r evs -> ~ In (EvTrain tc rt) evs.
Proof.
  intros Hexp Hin. apply Export_events in Hexp.
  apply (in_export_events _ _ Hexp) in Hin. discriminate Hin.
Qed.

(** The one [train] call of a run, and the model it is given. *)
Lemma train_entry argv e r w a tc rt :
  parse_args argv = inr a ->
  run (script argv) e = (r, w) ->
  In (EvTrain tc rt) (trace w) ->
  exists d m, tc = the_train_call a d m /\ In (model_event a d (inr m)) (trace w).
Proof.
  intros Hp Hrun Hin. by_outcome Hrun Hp.
  - stage_in Hin.
  - stage_in Hin.
  - stage_in Hin.
  - stage_in Hin.
  - stage_in Hin.
  - stage_in Hin.
  - apply in_app_or in Hin as [Hin | Hin]; [stage_in Hin |].
    apply in_app_or in Hin as [Hin | Hin]; [stage_in Hin |].
    destruct Hin as [Hin | []]. inversion Hin; subst.
    exists d, m. split; [reflexivity |].
    apply in_or_app. left. unfold built.
    apply in_or_app. right. apply in_or_app. right. left. reflexivity.
  - apply in_app_or in Hin as [Hin | Hin]; [stage_in Hin |].
    apply in_app_or in Hin as [Hin | Hin]; [stage_in Hin |].
    destruct Hin as [Hin | Hin];
      [| exfalso; exact (export_not_train _ _ _ _ _ _ _ Hexp Hin)].
    inversion Hin; subst.
    exists d, m. split; [reflexivity |].
    apply in_or_app. left. unfold built.
    apply in_or_app. right. apply in_or_app. right. left. reflexivity.
Qed.

Lemma train_entry_parsed argv e r w tc rt :
  run (script argv) e = (r, w) ->
  In (EvTrain tc rt) (trace w) ->
  exists a d m, parse_args argv = inr a /\ tc = the_train_call a d m
                /\ In (model_event a d (inr m)) (trace w).
Proof.
  intros Hrun Hin. destruct (parse_args argv) as [ex | a] eqn:Hp.
  - apply script_outcome in Hrun.
    remember (trace w) as tr eqn:Htr. clear Htr.
    destruct Hrun; try congruence. stage_in Hin.
  - destruct (train_entry _ _ _ _ _ _ _ Hp Hrun Hin) as (d & m & Htc & Hm).
    exists a, d, m. repeat split; assumption.
Qed.

(** C5.  Whenever the training loop is invoked, it is given a binary
    cross-entropy loss with sum reduction and an Adam optimizer with
    learning rate 0.0001 and weight decay 0.001 over the parameters of the
    model passed as [model], which is the model built by the constructor
    that [model_type] selects. *)
Theorem train_loss_and_optimizer argv e r w tc rt :
  run (script argv) e = (r, w) ->
  In (EvTrain tc rt) (trace w) ->
  tc_loss_function tc = BCELoss "sum"
  /\ tc_optimizer tc = Adam (tc_model tc) 0.0001 0.001
  /\ exists a d,
       parse_args argv = inr a
       /\ In (EvModel (if String.eqb (args.model_type a) "ggnn" then KGGNN else KDevign)
                      (DataSet_feature_size d)
                      (Z.max (args.feature_size a) (args.graph_embed_size a))
                      (args.num_steps a) (DataSet_max_edge_type d)
                      (inr (tc_model tc)))
             (trace w).
Proof.
  intros Hrun Hin.
  destruct (train_entry_parsed _ _ _ _ _ _ Hrun Hin) as (a & d & m & Hp & -> & Hm).
  split; [reflexivity |]. split; [reflexivity |].
  exists a, d. split; [exact Hp |].
  unfold model_event, kind_of in Hm. rewrite adjusted_graph_embed_size in Hm.
  exact Hm.
Qed.

(** C8 (amended).  The checkpoint path given to the training loop is
    [os.path.join('models', dataset) + '/GGNNSumModel']: it is
    ['models/<dataset>/GGNNSumModel'] whenever the dataset name does not
    begin with ['/'] and ['<dataset>/GGNNSumModel'] when it does; it is the
    same for two runs with the same dataset name, and [model_type] plays no
    part in it. *)
Theorem save_path_depends_on_dataset_only argv e r w tc rt :
  run (script argv) e = (r, w) ->
  In (EvTrain tc rt) (trace w) ->
  exists a,
    parse_args argv = inr a
    /\ tc_save_path tc = os_path_join "models" (args.dataset a) +:+ "/GGNNSumModel"
    /\ (startswith (args.dataset a) "/" = false ->
        tc_save_path tc = "models/" +:+ args.dataset a +:+ "/GGNNSumModel")
    /\ (startswith (args.dataset a) "/" = true ->
        tc_save_path tc = args.dataset a +:+ "/GGNNSumModel")
    /\ forall argv2 e2 r2 w2 tc2 rt2 a2,
         run (script argv2) e2 = (r2, w2) ->
         In (EvTrain tc2 rt2) (trace w2) ->
         parse_args argv2 = inr a2 ->
         args.dataset a2 = args.dataset a ->
         tc_save_path tc2 = tc_save_path tc.
Proof.
  intros Hrun Hin.
  destruct (train_entry_parsed _ _ _ _ _ _ Hrun Hin) as (a & d & m & Hp & -> & _).
  exists a. split; [exact Hp |]. split; [reflexivity |]. split; [| split].
  - intros Hrel. simpl. unfold model_dir_of, os_path_join. rewrite Hrel. simpl.
    reflexivity.
  - intros Habs. simpl. unfold model_dir_of, os_path_join. rewrite Habs.
    reflexivity.
  - intros argv2 e2 r2 w2 tc2 rt2 a2 Hrun2 Hin2 Hp2 Hds.
    destruct (train_entry _ _ _ _ _ _ _ Hp2 Hrun2 Hin2) as (d2 & m2 & -> & _).
    simpl. unfold model_dir_of. rewrite Hds. reflexivity.
Qed.

Lemma export_late evs :
  forallb export_event evs = true -> forallb late_event evs = true.
Proof.
  induction evs as [| ev evs IH]; simpl; [reflexivity |].
  intros H. apply andb_prop in H as [H1 H2]. rewrite (IH H2), andb_true_r.
  destruct ev; simpl in *; congruence.
Qed.

(** How far a run with a well-formed command line gets. *)
Lemma run_stages argv e r w a :
  parse_args argv = inr a ->
  run (script argv) e = (r, w) ->
  (exists ex, r = inl ex
              /\ exists_in e (model_dir_of a) = false
              /\ (OS_makedirs (model_dir_of a) false (seeded e)).1 = inl ex
              /\ trace w = prologue e a)
  \/ (exists ex, r = inl ex
              /\ trace w = prologue e a ++ [EvDataSet (dataset_args a) (inl ex)])
  \/ (exists d, args.feature_size a <> DataSet_feature_size d
                /\ r = inl (AssertionError assertion_text)
                /\ trace w = prologue e a ++ dataset_events a d)
  \/ (exists d rm rest,
         args.feature_size a = DataSet_feature_size d
         /\ trace w = prologue e a ++ dataset_events a d ++ model_event a d rm :: rest
         /\ forallb late_event rest = true).
Proof.
  intros Hp Hrun. by_outcome Hrun Hp; [left | right ..].
  { exists ex. repeat split; assumption. }
  - left. exists ex. split; reflexivity.
  - right. left. exists d. repeat split. exact Hfs.
  - right. right. exists d, (inl ex), []. repeat split. exact Hfs.
  - right. right. exists d, (inr m), []. repeat split. exact Hfs.
  - right. right. exists d, (inr m), (report_events n ++ [EvModelCuda m (inl ex)]).
    split; [exact Hfs |]. split; [| reflexivity].
    unfold built. rewrite <- !app_assoc. reflexivity.
  - right. right.
    exists d, (inr m),
      (report_events n ++ (if CUDA_of e then [EvModelCuda m (inr tt)] else [])
       ++ [EvTrain (the_train_call a d m) (inl ex)]).
    split; [exact Hfs |]. split.
    + unfold built. rewrite <- !app_assoc. reflexivity.
    + destruct (CUDA_of e); reflexivity.
  - right. right.
    exists d, (inr m),
      (report_events n ++ (if CUDA_of e then [EvModelCuda m (inr tt)] else [])
       ++ [EvTrain (the_train_call a d m) (inr tt)] ++ evs).
    split; [exact Hfs |]. split.
    + unfold built. rewrite <- !app_assoc. reflexivity.
    + apply Export_events, export_late in Hexp.
      rewrite !forallb_app, Hexp. destruct (CUDA_of e); reflexivity.
Qed.

Lemma late_not_model rest k i o s t rm :
  forallb late_event rest = true -> ~ In (EvModel k i o s t rm) rest.
Proof.
  intros H Hin. rewrite forallb_forall in H. apply H in Hin. discriminate Hin.
Qed.

Lemma late_not_dataset rest da rd :
  forallb late_event rest = true -> ~ In (EvDataSet da rd) rest.
Proof.
  intros H Hin. rewrite forallb_forall in H. apply H in Hin. discriminate Hin.
Qed.

Lemma prologue_not_model e a k i o s t rm : ~ In (EvModel k i o s t rm) (prologue e a).
Proof. intros Hin. stage_in Hin. Qed.

Lemma prologue_not_dataset e a da rd : ~ In (EvDataSet da rd) (prologue e a).
Proof. intros Hin. stage_in Hin. Qed.

Lemma model_entry e a k i o s t rm :
  Entry e a (EvModel k i o s t rm) ->
  o = Z.max (args.feature_size a) (args.graph_embed_size a).
Proof.
  intros Hent. remember (EvModel k i o s t rm) as ev eqn:Hev.
  destruct Hent as [ev Hop | | | | | d' rm' | | | | ev Hexp]; try discriminate Hev.
  - subst ev. stage_in Hop.
  - unfold model_event in Hev. injection Hev as _ _ <- _ _ _.
    apply adjusted_graph_embed_size.
  - subst ev. discriminate Hexp.
Qed.

Lemma warning_entry e a :
  Entry e a (EvStderr warning_text) ->
  args.feature_size a > args.graph_embed_size a.
Proof.
  intros Hent. remember (EvStderr warning_text) as ev eqn:Hev.
  destruct Hent as [ev Hop | Hgt | | | | | | | | ev Hexp]; try discriminate Hev.
  - subst ev. stage_in Hop.
  - exact Hgt.
  - subst ev. discriminate Hexp.
Qed.

(** Past line 77 the [DataSet] constructor is called. *)
Lemma dataset_constructor_called argv e r w a :
  parse_args argv = inr a ->
  run (script argv) e = (r, w) ->
  (exists rd, In (EvDataSet (dataset_args a) rd) (trace w))
  \/ (exists ex,
         r = inl ex
         /\ (OS_makedirs (os_path_join "models" (args.dataset a)) false
                         (seeded e)).1 = inl ex).
Proof.
  intros Hp Hrun.
  destruct (run_stages _ _ _ _ _ Hp Hrun)
    as [(ex & Hr & _ & Hmk & _)
       | [(ex & _ & Ht) | [(d & _ & _ & Ht) | (d & rm & rest & _ & Ht & _)]]].
  - right. exists ex. split; [exact Hr | exact Hmk].
  - left. rewrite Ht. eexists. apply in_or_app. right. left. reflexivity.
  - left. rewrite Ht. eexists. apply in_or_app. right. left. reflexivity.
  - left. rewrite Ht. eexists. apply in_or_app. right.
    apply in_or_app. left. left. reflexivity.
Qed.

(** C1.  With [feature_size > graph_embed_size] the check of lines 70-73
    prints the warning on stderr and continues with [graph_embed_size]
    set to [feature_size]: the warning is in the trace of the run, before
    any model is constructed, and every model is constructed with
    [output_dim = feature_size].  With [feature_size <= graph_embed_size]
    the check changes nothing and prints nothing.  In both cases the
    check returns normally and the run goes on: unless [os.makedirs]
    raises at line 77, it calls the [DataSet] constructor. *)
Theorem embed_size_autocorrect argv e r w a :
  parse_args argv = inr a ->
  run (script argv) e = (r, w) ->
  (args.feature_size a > args.graph_embed_size a ->
     (forall w0,
         check_embed_size a w0
         = (inr (args.set_graph_embed_size a (args.feature_size a)),
            mkWorld (env w0) (trace w0 ++ [EvStderr warning_text])))
     /\ (exists pre post,
            trace w = pre ++ EvStderr warning_text :: post
            /\ forall k i o s t rm, ~ In (EvModel k i o s t rm) pre)
     /\ (forall k i o s t rm,
            In (EvModel k i o s t rm) (trace w) -> o = args.feature_size a))
  /\ (args.feature_size a <= args.graph_embed_size a ->
        (forall w0, check_embed_size a w0 = (inr a, w0))
        /\ ~ In (EvStderr warning_text) (trace w)
        /\ (forall k i o s t rm,
               In (EvModel k i o s t rm) (trace w) -> o = args.graph_embed_size a))
  /\ ((exists rd, In (EvDataSet (dataset_args a) rd) (trace w))
      \/ (exists ex,
             r = inl ex
             /\ (OS_makedirs (os_path_join "models" (args.dataset a)) false
                             (seeded e)).1 = inl ex)).
Proof.
  intros Hp Hrun.
  assert (Hmodel : forall k i o s t rm,
             In (EvModel k i o s t rm) (trace w) ->
             o = Z.max (args.feature_size a) (args.graph_embed_size a)).
  { intros k i o s t rm Hin.
    apply (trace_entries _ _ _ _ _ Hp Hrun), model_entry in Hin. exact Hin. }
  pose proof (run_stages _ _ _ _ _ Hp Hrun) as Hst.
  split; [| split].
  - intros Hgt. split; [| split].
    + intros w0. rewrite check_embed_size_run. unfold adjusted, warning_events.
      destruct (Z.gtb_spec (args.feature_size a) (args.graph_embed_size a));
        [reflexivity | lia].
    + assert (Hpro : prologue e a
                     = opening e ++ EvStderr warning_text
                                    :: mkdir_events e (model_dir_of a)).
      { unfold prologue, warning_events.
        destruct (Z.gtb_spec (args.feature_size a) (args.graph_embed_size a));
          [reflexivity | lia]. }
      exists (opening e).
      destruct Hst as [(ex & _ & _ & _ & Ht)
                      | [(ex & _ & Ht)
                        | [(d & _ & _ & Ht) | (d & rm & rest & _ & Ht & _)]]];
        rewrite Ht, Hpro, <- ?app_assoc; simpl; eexists;
        (split; [reflexivity |]); intros k i o s t rm' Hin; stage_in Hin.
    + intros k i o s t rm Hin. rewrite (Hmodel _ _ _ _ _ _ Hin). lia.
  - intros Hle. split; [| split].
    + intros w0. rewrite check_embed_size_run. unfold adjusted, warning_events.
      destruct (Z.gtb_spec (args.feature_size a) (args.graph_embed_size a));
        [lia |]. rewrite app_nil_r, world_eta. reflexivity.
    + intros Hin.
      apply (trace_entries _ _ _ _ _ Hp Hrun), warning_entry in Hin. lia.
    + intros k i o s t rm Hin. rewrite (Hmodel _ _ _ _ _ _ Hin). lia.
  - exact (dataset_constructor_called _ _ _ _ _ Hp Hrun).
Qed.

(** The dataset a run constructed is the one its trace goes on with. *)
Lemma constructed_dataset argv e r w a da d :
  parse_args argv = inr a ->
  run (script argv) e = (r, w) ->
  In (EvDataSet da (inr d)) (trace w) ->
  da = dataset_args a
  /\ ((args.feature_size a <> DataSet_feature_size d
       /\ r = inl (AssertionError assertion_text)
       /\ trace w = prologue e a ++ dataset_events a d)
      \/ (exists rm rest,
             args.feature_size a = DataSet_feature_size d
             /\ trace w = prologue e a ++ dataset_events a d ++ model_event a d rm :: rest
             /\ forallb late_event rest = true)).
Proof.
  intros Hp Hrun Hin.
  destruct (run_stages _ _ _ _ _ Hp Hrun)
    as [(ex & _ & _ & _ & Ht)
       | [(ex & _ & Ht)
         | [(d' & Hne & Hr & Ht) | (d' & rm & rest & Heq & Ht & Hlate)]]];
    rewrite Ht in Hin;
    [exfalso; exact (prologue_not_dataset _ _ _ _ Hin) | ..];
    apply in_app_or in Hin as [Hin | Hin];
    try (exfalso; exact (prologue_not_dataset _ _ _ _ Hin)).
  - destruct Hin as [Hin | []]. discriminate Hin.
  - unfold dataset_events in Hin. destruct Hin as [Hin | [Hin | []]];
      [| discriminate Hin].
    injection Hin as <- <-. split; [reflexivity |]. left. repeat split; assumption.
  - apply in_app_or in Hin as [Hin | Hin].
    + unfold dataset_events in Hin. destruct Hin as [Hin | [Hin | []]];
        [| discriminate Hin].
      injection Hin as <- <-. split; [reflexivity |]. right.
      exists rm, rest. repeat split; assumption.
    + destruct Hin as [Hin | Hin]; [discriminate Hin |].
      exfalso. exact (late_not_dataset _ _ _ Hlate Hin).
Qed.

(** C2.  When the dataset the run constructed reports a feature size
    different from the one on the command line, the run ends with the
    assertion error of line 93 and no model constructor has been called;
    when the two are equal the assertion passes and the run goes on to
    call the model constructor. *)
Theorem feature_size_mismatch_aborts argv e r w a da d :
  parse_args argv = inr a ->
  run (script argv) e = (r, w) ->
  In (EvDataSet da (inr d)) (trace w) ->
  (args.feature_size a <> DataSet_feature_size d ->
     r = inl (AssertionError assertion_text)
     /\ (forall w0, assert_feature_size a d w0
                    = (inl (AssertionError assertion_text), w0))
     /\ forall k i o s t rm, ~ In (EvModel k i o s t rm) (trace w))
  /\ (args.feature_size a = DataSet_feature_size d ->
        (forall w0, assert_feature_size a d w0 = (inr tt, w0))
        /\ exists k o s rm,
             In (EvModel k (DataSet_feature_size d) o s (DataSet_max_edge_type d) rm)
                (trace w)).
Proof.
  intros Hp Hrun Hin.
  destruct (constructed_dataset _ _ _ _ _ _ _ Hp Hrun Hin)
    as [_ [(Hne & Hr & Ht) | (rm & rest & Heq & Ht & Hlate)]].
  - split; [| intros Heq; contradiction].
    intros _. split; [exact Hr |]. split.
    + intros w0. unfold assert_feature_size.
      destruct (Z.eqb_spec (args.feature_size a) (DataSet_feature_size d));
        [contradiction | reflexivity].
    + intros k i o s t rm Hm. rewrite Ht in Hm. stage_in Hm.
  - split; [intros Hne; contradiction |].
    intros _. split.
    + intros w0. unfold assert_feature_size.
      destruct (Z.eqb_spec (args.feature_size a) (DataSet_feature_size d));
        [reflexivity | contradiction].
    + exists (kind_of a), (args.graph_embed_size (adjusted a)), (args.num_steps a), rm.
      rewrite Ht. apply in_or_app. right. apply in_or_app. right. left. reflexivity.
Qed.

Lemma no_pickle_load argv e r w path rl :
  run (script argv) e = (r, w) -> ~ In (EvPickleLoad path rl) (trace w).
Proof.
  intros Hrun Hin. destruct (parse_args argv) as [ex | a] eqn:Hp.
  - apply script_outcome in Hrun.
    remember (trace w) as tr eqn:Htr. clear Htr.
    destruct Hrun; try congruence. stage_in Hin.
  - apply (trace_entries _ _ _ _ _ Hp Hrun) in Hin.
    remember (EvPickleLoad path rl) as ev eqn:Hev.
    destruct Hin as [ev Hop | | | | | | | | | ev Hexp]; try discriminate Hev.
    + subst ev. stage_in Hop.
    + subst ev. discriminate Hexp.
Qed.


(** C3.  No run loads a pickled dataset, whatever files exist: the test
    of line 80 is false without looking at the file system, so lines
    78-92 are the [else] branch; every run with a well-formed command
    line that gets past line 77 calls the [DataSet] constructor on the
    three JSON files of the input directory, and the only way not to get
    past it is an exception of [os.makedirs]. *)
Theorem dataset_rebuilt_from_json argv e r w :
  run (script argv) e = (r, w) ->
  (forall path rl, ~ In (EvPickleLoad path rl) (trace w))
  /\ (forall a w0,
         load_dataset a w0
         = (dataset ← call (EvDataSet (dataset_args a)) (DataSet_init (dataset_args a));
            pickle_dump dataset (os_path_join (args.input_dir a) "processed.bin");;
            mret dataset) w0)
  /\ (forall a,
         parse_args argv = inr a ->
         (exists rd,
             In (EvDataSet
                   (mkDataSetArgs
                      (os_path_join (args.input_dir a) "train_GGNNinput.json")
                      (os_path_join (args.input_dir a) "valid_GGNNinput.json")
                      (os_path_join (args.input_dir a) "test_GGNNinput.json")
                      (args.batch_size a) (args.node_tag a) (args.graph_tag a)
                      (args.label_tag a))
                   rd)
                (trace w))
         \/ (exists ex,
                r = inl ex
                /\ (OS_makedirs (os_path_join "models" (args.dataset a)) false
                                (seeded e)).1 = inl ex)).
Proof.
  intros Hrun. split; [| split].
  - intros path rl. exact (no_pickle_load _ _ _ _ _ _ Hrun).
  - intros a w0. reflexivity.
  - intros a Hp. exact (dataset_constructor_called _ _ _ _ _ Hp Hrun).
Qed.

(** C7.  The [DataSet] constructor is called with the field names of the
    command line: the value of a flag that is given, and
    ['node_features'], ['graph'] and ['target'] for a flag that is not.
    The call is made by every run that [os.makedirs] does not end at line
    77. *)
Theorem dataset_field_names argv e r w a :
  parse_args argv = inr a ->
  run (script argv) e = (r, w) ->
  ((exists da rd, In (EvDataSet da rd) (trace w))
   \/ (exists ex,
          r = inl ex
          /\ (OS_makedirs (os_path_join "models" (args.dataset a)) false
                          (seeded e)).1 = inl ex))
  /\ forall da rd,
       In (EvDataSet da rd) (trace w) ->
       n_ident da = default "node_features" (cmdline.node_tag argv)
       /\ g_ident da = default "graph" (cmdline.graph_tag argv)
       /\ l_ident da = default "target" (cmdline.label_tag argv).
Proof.
  intros Hp Hrun. split.
  - destruct (dataset_constructor_called _ _ _ _ _ Hp Hrun) as [(rd & Hin) | Hmk].
    + left. exists (dataset_args a), rd. exact Hin.
    + right. exact Hmk.
  - intros da rd Hin.
    assert (Hda : da = dataset_args a).
    { apply (trace_entries _ _ _ _ _ Hp Hrun) in Hin.
      remember (EvDataSet da rd) as ev eqn:Hev.
      destruct Hin as [ev Hop | | | rd' | | | | | | ev Hexp]; try discriminate Hev.
      - subst ev. stage_in Hop.
      - injection Hev as -> _. reflexivity.
      - subst ev. discriminate Hexp. }
    subst da. unfold parse_args in Hp.
    destruct (negb _); [discriminate Hp |].
    destruct (cmdline.dataset argv); [| discriminate Hp].
    destruct (cmdline.input_dir argv); [| discriminate Hp].
    injection Hp as <-. repeat split.
Qed.

(** C10.  Whenever the [DataSet] constructor returns, the very next thing
    the run does is to pickle the object it returned to [processed.bin]
    in the input directory; afterwards the file holds that pickle
    whatever was at that path before; and no run loads a pickle. *)
Theorem dataset_always_pickled argv e r w a da d :
  parse_args argv = inr a ->
  run (script argv) e = (r, w) ->
  In (EvDataSet da (inr d)) (trace w) ->
  (exists pre post,
      trace w = pre ++ EvDataSet da (inr d)
                       :: EvPickleDump (os_path_join (args.input_dir a) "processed.bin") d
                       :: post)
  /\ (forall w0 d0 w1,
         load_dataset a w0 = (inr d0, w1) ->
         files (env w1) !! os_path_join (args.input_dir a) "processed.bin"
         = Some (FPickle d0))
  /\ (forall path rl, ~ In (EvPickleLoad path rl) (trace w)).
Proof.
  intros Hp Hrun Hin. split; [| split].
  - destruct (constructed_dataset _ _ _ _ _ _ _ Hp Hrun Hin)
      as [-> [(_ & _ & Ht) | (rm & rest & _ & Ht & _)]];
      rewrite Ht; exists (prologue e a); eexists; reflexivity.
  - intros w0 d0 w1 Hload.
    apply load_dataset_inv in Hload as [(ex & Hr & _) | (d' & Hr & _ & Hfile)];
      [discriminate Hr |].
    injection Hr as ->. exact Hfile.
  - intros path rl. exact (no_pickle_load _ _ _ _ _ _ Hrun).
Qed.

(** C9.  Every run starts by printing the device line and then seeds the
    torch generator and the numpy generator with 1000; everything else it
    does comes later.  Two runs on the same command line from
    environments that differ at most in the state of the two generators
    are identical: same answer, same trace, same final environment. *)
Theorem seeded_before_anything argv e r w :
  run (script argv) e = (r, w) ->
  (exists rest,
      trace w = cuda_line e :: EvTorchManualSeed 1000 :: EvNumpySeed 1000 :: rest)
  /\ (forall e2,
         environ e2 = environ e -> files e2 = files e -> dirs e2 = dirs e ->
         heap e2 = heap e ->
         run (script argv) e2 = (r, w)).
Proof.
  intros Hrun. split.
  - destruct (parse_args argv) as [ex | a] eqn:Hp.
    + apply script_outcome in Hrun.
      remember (trace w) as tr eqn:Htr. clear Htr.
      destruct Hrun; try congruence. exists []. reflexivity.
    + destruct (run_stages _ _ _ _ _ Hp Hrun)
        as [(ex & _ & _ & _ & Ht)
           | [(ex & _ & Ht) | [(d & _ & _ & Ht) | (d & rm & rest & _ & Ht & _)]]];
        rewrite Ht; unfold prologue, opening; simpl; eexists; reflexivity.
  - intros e2 Henv Hfiles Hdirs Hheap.
    rewrite <- Hrun, !script_opening.
    assert (Hseed : seeded e2 = seeded e).
    { unfold seeded, set_numpy_rng, set_torch_rng. simpl.
      rewrite Henv, Hfiles, Hdirs, Hheap. reflexivity. }
    assert (Hcuda : CUDA_of e2 = CUDA_of e).
    { unfold CUDA_of. rewrite Henv. reflexivity. }
    unfold opening, cuda_line. rewrite Hseed, Hcuda. reflexivity.
Qed.
End Properties.

(** ** Early stopping in the training loop *)
Section EarlyStopping.
Import Trainer.

Variables (dev_every max_patience : Z) (metric : Z -> float).
Hypothesis dev_every_pos : 0 < dev_every.
Hypothesis max_patience_pos : 1 <= max_patience.
Hypothesis never_improves :
  forall k, 2 <= k -> PrimFloat.ltb (metric 1) (metric k) = false.

Local Notation "'turn'" := (iteration dev_every max_patience metric).
Local Notation "'waiting'" := (Trainer.waiting dev_every metric).
Local Notation "'stopped'" := (Trainer.stopped dev_every max_patience metric).

(** A state that has stopped stays as it is. *)
Lemma stopped_stays (s : State) (n : N) :
  phase s = EarlyStopped -> N.iter n turn s = s.
Proof.
  intros Hph. induction n as [| n IH] using N.peano_ind; [reflexivity |].
  rewrite N.iter_succ, IH. unfold iteration, optimize, validate.
  rewrite Hph. simpl. rewrite Hph. reflexivity.
Qed.

(** Between two checks only the step counter moves. *)
Lemma quiet_turns (s : State) (n : N) :
  phase s = Training ->
  steps s mod dev_every = 0 ->
  Z.of_N n < dev_every ->
  N.iter n turn s
  = mkState Training (steps s + Z.of_N n) (checks s) (best s) (best_check s)
            (patience s) (saved s).
Proof.
  intros Hph Hmod. induction n as [| n IH] using N.peano_ind; intros Hn.
  - simpl. destruct s; simpl in *. subst. rewrite Z.add_0_r. reflexivity.
  - rewrite N.iter_succ, IH by lia.
    unfold iteration, optimize. simpl.
    assert (Hdue : ((steps s + Z.of_N n + 1) mod dev_every =? 0) = false).
    { apply Z.eqb_neq.
      rewrite <- Z.add_assoc, Z.add_mod, Hmod, Z.add_0_l, Z.mod_mod by lia.
      rewrite Z.mod_small by lia. lia. }
    rewrite Hdue, andb_false_r. unfold validate. simpl.
    rewrite N2Z.inj_succ. f_equal. lia.
Qed.

(** [dev_every] turns from a multiple of [dev_every] end in a check. *)
Lemma block (s : State) :
  phase s = Training ->
  steps s mod dev_every = 0 ->
  N.iter (Z.to_N dev_every) turn s
  = validate max_patience metric
      (mkState Validating (steps s + dev_every) (checks s) (best s) (best_check s)
               (patience s) (saved s)).
Proof.
  intros Hph Hmod.
  replace (Z.to_N dev_every) with (N.succ (Z.to_N (dev_every - 1))) by lia.
  rewrite N.iter_succ, quiet_turns by (try assumption; lia).
  unfold iteration, optimize. simpl.
  replace (steps s + Z.of_N (Z.to_N (dev_every - 1)) + 1) with (steps s + dev_every)
    by lia.
  assert (Hdue : ((steps s + dev_every) mod dev_every =? 0) = true).
  { apply Z.eqb_eq.
    rewrite Z.add_mod, Hmod, Z.mod_same, Z.add_0_l, Z.mod_0_l by lia. reflexivity. }
  rewrite Hdue. destruct (Z.ltb_spec 0 dev_every); [reflexivity | lia].
Qed.

Lemma waiting_mod j : steps (waiting j) mod dev_every = 0.
Proof. simpl. apply Z.mod_mul. lia. Qed.

Lemma first_block : N.iter (Z.to_N dev_every) turn init = waiting 1.
Proof.
  rewrite block by (try reflexivity; simpl; apply Z.mod_0_l; lia).
  unfold validate, Trainer.waiting. simpl.
  destruct (Z.leb_spec max_patience 0); [lia |].
  f_equal; lia.
Qed.

Lemma next_block (j : Z) :
  1 <= j ->
  N.iter (Z.to_N dev_every) turn (waiting j)
  = mkState (if max_patience <=? j then EarlyStopped else Training)
            ((j + 1) * dev_every) (j + 1) (Some (metric 1)) 1 j [1].
Proof.
  intros Hj. rewrite block by (try reflexivity; apply waiting_mod).
  unfold validate, Trainer.waiting. simpl. rewrite never_improves by lia.
  replace (j - 1 + 1) with j by lia.
  f_equal; lia.
Qed.

Lemma blocks (j : nat) :
  (Z.of_nat j < max_patience) ->
  N.iter (N.of_nat (S j) * Z.to_N dev_every) turn init = waiting (Z.of_nat (S j)).
Proof.
  induction j as [| j IH]; intros Hj.
  - rewrite N.mul_1_l. apply first_block.
  - replace (N.of_nat (S (S j)) * Z.to_N dev_every)%N
      with (Z.to_N dev_every + N.of_nat (S j) * Z.to_N dev_every)%N by lia.
    rewrite N.iter_add, IH by lia. rewrite next_block by lia.
    destruct (Z.leb_spec max_patience (Z.of_nat (S j))); [lia |].
    unfold waiting. f_equal; lia.
Qed.

Lemma stops_after_patience (max_steps : Z) :
  (max_patience + 1) * dev_every <= max_steps ->
  train max_steps dev_every max_patience metric = stopped.
Proof.
  intros Hmax. unfold train.
  replace (Z.to_N max_steps)
    with (Z.to_N (max_steps - (max_patience + 1) * dev_every)
          + (Z.to_N dev_every
             + N.of_nat (S (Z.to_nat (max_patience - 1))) * Z.to_N dev_every))%N
    by nia.
  rewrite !N.iter_add, blocks by lia.
  rewrite next_block by lia.
  replace (Z.of_nat (S (Z.to_nat (max_patience - 1)))) with max_patience by lia.
  rewrite Z.leb_refl. fold stopped.
  rewrite stopped_stays by reflexivity. reflexivity.
Qed.
End EarlyStopping.

Section TrainingAndExport.
Context {Obj : Objects} {C : Collaborators}.

(** C6.  With the arguments the driver passes ([max_steps = 1000000],
    [dev_every = 128], [max_patience = 5]), a training run whose
    validation metric never improves after the first check ends in the
    early-stopped state, the first check being the best one and the loop
    stopping at the fifth check after it (768 optimization steps). *)
Theorem early_stop_after_five_checks (model_dir : string) (m : Model) (d : DataSet)
    (metric : Z -> float) :
  (forall k, 2 <= k -> PrimFloat.ltb (metric 1) (metric k) = false) ->
  let tc := train_call model_dir m d in
  let final :=
    Trainer.train (tc_max_steps tc) (tc_dev_every tc) (tc_max_patience tc) metric in
  tc_max_patience tc = 5
  /\ Trainer.phase final = Trainer.EarlyStopped
  /\ Trainer.best_check final = 1
  /\ Trainer.checks final = Trainer.best_check final + 5
  /\ Trainer.patience final = 5
  /\ Trainer.steps final = 6 * 128.
Proof.
  intros Hflat tc final. subst final tc.
  unfold train_call. cbn [tc_max_steps tc_dev_every tc_max_patience].
  rewrite (stops_after_patience 128 5 metric) by (try assumption; lia).
  unfold Trainer.stopped. cbn [Trainer.phase Trainer.best_check Trainer.checks
                       Trainer.patience Trainer.steps].
  repeat split.
Qed.

(** *** The exported files *)

Lemma mapM_length {A B : Type} (f : A -> Exn + B) (l : list A) (l' : list B) :
  mapM f l = inr l' -> length l' = length l.
Proof.
  revert l'. induction l as [| x l IH]; intros l' H; simpl in H.
  - injection H as <-. reflexivity.
  - destruct (f x) as [ex | y]; [discriminate H |].
    destruct (mapM f l) as [ex | ys]; [discriminate H |].
    injection H as <-. simpl. rewrite (IH ys) by reflexivity. reflexivity.
Qed.

Lemma rows_per_example (bs : list Fetched) :
  Forall fetched_ok bs ->
  Forall one_row_per_example bs ->
  length (flat_map fetched_rows bs) = length (flat_map f_targets bs).
Proof.
  induction bs as [| b bs IH]; intros Hok Hrow; [reflexivity |].
  inversion Hok as [| ? ? Hb Hbs]; subst. inversion Hrow as [| ? ? Rb Rbs]; subst.
  simpl. rewrite !length_app, (IH Hbs Rbs). f_equal.
  unfold fetched_rows. rewrite length_combine.
  apply mapM_length in Hb. unfold one_row_per_example in Rb. lia.
Qed.

Lemma endswith_sep_app (x y : string) :
  y <> "" -> endswith_sep (x +:+ y) = endswith_sep y.
Proof.
  intros Hy. induction x as [| c x IH]; [reflexivity |].
  simpl. destruct (x +:+ y) eqn:Hxy.
  - destruct x; simpl in Hxy; [contradiction | discriminate Hxy].
  - exact IH.
Qed.

Lemma app_not_empty (x y : string) : y <> "" -> x +:+ y <> "".
Proof. intros Hy. destruct x; simpl; [exact Hy | discriminate]. Qed.

(** A file of the export directory is named by appending to it. *)
Lemma export_path_literal (input_dir : string) (s : Split) :
  export_path (os_path_join input_dir "after_ggnn") s
  = os_path_join input_dir "after_ggnn" +:+ "/" +:+ split_name s
    +:+ "_GGNNinput_graph.json".
Proof.
  unfold export_path.
  set (dir := os_path_join input_dir "after_ggnn").
  assert (Hdir : String.eqb dir "" || endswith_sep dir = false).
  { unfold dir, os_path_join. simpl.
    destruct (String.eqb input_dir "" || endswith_sep input_dir).
    - rewrite endswith_sep_app by discriminate. simpl.
      rewrite orb_false_r. apply String.eqb_neq, app_not_empty. discriminate.
    - rewrite endswith_sep_app by discriminate. simpl.
      rewrite orb_false_r. apply String.eqb_neq, app_not_empty. discriminate. }
  unfold os_path_join at 1. rewrite Hdir.
  destruct s; reflexivity.
Qed.

(** C4.  A run with [--save_after_ggnn] that completes has, after the
    [train] call returned, gone through the test, valid and train splits
    in this order; for each split it asked the dataset for the number of
    batches, fetched that many batches, and wrote to
    [<input_dir>/after_ggnn/<split>_GGNNinput_graph.json] the array
    holding, batch after batch in the order fetched, one object with the
    two keys [graph_feature] (the floats of an embedding row) and [target]
    ([int] of the label at the same position of the batch); that is one
    object per example of the fetched batches when the model returns one
    embedding row per example. *)
Theorem embeddings_exported argv e w a :
  parse_args argv = inr a ->
  args.save_after_ggnn a = true ->
  run (script argv) e = (inr tt, w) ->
  let dir := os_path_join (args.input_dir a) "after_ggnn" in
  let file := fun s : Split =>
    dir +:+ "/" +:+ split_name s +:+ "_GGNNinput_graph.json" in
  let object := fun p : list float * Z =>
    JDict [("graph_feature", JList (map JFloat p.1)); ("target", JInt p.2)] in
  let pairs := fun bs : list Fetched =>
    flat_map (fun b => combine (f_output b) (f_ints b)) bs in
  exists pre tc d m mk nt nv nr bt bv br,
    let written := fun (s : Split) (n : Z) (bs : list Fetched) =>
      EvInitBatch s d (inr n)
      :: flat_map (fun b => [EvNextBatch s d (inr (f_graph b, f_targets b));
                             EvEmbeddings m (f_graph b) (inr (f_output b))]) bs
      ++ [EvStdout ("Saving to " +:+ file s);
          EvWrite (file s) (JList (map object (pairs bs)))] in
    trace w = pre ++ EvTrain tc (inr tt)
                     :: mk
                     ++ written Test nt bt
                     ++ written Valid nv bv
                     ++ written Train nr br
    /\ (mk = [] \/ mk = [EvMakedirs dir])
    /\ length bt = Z.to_nat nt /\ length bv = Z.to_nat nv /\ length br = Z.to_nat nr
    /\ (forall s, export_path dir s = file s)
    /\ (forall bs,
           In bs [bt; bv; br] ->
           Forall (fun b => mapM int_of_float (f_targets b) = inr (f_ints b)) bs
           /\ (Forall (fun b => length (f_output b) = length (f_targets b)) bs ->
               length (map object (pairs bs)) = length (flat_map f_targets bs))).
Proof.
  intros Hp Hflag Hrun dir file object pairs.
  remember (inr tt) as r eqn:Hr in Hrun.
  apply script_outcome in Hrun.
  remember (trace w) as tr eqn:Htr. clear Htr.
  destruct Hrun as
    [ ex Hp' | a' ex Hp' Hex Hmk | a' ex Hp' | a' d Hp' Hfs | a' d ex Hp' Hfs
    | a' d m ex Hp' Hfs
    | a' d m n ex Hp' Hfs Hcu | a' d m n cuda_ev ex Hp' Hfs Hcev
    | a' d m n cuda_ev r' evs Hp' Hfs Hcev Hexp ]; try discriminate Hr.
  rewrite Hp in Hp'. injection Hp' as <-. subst r'.
  remember (inr tt) as r eqn:Hr in Hexp.
  destruct Hexp as [Hoff | mk nt nv nr bt bv br Hon Hmk Hlt Hlv Hlr Hokt Hokv Hokr
                   | ex evs Hon Hev]; [congruence | | discriminate Hr].
  assert (Hfile : forall s, export_path dir s = file s)
    by (intros s; apply export_path_literal).
  assert (Hwritten :
            forall s k bs,
              split_events dir s d m k bs
              = EvInitBatch s d (inr k)
                :: flat_map (fun b => [EvNextBatch s d (inr (f_graph b, f_targets b));
                                       EvEmbeddings m (f_graph b) (inr (f_output b))]) bs
                ++ [EvStdout ("Saving to " +:+ file s);
                    EvWrite (file s) (JList (map object (pairs bs)))]).
  { intros s k bs. unfold split_events. rewrite Hfile. reflexivity. }
  exists (built e a d m n ++ cuda_ev), (the_train_call a d m), d, m, mk,
    nt, nv, nr, bt, bv, br.
  cbv zeta.
  split; [rewrite <- !Hwritten, <- app_assoc; reflexivity |].
  split; [exact Hmk |].
  split; [exact Hlt |]. split; [exact Hlv |]. split; [exact Hlr |].
  split; [exact Hfile |].
  intros bs Hin.
  assert (Hok : Forall fetched_ok bs).
  { destruct Hin as [<- | [<- | [<- | []]]]; assumption. }
  split; [exact Hok |].
  intros Hrow. rewrite length_map. apply rows_per_example; assumption.
Qed.
End TrainingAndExport.

(** ** Further properties of the driver *)
Section Further.
Context {Obj : Objects} {C : Collaborators}.

Lemma emits_quiet {A : Type} (P : Event -> Prop) (c : M A) :
  (forall w r w', c w = (r, w') -> trace w' = trace w) -> emits P c.
Proof.
  intros Hq w r w' H. exists []. rewrite app_nil_r. split; [eauto | constructor].
Qed.

Lemma emits_ret {A : Type} (P : Event -> Prop) (x : A) : emits P (mret x).
Proof. apply emits_quiet. intros w r w' H. inversion H; reflexivity. Qed.

Lemma emits_raise {A : Type} (P : Event -> Prop) (ex : Exn) : emits P (raise (A := A) ex).
Proof. apply emits_quiet. intros w r w' H. inversion H; reflexivity. Qed.

Lemma emits_lift {A : Type} (P : Event -> Prop) (x : Exn + A) : emits P (lift x).
Proof. apply emits_quiet. intros w r w' H. inversion H; reflexivity. Qed.

Lemma emits_get_env (P : Event -> Prop) : emits P get_env.
Proof. apply emits_quiet. intros w r w' H. inversion H; reflexivity. Qed.

Lemma emits_set_env (P : Event -> Prop) (e : Env) : emits P (set_env e).
Proof. apply emits_quiet. intros w r w' H. inversion H; reflexivity. Qed.

Lemma emits_ext {A : Type} (P : Event -> Prop) (f : Ext A) : emits P (ext f).
Proof. apply emits_quiet. intros w r w' H. apply ext_inv in H as [Ht _]. exact Ht. Qed.

Lemma emits_log (P : Event -> Prop) (ev : Event) : P ev -> emits P (log ev).
Proof.
  intros Hev w r w' H. inversion H; subst. exists [ev].
  split; [reflexivity | repeat constructor; exact Hev].
Qed.

Lemma emits_call {A : Type} (P : Event -> Prop) (mk : Exn + A -> Event) (f : Ext A) :
  (forall r, P (mk r)) -> emits P (call mk f).
Proof.
  intros Hmk w r w' H. apply call_inv in H as [Ht _]. exists [mk r].
  split; [exact Ht | repeat constructor; apply Hmk].
Qed.

Lemma emits_bind {A B : Type} (P : Event -> Prop) (c : M A) (k : A -> M B) :
  emits P c ->
  (forall x w w1, c w = (inr x, w1) -> emits P (k x)) ->
  emits P (c ≫= k).
Proof.
  intros Hc Hk w r w' H.
  apply bind_inv in H as [(ex & Hcw & ->) | (x & w1 & Hcw & Hkw)].
  - exact (Hc _ _ _ Hcw).
  - destruct (Hc _ _ _ Hcw) as (evs1 & Ht1 & HP1).
    destruct (Hk _ _ _ Hcw _ _ _ Hkw) as (evs2 & Ht2 & HP2).
    exists (evs1 ++ evs2). split.
    + rewrite Ht2, Ht1, <- app_assoc. reflexivity.
    + apply Forall_app. split; assumption.
Qed.

Lemma emits_if {A : Type} (P : Event -> Prop) (b : bool) (c1 c2 : M A) :
  emits P c1 -> emits P c2 -> emits P (if b then c1 else c2).
Proof. destruct b; auto. Qed.

Lemma emits_weaken {A : Type} (P Q : Event -> Prop) (c : M A) :
  (forall ev, P ev -> Q ev) -> emits P c -> emits Q c.
Proof.
  intros HPQ Hc w r w' H. destruct (Hc _ _ _ H) as (evs & Ht & HP).
  exists evs. split; [exact Ht |]. eapply Forall_impl; eassumption.
Qed.

(** One rule of the above, whichever applies. *)
Ltac emits_step :=
  first
    [ apply emits_ret | apply emits_raise | apply emits_lift | apply emits_get_env
    | apply emits_set_env | apply emits_ext
    | apply emits_log
    | apply emits_call; intros
    | apply emits_if
    | apply emits_bind; [| intros ? ? ? ?] ].

Lemma emits_loop (P : Event -> Prop) (CUDA : bool) m lf s d n :
  (forall rb, P (EvNextBatch s d rb)) ->
  (forall g ro, P (EvEmbeddings m g ro)) ->
  forall acc,
    emits P (save_after_ggnn_loop CUDA m lf
               (call (EvNextBatch s d) (DataSet_get_next_batch s d)) n acc).
Proof.
  intros Hb He. induction n as [| n IH]; intros acc; simpl.
  - apply emits_ret.
  - apply emits_bind; [apply emits_call; exact Hb |].
    intros [g t] w0 w1 _.
    apply emits_bind; [destruct CUDA; repeat emits_step |].
    intros preds w2 w3 _.
    apply emits_bind; [apply emits_ext |]. intros loss w4 w5 _.
    apply emits_bind; [apply emits_call; apply He |]. intros out w6 w7 _.
    apply emits_bind; [apply emits_lift |]. intros ints w8 w9 _.
    apply IH.
Qed.

Lemma emits_save_after_ggnn (P : Event -> Prop) (CUDA : bool) dir m lf name num_batches s d :
  (forall rb, P (EvNextBatch s d rb)) ->
  (forall g ro, P (EvEmbeddings m g ro)) ->
  (forall line, P (EvStdout line)) ->
  (forall j, P (EvWrite (os_path_join dir (name +:+ "_GGNNinput_graph.json")) j)) ->
  emits P (save_after_ggnn CUDA dir m lf name num_batches
             (call (EvNextBatch s d) (DataSet_get_next_batch s d)) print).
Proof.
  intros Hb He Hs Hw. unfold save_after_ggnn, print, write_json.
  apply emits_bind; [apply emits_loop; assumption |]. intros acc w0 w1 _.
  repeat emits_step; auto.
Qed.

Lemma main_unfold (CUDA : bool) argv :
  main CUDA argv
  = (torch_manual_seed 1000;; np_random_seed 1000;;
     a ← lift (parse_args argv); after_parse CUDA a).
Proof. reflexivity. Qed.

Lemma script_after_parse argv e :
  run (script argv) e
  = (lift (parse_args argv) ≫= after_parse (CUDA_of e)) (mkWorld (seeded e) (opening e)).
Proof. reflexivity. Qed.

(** Nothing the driver does takes an entry back. *)
Lemma after_dataset_grows (CUDA : bool) a model_dir d :
  emits (fun _ => True) (after_dataset CUDA a model_dir d).
Proof.
  unfold after_dataset, assert_feature_size, build_model, debug, export_embeddings,
    os_path_exists, os_makedirs.
  repeat (first [ apply emits_save_after_ggnn; intros; exact I
                | emits_step ]); auto.
Qed.

(** A run up to the construction of the dataset: the answer of the
    constructor, the world it left, and the rest of the run from there. *)
Lemma run_to_dataset argv e r w a :
  parse_args argv = inr a ->
  run (script argv) e = (r, w) ->
  (exists ex, r = inl ex
              /\ (trace w = prologue e a
                  \/ trace w = prologue e a ++ [EvDataSet (dataset_args a) (inl ex)]))
  \/ (exists d w1,
         trace w1 = prologue e a ++ dataset_events a d
         /\ files (env w1) !! processed_path a = Some (FPickle d)
         /\ after_dataset (CUDA_of e) (adjusted a) (model_dir_of a) d w1 = (r, w)).
Proof.
  intros Hp H. rewrite script_after_parse, bind_run in H.
  unfold lift at 1 in H. rewrite Hp in H. unfold after_parse in H.
  rewrite bind_run, check_embed_size_run in H. cbv zeta in H.
  apply ensure_dir_inv in H. cbn [env trace] in H.
  rewrite adjusted_dataset in H. fold (model_dir_of a) in H.
  change (mkdir_events (seeded e) (model_dir_of a))
    with (mkdir_events e (model_dir_of a)) in H.
  rewrite <- app_assoc in H. fold (prologue e a) in H.
  destruct H as [(ex & _ & _ & -> & Ht) | (e1 & H)].
  { left. exists ex. split; [reflexivity | left; exact Ht]. }
  apply bind_inv in H as [(ex & Hc & ->) | (d & w1 & Hc & H)];
    apply load_dataset_inv in Hc
      as [(ex' & Hr & Ht) | (d' & Hr & Ht & Hfile)]; try discriminate;
    unfold dataset_events, processed_path in Ht;
    rewrite ?adjusted_dataset_args, ?adjusted_input_dir in Ht.
  - injection Hr as <-. left. exists ex. split; [reflexivity | right; exact Ht].
  - injection Hr as <-. right. exists d, w1.
    unfold processed_path in *. rewrite adjusted_input_dir in Hfile.
    split; [exact Ht |]. split; [exact Hfile | exact H].
Qed.

(** X1.  A run that fails the feature-size assertion has already
    overwritten [processed.bin]: when it ends, the file holds the pickle of
    the dataset whose feature size did not match. *)
Theorem mismatch_leaves_pickle argv e r w a d :
  parse_args argv = inr a ->
  run (script argv) e = (r, w) ->
  In (EvDataSet (dataset_args a) (inr d)) (trace w) ->
  args.feature_size a <> DataSet_feature_size d ->
  r = inl (AssertionError assertion_text)
  /\ files (env w) !! os_path_join (args.input_dir a) "processed.bin"
     = Some (FPickle d).
Proof.
  intros Hp Hrun Hin Hne.
  destruct (constructed_dataset _ _ _ _ _ _ _ Hp Hrun Hin)
    as [_ [(_ & Hr & Hshape) | (rm & rest & Heq & _)]]; [| contradiction].
  split; [exact Hr |].
  destruct (run_to_dataset _ _ _ _ _ Hp Hrun)
    as [(ex & _ & [Ht | Ht]) | (d' & w1 & Ht1 & Hfile & Hrest)].
  { rewrite Ht in Hshape. apply (f_equal (@length Event)) in Hshape.
    rewrite length_app in Hshape. simpl in Hshape. lia. }
  { rewrite Ht in Hshape. apply app_inv_head in Hshape. discriminate Hshape. }
  assert (Hext : exists evs, trace w = trace w1 ++ evs).
  { destruct (after_dataset_grows _ _ _ _ _ _ _ Hrest) as (evs & Ht & _).
    exists evs. exact Ht. }
  destruct Hext as (evs & Ht).
  rewrite Ht, Ht1, <- app_assoc in Hshape. apply app_inv_head in Hshape.
  unfold dataset_events in Hshape. simpl in Hshape.
  injection Hshape as Hd Hevs. subst d' evs.
  rewrite app_nil_r in Ht.
  unfold after_dataset in Hrest. rewrite bind_run in Hrest.
  unfold assert_feature_size at 1 in Hrest. rewrite adjusted_feature_size in Hrest.
  destruct (Z.eqb_spec (args.feature_size a) (DataSet_feature_size d)) as [Heq | _];
    [contradiction |].
  injection Hrest as _ <-. exact Hfile.
Qed.


Lemma parse_args_model_type argv a :
  parse_args argv = inr a ->
  args.model_type a = "devign" \/ args.model_type a = "ggnn".
Proof.
  unfold parse_args. intros H.
  destruct (negb _) eqn:Hchoice; [discriminate H |].
  destruct (cmdline.dataset argv); [| discriminate H].
  destruct (cmdline.input_dir argv); [| discriminate H].
  injection H as <-. simpl.
  apply negb_false_iff, orb_true_iff in Hchoice as [Hc | Hc];
    apply String.eqb_eq in Hc; auto.
Qed.

(** X3.  Every model the driver constructs gets [input_dim] equal to the
    feature size of the command line (the assertion has passed),
    [output_dim] at least as large, the number of steps of the command
    line, the edge-type count of the dataset that was constructed, and is a
    [GGNNSum] exactly when [model_type] is ['ggnn']. *)
Theorem model_dimensions argv e r w a k i o s t rm :
  parse_args argv = inr a ->
  run (script argv) e = (r, w) ->
  In (EvModel k i o s t rm) (trace w) ->
  i = args.feature_size a
  /\ i <= o
  /\ o = Z.max (args.feature_size a) (args.graph_embed_size a)
  /\ s = args.num_steps a
  /\ (k = KGGNN <-> args.model_type a = "ggnn")
  /\ (k = KDevign <-> args.model_type a = "devign")
  /\ exists d,
       In (EvDataSet (dataset_args a) (inr d)) (trace w)
       /\ i = DataSet_feature_size d
       /\ t = DataSet_max_edge_type d.
Proof.
  intros Hp Hrun Hin. pose proof (parse_args_model_type _ _ Hp) as Hmt.
  destruct (run_stages _ _ _ _ _ Hp Hrun)
    as [(ex & _ & _ & _ & Ht)
       | [(ex & _ & Ht)
         | [(d & _ & _ & Ht) | (d & rm' & rest & Heq & Ht & Hlate)]]];
    rewrite Ht in Hin |- *;
    [exfalso; exact (prologue_not_model _ _ _ _ _ _ _ _ Hin) | ..];
    apply in_app_or in Hin as [Hin | Hin];
    try (exfalso; exact (prologue_not_model _ _ _ _ _ _ _ _ Hin)).
  - destruct Hin as [Hin | []]. discriminate Hin.
  - destruct Hin as [Hin | [Hin | []]]; discriminate Hin.
  - apply in_app_or in Hin as [Hin | Hin].
    { destruct Hin as [Hin | [Hin | []]]; discriminate Hin. }
    destruct Hin as [Hin | Hin];
      [| exfalso; exact (late_not_model _ _ _ _ _ _ _ Hlate Hin)].
    unfold model_event in Hin. injection Hin as <- <- <- <- <- <-.
    rewrite adjusted_graph_embed_size.
    split; [symmetry; exact Heq |]. split; [lia |]. split; [reflexivity |].
    split; [reflexivity |]. split; [| split].
    + unfold kind_of. destruct (String.eqb_spec (args.model_type a) "ggnn");
        split; intros H; congruence.
    + unfold kind_of. destruct (String.eqb_spec (args.model_type a) "ggnn") as [Hg | Hg];
        split; intros H; try congruence; destruct Hmt; congruence.
    + exists d. split; [| split; reflexivity].
      apply in_or_app. right. left. reflexivity.
Qed.

(** A run whose [os.makedirs] raises at line 77 ends there. *)
Lemma makedirs_failure_run argv e a ex :
  parse_args argv = inr a ->
  exists_in e (model_dir_of a) = false ->
  (OS_makedirs (model_dir_of a) false (seeded e)).1 = inl ex ->
  exists e1, run (script argv) e = (inl ex, mkWorld e1 (prologue e a)).
Proof.
  intros Hp Hex Hmk. rewrite script_after_parse, bind_run.
  unfold lift at 1. rewrite Hp. unfold after_parse.
  rewrite bind_run, check_embed_size_run. cbv zeta.
  rewrite ensure_dir_run. cbn [env trace].
  rewrite adjusted_dataset. fold (model_dir_of a).
  change (exists_in (seeded e) (model_dir_of a)) with (exists_in e (model_dir_of a)).
  rewrite Hex.
  destruct (OS_makedirs (model_dir_of a) false (seeded e)) as [[ex' | []] e1];
    simpl in Hmk; [| discriminate Hmk].
  injection Hmk as ->. exists e1. unfold prologue, mkdir_events.
  rewrite Hex, <- app_assoc. reflexivity.
Qed.

(** X4.  The order of what a run does before it touches the data: device
    line, the two seeds, the warning if the embedding size was corrected,
    and the call of [os.makedirs] on the model directory if and only if
    [os.path.exists] found nothing there.  If that call raises, the run
    ends there with its exception and the [DataSet] constructor is never
    called; otherwise the call of the constructor is the next entry, so
    that the model directory is made also by runs that fail to load their
    data. *)
Theorem model_dir_made_before_dataset argv e r w a :
  parse_args argv = inr a ->
  run (script argv) e = (r, w) ->
  let model_dir := os_path_join "models" (args.dataset a) in
  let found := isfile e model_dir || isdir e model_dir in
  let made := OS_makedirs model_dir false
                (set_numpy_rng (set_torch_rng e (rng_seed 1000)) (rng_seed 1000)) in
  let before :=
    [cuda_line e; EvTorchManualSeed 1000; EvNumpySeed 1000]
    ++ (if args.feature_size a >? args.graph_embed_size a
        then [EvStderr warning_text] else [])
    ++ (if found then [] else [EvMakedirs model_dir]) in
  (forall ex,
      found = false -> made.1 = inl ex ->
      r = inl ex /\ trace w = before
      /\ forall da rd, ~ In (EvDataSet da rd) (trace w))
  /\ (found = true \/ made.1 = inr tt ->
      exists rd rest, trace w = before ++ EvDataSet (dataset_args a) rd :: rest).
Proof.
  intros Hp Hrun model_dir found made before.
  assert (Hbefore : before = prologue e a).
  { unfold before, prologue, opening, warning_events, mkdir_events, exists_in.
    reflexivity. }
  split.
  - intros ex Hfound Hmade.
    destruct (makedirs_failure_run argv e a ex Hp Hfound Hmade) as (e1 & Hfail).
    rewrite Hfail in Hrun. injection Hrun as <- <-. cbn [trace].
    split; [reflexivity |]. split; [symmetry; exact Hbefore |].
    intros da rd Hin. exact (prologue_not_dataset _ _ _ _ Hin).
  - intros Hok. rewrite Hbefore.
    destruct (run_stages _ _ _ _ _ Hp Hrun)
      as [(ex & _ & Hex & Hmk & _)
         | [(ex & _ & Ht) | [(d & _ & _ & Ht) | (d & rm & rest & _ & Ht & _)]]].
    + exfalso. destruct Hok as [Hok | Hok].
      * unfold found in Hok. unfold exists_in in Hex. fold model_dir in Hex.
        unfold model_dir_of in Hex. fold model_dir in Hex. congruence.
      * unfold made, model_dir in Hok. unfold model_dir_of, seeded in Hmk. congruence.
    + rewrite Ht. do 2 eexists. reflexivity.
    + rewrite Ht. unfold dataset_events. do 2 eexists. reflexivity.
    + rewrite Ht. unfold dataset_events. do 2 eexists. reflexivity.
Qed.

(** *** Counting calls *)

Lemma calls_app p l1 l2 : calls p (l1 ++ l2) = (calls p l1 + calls p l2)%nat.
Proof. unfold calls. rewrite List.filter_app, length_app. reflexivity. Qed.

Lemma calls_none p l : (forall ev, In ev l -> p ev = false) -> calls p l = 0%nat.
Proof.
  unfold calls. induction l as [| ev l IH]; intros H; [reflexivity |].
  simpl. rewrite (H ev) by (left; reflexivity).
  apply IH. intros ev' Hin. apply H. right. exact Hin.
Qed.

Lemma calls_export p evs :
  (forall ev, export_event ev = true -> p ev = false) ->
  forallb export_event evs = true -> calls p evs = 0%nat.
Proof.
  intros Hp Hev. apply calls_none. intros ev Hin. apply Hp.
  exact (in_export_events _ _ Hev Hin).
Qed.

Lemma in_prologue_cases e a ev :
  In ev (prologue e a) ->
  ev = cuda_line e \/ ev = EvTorchManualSeed 1000 \/ ev = EvNumpySeed 1000
  \/ ev = EvStderr warning_text \/ ev = EvMakedirs (model_dir_of a).
Proof.
  unfold prologue. intros H. apply in_app_or in H as [H | H].
  - apply in_opening in H. tauto.
  - apply in_app_or in H as [H | H].
    + apply in_warning_events in H as [-> _]. tauto.
    + apply in_mkdir_events in H as ->. tauto.
Qed.

Lemma calls_prologue p e a :
  (forall line, p (EvStdout line) = false) ->
  (forall path, p (EvMakedirs path) = false) ->
  p (EvTorchManualSeed 1000) = false -> p (EvNumpySeed 1000) = false ->
  p (EvStderr warning_text) = false ->
  calls p (prologue e a) = 0%nat.
Proof.
  intros H1 H2 H3 H4 H5. apply calls_none. intros ev Hin.
  apply in_prologue_cases in Hin as [-> | [-> | [-> | [-> | ->]]]]; auto.
  apply H1.
Qed.

Lemma calls_zero_in p l ev : calls p l = 0%nat -> In ev l -> p ev = false.
Proof.
  unfold calls. induction l as [| x l IH]; intros Hc Hin; [destruct Hin |].
  simpl in Hc. destruct (p x) eqn:Hx; [discriminate Hc |].
  destruct Hin as [<- | Hin]; [exact Hx | exact (IH Hc Hin)].
Qed.

(** Case analysis on the stage at which a run ended. *)
Ltac by_outcome Hrun Hp :=
  apply script_outcome in Hrun;
  match type of Hrun with
  | Outcome _ _ _ (trace ?w) =>
      let tr := fresh "tr" in
      let Htr := fresh "Htr" in
      remember (trace w) as tr eqn:Htr; clear Htr
  end;
  destruct Hrun as
    [ ex Hp' | a' ex Hp' Hex Hmk | a' ex Hp' | a' d Hp' Hfs | a' d ex Hp' Hfs | a' d m ex Hp' Hfs
    | a' d m n ex Hp' Hfs Hcu | a' d m n cuda_ev ex Hp' Hfs Hcev
    | a' d m n cuda_ev r' evs Hp' Hfs Hcev Hexp ];
  rewrite Hp in Hp';
  first [discriminate Hp' | injection Hp' as <-];
  try subst cuda_ev.

(** Evaluates [calls] on the explicit part of a trace. *)
Ltac count :=
  unfold built, dataset_events, report_events, model_event;
  rewrite ?calls_app;
  rewrite ?calls_prologue by (intros; reflexivity);
  repeat match goal with
         | |- context [if CUDA_of ?e then _ else _] => destruct (CUDA_of e)
         end;
  unfold calls; simpl.

(** X5.  A run with a well-formed command line calls the [DataSet]
    constructor at most once, and not at all exactly when [os.makedirs]
    raised on the model directory; it calls a model constructor only
    after the [DataSet] constructor and at most once, and the training loop
    only after it has built a model and at most once. *)
Theorem one_dataset_one_model_one_training argv e r w a :
  parse_args argv = inr a ->
  run (script argv) e = (r, w) ->
  let model_dir := os_path_join "models" (args.dataset a) in
  (calls is_dataset_call (trace w) <= 1)%nat
  /\ (calls is_dataset_call (trace w) = 0%nat <->
      isfile e model_dir || isdir e model_dir = false
      /\ exists ex,
           (OS_makedirs model_dir false
              (set_numpy_rng (set_torch_rng e (rng_seed 1000)) (rng_seed 1000))).1
           = inl ex)
  /\ (calls is_model_call (trace w) <= calls is_dataset_call (trace w))%nat
  /\ (calls is_train_call (trace w) <= calls is_model_call (trace w))%nat.
Proof.
  intros Hp Hrun model_dir.
  assert (Hfwd : isfile e model_dir || isdir e model_dir = false
                 /\ (exists ex,
                        (OS_makedirs model_dir false
                           (set_numpy_rng (set_torch_rng e (rng_seed 1000))
                                          (rng_seed 1000))).1 = inl ex) ->
                 calls is_dataset_call (trace w) = 0%nat).
  { intros (Hfound & ex & Hmade).
    destruct (makedirs_failure_run argv e a ex Hp Hfound Hmade) as (e1 & Hfail).
    rewrite Hfail in Hrun. injection Hrun as _ <-. cbn [trace].
    apply calls_prologue; intros; reflexivity. }
  by_outcome Hrun Hp.
  - assert (H0 : calls is_dataset_call (prologue e a) = 0%nat)
      by (apply calls_prologue; intros; reflexivity).
    assert (H1 : calls is_model_call (prologue e a) = 0%nat)
      by (apply calls_prologue; intros; reflexivity).
    assert (H2 : calls is_train_call (prologue e a) = 0%nat)
      by (apply calls_prologue; intros; reflexivity).
    rewrite H0, H1, H2. split; [lia |]. split; [| lia].
    split; [intros _ | reflexivity].
    split; [exact Hex | exists ex; exact Hmk].
  - revert Hfwd. count. intros Hfwd.
    split; [lia |]. split; [| lia]. split; [discriminate | exact Hfwd].
  - revert Hfwd. count. intros Hfwd.
    split; [lia |]. split; [| lia]. split; [discriminate | exact Hfwd].
  - revert Hfwd. count. intros Hfwd.
    split; [lia |]. split; [| lia]. split; [discriminate | exact Hfwd].
  - revert Hfwd. count. intros Hfwd.
    split; [lia |]. split; [| lia]. split; [discriminate | exact Hfwd].
  - revert Hfwd. count. intros Hfwd.
    split; [lia |]. split; [| lia]. split; [discriminate | exact Hfwd].
  - revert Hfwd. count; intros Hfwd;
      (split; [lia |]; split; [| lia]; split; [discriminate | exact Hfwd]).
  - apply Export_events in Hexp.
    assert (H1 : calls is_dataset_call evs = 0%nat)
      by (apply calls_export; [intros [] Hx; (reflexivity || discriminate Hx) | exact Hexp]).
    assert (H2 : calls is_model_call evs = 0%nat)
      by (apply calls_export; [intros [] Hx; (reflexivity || discriminate Hx) | exact Hexp]).
    assert (H3 : calls is_train_call evs = 0%nat)
      by (apply calls_export; [intros [] Hx; (reflexivity || discriminate Hx) | exact Hexp]).
    revert Hfwd.
    rewrite !app_assoc, !(calls_app _ _ evs), H1, H2, H3, <- !app_assoc.
    count; intros Hfwd;
      (split; [lia |]; split; [| lia]; split; [discriminate | exact Hfwd]).
Qed.

(** Where the [train] call of a run sits in its trace. *)
Lemma train_position argv e r w a tc rt :
  parse_args argv = inr a ->
  run (script argv) e = (r, w) ->
  In (EvTrain tc rt) (trace w) ->
  exists d m n post,
    args.feature_size a = DataSet_feature_size d
    /\ tc = the_train_call a d m
    /\ trace w = built e a d m n
                 ++ (if CUDA_of e then [EvModelCuda m (inr tt)] else [])
                 ++ EvTrain tc rt :: post.
Proof.
  intros Hp Hrun Hin. by_outcome Hrun Hp;
    try (exfalso;
         match type of Hin with
         | In _ ?l =>
             assert (Hc : calls is_train_call l = 0%nat) by (count; reflexivity);
             apply (calls_zero_in _ _ _ Hc) in Hin; discriminate Hin
         end).
  - rewrite app_assoc in Hin. apply in_app_or in Hin as [Hin | Hin].
    { exfalso.
      match type of Hin with
      | In _ ?l =>
          assert (Hc : calls is_train_call l = 0%nat) by (count; reflexivity);
          apply (calls_zero_in _ _ _ Hc) in Hin; discriminate Hin
      end. }
    destruct Hin as [Hin | []]. injection Hin as <- <-.
    exists d, m, n, []. repeat split. exact Hfs.
  - rewrite app_assoc in Hin. apply in_app_or in Hin as [Hin | Hin].
    { exfalso.
      match type of Hin with
      | In _ ?l =>
          assert (Hc : calls is_train_call l = 0%nat) by (count; reflexivity);
          apply (calls_zero_in _ _ _ Hc) in Hin; discriminate Hin
      end. }
    destruct Hin as [Hin | Hin];
      [| exfalso; exact (export_not_train _ _ _ _ _ _ _ Hexp Hin)].
    injection Hin as <- <-.
    exists d, m, n, evs. repeat split. exact Hfs.
Qed.

(** X6.  The model is moved to the GPU only when the environment variable
    [CUDA] is exactly ["1"]; when it is, the move is the last thing done
    before the training loop is called, on the model that is trained. *)
Theorem cuda_only_when_enabled argv e r w a :
  parse_args argv = inr a ->
  run (script argv) e = (r, w) ->
  (environ e !! "CUDA" <> Some "1" ->
     forall m rc, ~ In (EvModelCuda m rc) (trace w))
  /\ (environ e !! "CUDA" = Some "1" ->
        forall tc rt,
          In (EvTrain tc rt) (trace w) ->
          exists pre post,
            trace w = pre ++ EvModelCuda (tc_model tc) (inr tt) :: EvTrain tc rt :: post).
Proof.
  intros Hp Hrun. split.
  - intros Hoff m rc Hin.
    apply (trace_entries _ _ _ _ _ Hp Hrun) in Hin.
    remember (EvModelCuda m rc) as ev eqn:Hev.
    destruct Hin as [ev Hop | | | | | | | m' rc' Hcu | | ev Hexp];
      try discriminate Hev.
    + subst ev. apply in_opening in Hop as [Hx | [Hx | Hx]]; discriminate Hx.
    + unfold CUDA_of in Hcu. apply bool_decide_eq_true in Hcu. contradiction.
    + subst ev. discriminate Hexp.
  - intros Hon tc rt Hin.
    destruct (train_position _ _ _ _ _ _ _ Hp Hrun Hin)
      as (d & m & n & post & _ & -> & Ht).
    assert (Hcu : CUDA_of e = true) by (apply bool_decide_eq_true; exact Hon).
    rewrite Hcu in Ht. exists (built e a d m n), post. exact Ht.
Qed.

(** X7.  The training loop is only ever called on the dataset the run
    constructed and pickled, and only when that dataset's feature size is
    the one given on the command line; it is given at most 1000000 steps,
    a validation check every 128 steps and no progress logging. *)
Theorem train_only_on_matching_dataset argv e r w a tc rt :
  parse_args argv = inr a ->
  run (script argv) e = (r, w) ->
  In (EvTrain tc rt) (trace w) ->
  args.feature_size a = DataSet_feature_size (tc_dataset tc)
  /\ In (EvDataSet (dataset_args a) (inr (tc_dataset tc))) (trace w)
  /\ In (EvPickleDump (os_path_join (args.input_dir a) "processed.bin") (tc_dataset tc))
        (trace w)
  /\ tc_max_steps tc = 1000000
  /\ tc_dev_every tc = 128
  /\ tc_log_every tc = None.
Proof.
  intros Hp Hrun Hin.
  destruct (train_position _ _ _ _ _ _ _ Hp Hrun Hin)
    as (d & m & n & post & Hfs & -> & Ht).
  simpl. split; [exact Hfs |]. rewrite Ht. unfold built, dataset_events.
  split; [| split; [| repeat split]].
  - apply in_or_app. left. apply in_or_app. right. apply in_or_app. left.
    left. reflexivity.
  - apply in_or_app. left. apply in_or_app. right. apply in_or_app. left.
    right. left. reflexivity.
Qed.

(** X8.  Batches are iterated, embeddings read out and JSON files written
    only by runs with [--save_after_ggnn], and only after the training loop
    has returned normally: a run whose training raised exports nothing. *)
Theorem export_only_after_training argv e r w a ev :
  parse_args argv = inr a ->
  run (script argv) e = (r, w) ->
  In ev (trace w) ->
  is_export_call ev = true ->
  args.save_after_ggnn a = true
  /\ exists pre tc post,
       trace w = pre ++ EvTrain tc (inr tt) :: post /\ In ev post.
Proof.
  intros Hp Hrun Hin Hexpc. by_outcome Hrun Hp;
    try (exfalso;
         match type of Hin with
         | In _ ?l =>
             assert (Hc : calls is_export_call l = 0%nat) by (count; reflexivity);
             apply (calls_zero_in _ _ _ Hc) in Hin; congruence
         end).
  rewrite app_assoc in Hin. apply in_app_or in Hin as [Hin | Hin].
  { exfalso.
    match type of Hin with
    | In _ ?l =>
        assert (Hc : calls is_export_call l = 0%nat) by (count; reflexivity);
        apply (calls_zero_in _ _ _ Hc) in Hin; congruence
    end. }
  destruct Hin as [<- | Hin]; [discriminate Hexpc |].
  split.
  - destruct Hexp as [Hoff | | ]; [destruct Hin | assumption | assumption].
  - exists (built e a d m n ++ (if CUDA_of e then [EvModelCuda m (inr tt)] else [])),
      (the_train_call a d m), evs.
    split; [rewrite <- app_assoc; reflexivity | exact Hin].
Qed.

(** *** [save_after_ggnn] on its own *)

(** The loop never asks for more batches than it was told to, and with
    nothing to do it does nothing. *)
Lemma save_loop_count (CUDA : bool) m lf s d n :
  forall acc w r w',
    save_after_ggnn_loop CUDA m lf
      (call (EvNextBatch s d) (DataSet_get_next_batch s d)) n acc w = (r, w') ->
    exists evs,
      trace w' = trace w ++ evs
      /\ Forall (fetch_entry s d m) evs
      /\ (calls is_fetch_call evs <= n)%nat
      /\ (n = 0%nat -> evs = []).
Proof.
  assert (Hf : forall rb, fetch_entry s d m (EvNextBatch s d rb))
    by (intros rb; left; exists rb; reflexivity).
  assert (He : forall g ro, fetch_entry s d m (EvEmbeddings m g ro))
    by (intros g ro; right; exists g, ro; reflexivity).
  induction n as [| n IH]; intros acc w r w' H.
  - injection H as <- <-. exists []. rewrite app_nil_r.
    split; [reflexivity |]. split; [constructor |]. split; reflexivity.
  - simpl in H.
    apply bind_inv in H as [(ex & Hc & ->) | ([g t] & w1 & Hc & H)];
      apply call_inv in Hc as [Ht1 _].
    { exists [EvNextBatch s d (inl ex)]. split; [exact Ht1 |].
      split; [constructor; [apply Hf | constructor] |].
      split; [unfold calls; simpl; lia | discriminate]. }
    apply bind_inv in H as [(ex & Hc & ->) | (preds & w2 & Hc & H)];
      apply predictions_inv in Hc; rename Hc into Ht2.
    { exists [EvNextBatch s d (inr (g, t))]. rewrite Ht2. split; [exact Ht1 |].
      split; [constructor; [apply Hf | constructor] |].
      split; [unfold calls; simpl; lia | discriminate]. }
    apply bind_inv in H as [(ex & Hc & ->) | (loss & w3 & Hc & H)];
      apply ext_inv in Hc as [Ht3 _].
    { exists [EvNextBatch s d (inr (g, t))]. rewrite Ht3, Ht2. split; [exact Ht1 |].
      split; [constructor; [apply Hf | constructor] |].
      split; [unfold calls; simpl; lia | discriminate]. }
    apply bind_inv in H as [(ex & Hc & ->) | (out & w4 & Hc & H)];
      apply call_inv in Hc as [Ht4 _].
    { exists [EvNextBatch s d (inr (g, t)); EvEmbeddings m g (inl ex)].
      rewrite Ht4, Ht3, Ht2, Ht1, <- app_assoc. split; [reflexivity |].
      split; [constructor; [apply Hf | constructor; [apply He | constructor]] |].
      split; [unfold calls; simpl; lia | discriminate]. }
    apply bind_inv in H as [(ex & Hc & ->) | (ints & w5 & Hc & H)];
      apply lift_inv in Hc as [Hints ->].
    { exists [EvNextBatch s d (inr (g, t)); EvEmbeddings m g (inr out)].
      rewrite Ht4, Ht3, Ht2, Ht1, <- app_assoc. split; [reflexivity |].
      split; [constructor; [apply Hf | constructor; [apply He | constructor]] |].
      split; [unfold calls; simpl; lia | discriminate]. }
    apply IH in H as (evs & Ht & HP & Hn & _).
    exists ([EvNextBatch s d (inr (g, t)); EvEmbeddings m g (inr out)] ++ evs).
    split; [rewrite Ht, Ht4, Ht3, Ht2, Ht1, <- !app_assoc; reflexivity |].
    split; [| split; [| discriminate]].
    + constructor; [apply Hf |]. constructor; [apply He | exact HP].
    + rewrite calls_app. unfold calls at 1. simpl. lia.
Qed.

Lemma calls_fetched s d m bs :
  calls is_fetch_call (flat_map (fetched_events s d m) bs) = length bs.
Proof.
  induction bs as [| b bs IH]; [reflexivity |].
  unfold calls in *. simpl. rewrite IH. reflexivity.
Qed.

Lemma fetched_entries s d m bs :
  Forall (fetch_entry s d m) (flat_map (fetched_events s d m) bs).
Proof.
  induction bs as [| b bs IH]; [constructor |].
  simpl. constructor; [left; eexists; reflexivity |].
  constructor; [right; eexists _, _; reflexivity | exact IH].
Qed.

(** Every way a call of [save_after_ggnn] can end: inside the loop, at
    [open] after the announcement, or after the write. *)
Lemma save_after_ggnn_inv (CUDA : bool) output_dir model loss_function name num_batches
    s d w r w' :
  save_after_ggnn CUDA output_dir model loss_function name num_batches
    (call (EvNextBatch s d) (DataSet_get_next_batch s d)) print w = (r, w') ->
  let dst_filepath := os_path_join output_dir (name +:+ "_GGNNinput_graph.json") in
  (exists ex evs,
      r = inl ex /\ trace w' = trace w ++ evs
      /\ Forall (fetch_entry s d model) evs
      /\ (calls is_fetch_call evs <= Z.to_nat num_batches)%nat
      /\ (Z.to_nat num_batches = 0%nat -> evs = []))
  \/ (exists bs w1,
         length bs = Z.to_nat num_batches /\ Forall fetched_ok bs
         /\ trace w1 = trace w ++ flat_map (fetched_events s d model) bs
         /\ ((exists ex,
                 r = inl ex /\ (OS_open_w dst_filepath (env w1)).1 = inl ex
                 /\ trace w' = trace w1 ++ [EvStdout ("Saving to " +:+ dst_filepath)])
             \/ (r = inr tt
                 /\ (OS_open_w dst_filepath (env w1)).1 = inr tt
                 /\ trace w' = trace w1 ++ [EvStdout ("Saving to " +:+ dst_filepath);
                                            EvWrite dst_filepath (export_content bs)]
                 /\ files (env w') !! dst_filepath
                    = Some (FJson (export_content bs))))).
Proof.
  intros H dst. unfold save_after_ggnn in H.
  apply bind_inv in H as [(ex & Hc & ->) | (acc & w1 & Hc & H)].
  - left. apply save_loop_count in Hc as (evs & Ht & HP & Hn & Hz).
    exists ex, evs. repeat split; assumption.
  - right.
    apply save_loop_inv in Hc as [(acc' & bs & Hacc & Hlen & Hok & Ht & Hfin)
                                 | (? & ? & ? & _)]; [| discriminate].
    injection Hacc as <-. simpl in Hfin. cbv zeta in H. rewrite Hfin in H.
    exists bs, w1. split; [exact Hlen |]. split; [exact Hok |]. split; [exact Ht |].
    apply save_tail_inv in H as [(ex & -> & Ho & Ht2) | (-> & Ho & Ht2 & Hfile)].
    + left. exists ex. repeat split; assumption.
    + right. repeat split; assumption.
Qed.

(** X9.  A call of [save_after_ggnn] never asks [get_fn] for more than
    [num_batches] batches, and it announces the file only once it has
    fetched them all.  With a count of zero or less it fetches nothing and
    does not call the model: all it does is to announce the file and, if
    [open] lets it, to write the empty array. *)
Theorem save_after_ggnn_fetches_num_batches (CUDA : bool) output_dir model
    loss_function name num_batches s d w r w' :
  save_after_ggnn CUDA output_dir model loss_function name num_batches
    (call (EvNextBatch s d) (DataSet_get_next_batch s d)) print w = (r, w') ->
  exists evs,
    trace w' = trace w ++ evs
    /\ (calls is_fetch_call evs <= Z.to_nat num_batches)%nat
    /\ ((exists line, In (EvStdout line) evs) ->
        calls is_fetch_call evs = Z.to_nat num_batches)
    /\ (r = inr tt -> calls is_fetch_call evs = Z.to_nat num_batches)
    /\ (num_batches <= 0 ->
        forall ev, In ev evs ->
          (exists line, ev = EvStdout line)
          \/ (exists path, ev = EvWrite path (JList []))).
Proof.
  intros H.
  apply save_after_ggnn_inv in H
    as [(ex & evs & -> & Ht & HP & Hn & Hz)
       | (bs & w1 & Hlen & Hok & Ht1 & [(ex & -> & _ & Ht) | (-> & _ & Ht & _)])].
  - exists evs. split; [exact Ht |]. split; [exact Hn |].
    rewrite List.Forall_forall in HP. split; [| split; [discriminate |]].
    + intros (line & Hin).
      apply HP in Hin as [(rb & Hx) | (g & ro & Hx)]; discriminate Hx.
    + intros Hle ev Hin. rewrite Hz in Hin by lia. destruct Hin.
  - exists (flat_map (fetched_events s d model) bs
            ++ [EvStdout ("Saving to "
                          +:+ os_path_join output_dir (name +:+ "_GGNNinput_graph.json"))]).
    split; [rewrite Ht, Ht1, <- app_assoc; reflexivity |].
    assert (Hc : calls is_fetch_call
                   (flat_map (fetched_events s d model) bs
                    ++ [EvStdout ("Saving to "
                                  +:+ os_path_join output_dir
                                        (name +:+ "_GGNNinput_graph.json"))])
                 = Z.to_nat num_batches).
    { rewrite calls_app, calls_fetched, Hlen. unfold calls. simpl. lia. }
    split; [lia |]. split; [intros _; exact Hc |]. split; [intros _; exact Hc |].
    intros Hle ev Hin.
    assert (Hbs : bs = []) by (destruct bs; [reflexivity | simpl in Hlen; lia]).
    subst bs. destruct Hin as [<- | []]. left. eexists. reflexivity.
  - exists (flat_map (fetched_events s d model) bs
            ++ [EvStdout ("Saving to "
                          +:+ os_path_join output_dir (name +:+ "_GGNNinput_graph.json"));
                EvWrite (os_path_join output_dir (name +:+ "_GGNNinput_graph.json"))
                        (export_content bs)]).
    split; [rewrite Ht, Ht1, <- app_assoc; reflexivity |].
    assert (Hc : calls is_fetch_call
                   (flat_map (fetched_events s d model) bs
                    ++ [EvStdout ("Saving to "
                                  +:+ os_path_join output_dir
                                        (name +:+ "_GGNNinput_graph.json"));
                        EvWrite (os_path_join output_dir
                                   (name +:+ "_GGNNinput_graph.json"))
                                (export_content bs)])
                 = Z.to_nat num_batches).
    { rewrite calls_app, calls_fetched, Hlen. unfold calls. simpl. lia. }
    split; [lia |]. split; [intros _; exact Hc |]. split; [intros _; exact Hc |].
    intros Hle ev Hin.
    assert (Hbs : bs = []) by (destruct bs; [reflexivity | simpl in Hlen; lia]).
    subst bs. destruct Hin as [<- | [<- | []]].
    + left. eexists. reflexivity.
    + right. eexists. reflexivity.
Qed.

(** X10.  A call of [save_after_ggnn] that raises has written nothing.
    Either it raised inside the loop, and then all it has done is to fetch
    batches and read out embeddings; or it has processed every batch and
    printed the [Saving to] line, and it was [open] that raised: the line
    is printed before the file is opened, so it can announce a file that
    is never written. *)
Theorem save_after_ggnn_failure_writes_nothing (CUDA : bool) output_dir model
    loss_function name num_batches s d w ex w' :
  save_after_ggnn CUDA output_dir model loss_function name num_batches
    (call (EvNextBatch s d) (DataSet_get_next_batch s d)) print w = (inl ex, w') ->
  let dst_filepath := os_path_join output_dir (name +:+ "_GGNNinput_graph.json") in
  exists evs,
    trace w' = trace w ++ evs
    /\ (forall path j, ~ In (EvWrite path j) evs)
    /\ ((Forall (fetch_entry s d model) evs
         /\ (forall line, ~ In (EvStdout line) evs))
        \/ (exists bs e0,
               length bs = Z.to_nat num_batches
               /\ evs = flat_map
                          (fun b => [EvNextBatch s d (inr (f_graph b, f_targets b));
                                     EvEmbeddings model (f_graph b) (inr (f_output b))])
                          bs
                        ++ [EvStdout ("Saving to " +:+ dst_filepath)]
               /\ (OS_open_w dst_filepath e0).1 = inl ex)).
Proof.
  intros H dst.
  apply save_after_ggnn_inv in H
    as [(ex' & evs & Hr & Ht & HP & _)
       | (bs & w1 & Hlen & _ & Ht1 & [(ex' & Hr & Ho & Ht) | (Hr & _)])];
    [| | discriminate Hr].
  - exists evs. split; [exact Ht |].
    pose proof HP as HP'. rewrite List.Forall_forall in HP'. split.
    + intros path j Hin.
      apply HP' in Hin as [(rb & Hx) | (g & ro & Hx)]; discriminate Hx.
    + left. split; [exact HP |]. intros line Hin.
      apply HP' in Hin as [(rb & Hx) | (g & ro & Hx)]; discriminate Hx.
  - injection Hr as <-.
    exists (flat_map (fetched_events s d model) bs ++ [EvStdout ("Saving to " +:+ dst)]).
    split; [rewrite Ht, Ht1, <- app_assoc; reflexivity |]. split.
    + intros path j Hin. apply List.in_app_or in Hin as [Hin | Hin].
      * pose proof (fetched_entries s d model bs) as HP.
        rewrite List.Forall_forall in HP.
        apply HP in Hin as [(rb & Hx) | (g & ro & Hx)]; discriminate Hx.
      * destruct Hin as [Hx | []]. discriminate Hx.
    + right. exists bs, (env w1). split; [exact Hlen |]. split; [reflexivity | exact Ho].
Qed.

(** X11.  What a completed call of [save_after_ggnn] leaves in the file:
    one object with the keys [graph_feature] and [target] for every pair
    of an embedding row and a label, batch after batch in the order
    fetched; the target is [int] of the label of the batch at the same
    position, and a batch contributes as many objects as the shorter of
    its embedding rows and its labels, so that surplus rows or labels are
    dropped without notice. *)
Theorem save_after_ggnn_pairs_rows_with_labels (CUDA : bool) output_dir model
    loss_function name num_batches s d w w' :
  save_after_ggnn CUDA output_dir model loss_function name num_batches
    (call (EvNextBatch s d) (DataSet_get_next_batch s d)) print w = (inr tt, w') ->
  let dst_filepath := os_path_join output_dir (name +:+ "_GGNNinput_graph.json") in
  exists bs objects,
    length bs = Z.to_nat num_batches
    /\ trace w'
       = trace w
         ++ flat_map
              (fun b => [EvNextBatch s d (inr (f_graph b, f_targets b));
                         EvEmbeddings model (f_graph b) (inr (f_output b))])
              bs
         ++ [EvStdout ("Saving to " +:+ dst_filepath);
             EvWrite dst_filepath (JList objects)]
    /\ files (env w') !! dst_filepath = Some (FJson (JList objects))
    /\ Forall (fun b => mapM int_of_float (f_targets b) = inr (f_ints b)) bs
    /\ objects
       = map (fun p : list float * Z =>
                JDict [("graph_feature", JList (map JFloat p.1)); ("target", JInt p.2)])
             (flat_map (fun b => combine (f_output b) (f_ints b)) bs)
    /\ length objects
       = sum_list (map (fun b => Nat.min (length (f_output b)) (length (f_targets b))) bs).
Proof.
  intros H dst.
  apply save_after_ggnn_inv in H
    as [(ex' & evs & Hr & _)
       | (bs & w1 & Hlen & Hok & Ht1 & [(ex' & Hr & _) | (_ & _ & Ht & Hfile)])];
    [discriminate Hr | discriminate Hr |].
  exists bs, (map export_object (flat_map fetched_rows bs)).
  split; [exact Hlen |].
  split; [rewrite Ht, Ht1, <- app_assoc; reflexivity |].
  split; [exact Hfile |]. split; [exact Hok |]. split; [reflexivity |].
  rewrite length_map. clear Hlen Ht Ht1 Hfile.
  induction Hok as [| b bs Hb Hbs IH]; [reflexivity |].
  simpl. rewrite length_app, IH. f_equal.
  unfold fetched_rows. rewrite length_combine.
  apply mapM_length in Hb. rewrite Hb. reflexivity.
Qed.

Lemma mapM_inr_each {A B : Type} (f : A -> Exn + B) (l : list A) (l' : list B) x :
  mapM f l = inr l' -> In x l -> exists y, f x = inr y.
Proof.
  revert l'. induction l as [| x0 l IH]; intros l' H Hin; [destruct Hin |].
  simpl in H. destruct (f x0) as [ex | y] eqn:Hx; [discriminate H |].
  destruct (mapM f l) as [ex | ys]; [discriminate H |].
  destruct Hin as [<- | Hin]; [exists y; exact Hx |].
  apply (IH ys); [reflexivity | exact Hin].
Qed.

(** X12.  Line 43 converts every label with [int]: once a fetched batch
    holds a label that is not a number or is infinite, the call cannot
    return normally, and it writes no file, whatever the model and the
    loss answer for that batch. *)
Theorem save_after_ggnn_label_not_finite (CUDA : bool) output_dir model loss_function
    name num_batches s d w r w' evs g targets t ex :
  save_after_ggnn CUDA output_dir model loss_function name num_batches
    (call (EvNextBatch s d) (DataSet_get_next_batch s d)) print w = (r, w') ->
  trace w' = trace w ++ evs ->
  In (EvNextBatch s d (inr (g, targets))) evs ->
  In t targets ->
  int_of_float t = inl ex ->
  (exists ex', r = inl ex') /\ (forall path j, ~ In (EvWrite path j) evs).
Proof.
  intros H Hevs Hin Ht Hbad.
  assert (Hbs : forall bs, Forall fetched_ok bs ->
                  ~ In (EvNextBatch s d (inr (g, targets)))
                       (flat_map (fetched_events s d model) bs)).
  { intros bs Hok Hin'. apply List.in_flat_map in Hin' as (b & Hb & Hin').
    rewrite List.Forall_forall in Hok. apply Hok in Hb. unfold fetched_ok in Hb.
    destruct Hin' as [Hx | [Hx | []]]; [| discriminate Hx].
    injection Hx as _ Htg. rewrite Htg in Hb.
    destruct (mapM_inr_each _ _ _ _ Hb Ht) as (z & Hz). congruence. }
  apply save_after_ggnn_inv in H
    as [(ex' & evs' & -> & Htr & HP & _)
       | (bs & w1 & Hlen & Hok & Ht1 & [(ex' & -> & _ & Htr) | (-> & _ & Htr & _)])].
  - split; [exists ex'; reflexivity |].
    rewrite Htr in Hevs. apply List.app_inv_head in Hevs. subst evs'.
    rewrite List.Forall_forall in HP.
    intros path j Hw. apply HP in Hw as [(rb & Hx) | (g' & ro & Hx)]; discriminate Hx.
  - exfalso. rewrite Htr, Ht1, <- app_assoc in Hevs.
    apply List.app_inv_head in Hevs. subst evs.
    apply List.in_app_or in Hin as [Hin | Hin]; [exact (Hbs bs Hok Hin) |].
    destruct Hin as [Hx | []]. discriminate Hx.
  - exfalso. rewrite Htr, Ht1, <- app_assoc in Hevs.
    apply List.app_inv_head in Hevs. subst evs.
    apply List.in_app_or in Hin as [Hin | Hin]; [exact (Hbs bs Hok Hin) |].
    destruct Hin as [Hx | [Hx | []]]; discriminate Hx.
Qed.

(** *** The paths the driver uses *)

Lemma append_assoc (x y z : string) : (x +:+ y) +:+ z = x +:+ (y +:+ z).
Proof.
  induction x as [| c x IH]; [reflexivity |].
  change (String c ((x +:+ y) +:+ z) = String c (x +:+ (y +:+ z))).
  rewrite IH. reflexivity.
Qed.

Lemma under_append (dir x : string) : under dir (dir +:+ x).
Proof.
  unfold under, startswith. induction dir as [| c dir IH]; simpl.
  - destruct x; reflexivity.
  - destruct (ascii_dec c c) as [_ | Hne]; [exact IH | congruence].
Qed.

Lemma os_path_join_append (a b : string) :
  startswith b "/" = false -> exists z, os_path_join a b = a +:+ z.
Proof.
  intros Hrel. unfold os_path_join. rewrite Hrel.
  destruct (String.eqb a "" || endswith_sep a); eexists; reflexivity.
Qed.

Lemma os_path_join_under (a b : string) :
  startswith b "/" = false -> under a (os_path_join a b).
Proof.
  intros Hrel. destruct (os_path_join_append a b Hrel) as (z & ->).
  apply under_append.
Qed.

Lemma os_path_join_under2 (a b c : string) :
  startswith b "/" = false -> startswith c "/" = false ->
  under a (os_path_join (os_path_join a b) c).
Proof.
  intros Hb Hc. destruct (os_path_join_append a b Hb) as (z & ->).
  destruct (os_path_join_append (a +:+ z) c Hc) as (z' & ->).
  rewrite append_assoc. apply under_append.
Qed.

Lemma after_dataset_paths (CUDA : bool) a model_dir d :
  emits (paths_under (args.input_dir a) model_dir) (after_dataset CUDA a model_dir d).
Proof.
  unfold after_dataset, assert_feature_size, build_model, debug, export_embeddings,
    os_path_exists, os_makedirs.
  repeat (first [ apply emits_save_after_ggnn; intros; simpl;
                  try exact I; apply os_path_join_under2; reflexivity
                | emits_step ]); simpl; auto.
  - apply under_append.
  - right. apply os_path_join_under. reflexivity.
Qed.

(** X13.  Every file the driver names lies under the input directory: the
    three JSON files given to [DataSet], the pickle, and the exported
    files and their directory all begin with [--input_dir].  The only
    other paths are the model directory and the checkpoint path under
    it. *)
Theorem files_stay_under_input_dir argv e r w a :
  parse_args argv = inr a ->
  run (script argv) e = (r, w) ->
  Forall (paths_under (args.input_dir a) (os_path_join "models" (args.dataset a)))
         (trace w).
Proof.
  intros Hp Hrun.
  assert (Hpro : Forall (paths_under (args.input_dir a) (model_dir_of a)) (prologue e a)).
  { apply List.Forall_forall. intros ev Hin.
    apply in_prologue_cases in Hin as [-> | [-> | [-> | [-> | ->]]]]; simpl; auto. }
  assert (Hds : forall rd,
             paths_under (args.input_dir a) (model_dir_of a)
                         (EvDataSet (dataset_args a) rd)).
  { intros rd. simpl. repeat split; apply os_path_join_under; reflexivity. }
  destruct (run_to_dataset _ _ _ _ _ Hp Hrun)
    as [(ex & _ & [Ht | Ht]) | (d & w1 & Ht1 & _ & Hrest)].
  - rewrite Ht. exact Hpro.
  - rewrite Ht. apply Forall_app. split; [exact Hpro |].
    constructor; [apply Hds | constructor].
  - destruct (after_dataset_paths _ _ _ _ _ _ _ Hrest) as (evs & Ht & HP).
    rewrite adjusted_input_dir in HP.
    rewrite Ht, Ht1. apply Forall_app. split; [| exact HP].
    apply Forall_app. split; [exact Hpro |].
    unfold dataset_events. constructor; [apply Hds |].
    constructor; [| constructor].
    simpl. apply os_path_join_under. reflexivity.
Qed.

Lemma os_path_join_relative_form (a b : string) :
  startswith b "/" = false -> os_path_join a b = a +:+ (sep_of a +:+ b).
Proof.
  intros Hrel. unfold os_path_join, sep_of. rewrite Hrel.
  destruct (String.eqb a "" || endswith_sep a); reflexivity.
Qed.

Lemma append_inj (a x y : string) : a +:+ x = a +:+ y -> x = y.
Proof.
  induction a as [| c a IH]; intros H; [exact H |].
  change (String c (a +:+ x) = String c (a +:+ y)) in H.
  injection H as H. exact (IH H).
Qed.

(** An exported file, relative to the input directory. *)
Lemma export_path_relative_form (input_dir : string) (s : Split) :
  export_path (os_path_join input_dir "after_ggnn") s
  = input_dir +:+ (sep_of input_dir
                   +:+ ("after_ggnn/" +:+ split_name s +:+ "_GGNNinput_graph.json")).
Proof.
  rewrite export_path_literal, (os_path_join_relative_form input_dir "after_ggnn")
    by reflexivity.
  rewrite !append_assoc. reflexivity.
Qed.

Lemma after_dataset_writes (CUDA : bool) a model_dir d :
  emits (writes_only a) (after_dataset CUDA a model_dir d).
Proof.
  unfold after_dataset, assert_feature_size, build_model, debug, export_embeddings,
    os_path_exists, os_makedirs.
  repeat (first [ apply (emits_save_after_ggnn _ _ _ _ _ "test" _ Test);
                  intros; simpl; try exact I; exists Test; reflexivity
                | apply (emits_save_after_ggnn _ _ _ _ _ "valid" _ Valid);
                  intros; simpl; try exact I; exists Valid; reflexivity
                | apply (emits_save_after_ggnn _ _ _ _ _ "train" _ Train);
                  intros; simpl; try exact I; exists Train; reflexivity
                | emits_step ]); simpl; auto.
Qed.

(** X14.  The files that [main.py] itself writes ([pickle.dump] at lines
    90-92, [f.write] at line 49) are the pickle and the three exported
    arrays; these four paths are pairwise different, and none of them is
    one of the three JSON paths handed to [DataSet], so none of the
    driver's own writes lands on a file it asked to be read.  This is
    about the writes of the driver's file; what [DataSet], [train] and the
    other collaborators write is theirs. *)
Theorem driver_writes_avoid_inputs argv e r w a :
  parse_args argv = inr a ->
  run (script argv) e = (r, w) ->
  let dir := os_path_join (args.input_dir a) "after_ggnn" in
  let pickle := os_path_join (args.input_dir a) "processed.bin" in
  (forall path,
      (exists d, In (EvPickleDump path d) (trace w))
      \/ (exists j, In (EvWrite path j) (trace w)) ->
      (path = pickle \/ exists s, path = export_path dir s)
      /\ path <> train_src (dataset_args a)
      /\ path <> valid_src (dataset_args a)
      /\ path <> test_src (dataset_args a))
  /\ (forall s, export_path dir s <> pickle)
  /\ (forall s1 s2, export_path dir s1 = export_path dir s2 -> s1 = s2).
Proof.
  intros Hp Hrun dir pickle.
  assert (Hpk : pickle = args.input_dir a +:+ (sep_of (args.input_dir a) +:+ "processed.bin"))
    by (apply os_path_join_relative_form; reflexivity).
  assert (Hex : forall s,
             export_path dir s
             = args.input_dir a
               +:+ (sep_of (args.input_dir a)
                    +:+ ("after_ggnn/" +:+ split_name s +:+ "_GGNNinput_graph.json")))
    by (intros s; apply export_path_relative_form).
  assert (Hsrc : forall name,
             startswith name "/" = false ->
             os_path_join (args.input_dir a) name
             = args.input_dir a +:+ (sep_of (args.input_dir a) +:+ name))
    by (intros name Hn; apply os_path_join_relative_form; exact Hn).
  assert (Hdiff : forall path,
             (path = pickle \/ exists s, path = export_path dir s) ->
             path <> train_src (dataset_args a)
             /\ path <> valid_src (dataset_args a)
             /\ path <> test_src (dataset_args a)).
  { intros path Hpath. unfold dataset_args. simpl.
    rewrite !Hsrc by reflexivity.
    destruct Hpath as [-> | (s & ->)]; [rewrite Hpk | rewrite Hex];
      repeat split; intros Heq; apply append_inj, append_inj in Heq;
      try discriminate Heq; destruct s; discriminate Heq. }
  split; [| split].
  - intros path Hw.
    assert (Hpath : path = pickle \/ exists s, path = export_path dir s).
    { assert (Hall : Forall (writes_only a) (trace w)).
      { assert (Hpro : Forall (writes_only a) (prologue e a)).
        { apply List.Forall_forall. intros ev Hin.
          apply in_prologue_cases in Hin as [-> | [-> | [-> | [-> | ->]]]];
            exact I. }
        destruct (run_to_dataset _ _ _ _ _ Hp Hrun)
          as [(ex & _ & [Ht | Ht]) | (d & w1 & Ht1 & _ & Hrest)].
        - rewrite Ht. exact Hpro.
        - rewrite Ht. apply Forall_app. split; [exact Hpro |].
          repeat constructor.
        - destruct (after_dataset_writes _ _ _ _ _ _ _ Hrest) as (evs & Ht & HP).
          rewrite Ht, Ht1. apply Forall_app. split.
          + apply Forall_app. split.
            * apply List.Forall_forall. intros ev Hin.
              apply in_prologue_cases in Hin as [-> | [-> | [-> | [-> | ->]]]];
                exact I.
            * unfold dataset_events. repeat constructor.
          + eapply Forall_impl; [exact HP |].
            intros ev. destruct ev; simpl; auto.
            * unfold processed_path. rewrite adjusted_input_dir. auto.
            * unfold after_ggnn_dir_of. rewrite adjusted_input_dir. auto. }
      rewrite List.Forall_forall in Hall.
      destruct Hw as [(d & Hin) | (j & Hin)]; apply Hall in Hin; simpl in Hin.
      - left. exact Hin.
      - right. exact Hin. }
    split; [exact Hpath | exact (Hdiff path Hpath)].
  - intros s Heq. rewrite Hex, Hpk in Heq. apply append_inj, append_inj in Heq.
    destruct s; discriminate Heq.
  - intros s1 s2 Heq. rewrite !Hex in Heq. apply append_inj, append_inj in Heq.
    destruct s1, s2; first [reflexivity | discriminate Heq].
Qed.

(** *** The files the driver leaves alone *)

Lemma preserves_same_env {A : Type} path (c : M A) :
  (forall w r w', c w = (r, w') -> env w' = env w) -> preserves path c.
Proof. intros Hc w r w' H. rewrite (Hc _ _ _ H). reflexivity. Qed.

Lemma preserves_ret {A : Type} path (x : A) : preserves path (mret x).
Proof. apply preserves_same_env. intros w r w' H. inversion H; reflexivity. Qed.

Lemma preserves_raise {A : Type} path (ex : Exn) : preserves path (raise (A := A) ex).
Proof. apply preserves_same_env. intros w r w' H. inversion H; reflexivity. Qed.

Lemma preserves_lift {A : Type} path (x : Exn + A) : preserves path (lift x).
Proof. apply preserves_same_env. intros w r w' H. inversion H; reflexivity. Qed.

Lemma preserves_get_env path : preserves path get_env.
Proof. apply preserves_same_env. intros w r w' H. inversion H; reflexivity. Qed.

Lemma preserves_log path (ev : Event) : preserves path (log ev).
Proof. apply preserves_same_env. intros w r w' H. inversion H; reflexivity. Qed.

Lemma preserves_ext {A : Type} path (f : Ext A) :
  keeps_file path f -> preserves path (ext f).
Proof.
  intros Hf w r w' H. apply ext_inv in H as [_ H].
  rewrite <- (Hf (env w)), H. reflexivity.
Qed.

Lemma preserves_call {A : Type} path (mk : Exn + A -> Event) (f : Ext A) :
  keeps_file path f -> preserves path (call mk f).
Proof.
  intros Hf w r w' H. apply call_inv in H as [_ H].
  rewrite <- (Hf (env w)), H. reflexivity.
Qed.

Lemma preserves_bind {A B : Type} path (c : M A) (k : A -> M B) :
  preserves path c ->
  (forall x w w1, c w = (inr x, w1) -> preserves path (k x)) ->
  preserves path (c ≫= k).
Proof.
  intros Hc Hk w r w' H.
  apply bind_inv in H as [(ex & Hcw & ->) | (x & w1 & Hcw & Hkw)].
  - exact (Hc _ _ _ Hcw).
  - rewrite (Hk _ _ _ Hcw _ _ _ Hkw). exact (Hc _ _ _ Hcw).
Qed.

Lemma preserves_if {A : Type} path (b : bool) (c1 c2 : M A) :
  preserves path c1 -> preserves path c2 -> preserves path (if b then c1 else c2).
Proof. destruct b; auto. Qed.

(** [pickle.dump] changes the file it is given and no other. *)
Lemma preserves_pickle_dump path (d : DataSet) (dst : string) :
  path <> dst -> preserves path (pickle_dump d dst).
Proof.
  intros Hne w r w' H. unfold pickle_dump in H. rewrite !bind_run in H.
  simpl in H. injection H as _ <-. simpl. apply lookup_insert_ne.
  intros Heq. apply Hne. symmetry. exact Heq.
Qed.

(** So does the write of line 49, if [open] does. *)
Lemma preserves_write_json path (dst : string) (value : Json) :
  path <> dst -> keeps_file path (OS_open_w dst) -> preserves path (write_json dst value).
Proof.
  intros Hne Hopen w r w' H. rewrite write_json_run in H.
  pose proof (Hopen (env w)) as Hk.
  destruct (OS_open_w dst (env w)) as [[ex | []] e1]; injection H as _ <-;
    simpl in *; [exact Hk |].
  rewrite lookup_insert_ne; [exact Hk |].
  intros Heq. apply Hne. symmetry. exact Heq.
Qed.

(** One rule of the above, whichever applies. *)
Ltac preserves_step :=
  first
    [ apply preserves_ret | apply preserves_raise | apply preserves_lift
    | apply preserves_get_env | apply preserves_log
    | apply preserves_ext | apply preserves_call
    | apply preserves_if
    | apply preserves_bind; [| intros ? ? ? ?] ].

Lemma preserves_loop path (CUDA : bool) m lf s d n :
  collaborators_keep path ->
  forall acc,
    preserves path (save_after_ggnn_loop CUDA m lf
                      (call (EvNextBatch s d) (DataSet_get_next_batch s d)) n acc).
Proof.
  intros (K1 & K2 & K3 & K4 & K5 & K6 & K7 & K8 & K9 & K10 & K11 & K12 & K13 & K14
          & K15 & K16).
  induction n as [| n IH]; intros acc; simpl.
  - apply preserves_ret.
  - apply preserves_bind; [apply preserves_call; apply K3 |].
    intros [g t] w0 w1 _.
    apply preserves_bind; [destruct CUDA; repeat preserves_step; auto |].
    intros preds w2 w3 _.
    apply preserves_bind; [apply preserves_ext; apply K12 |]. intros loss w4 w5 _.
    apply preserves_bind; [apply preserves_call; apply K7 |]. intros out w6 w7 _.
    apply preserves_bind; [apply preserves_lift |]. intros ints w8 w9 _.
    apply IH.
Qed.

Lemma preserves_save_after_ggnn path (CUDA : bool) dir m lf name num_batches s d :
  collaborators_keep path ->
  path <> os_path_join dir (name +:+ "_GGNNinput_graph.json") ->
  preserves path (save_after_ggnn CUDA dir m lf name num_batches
                    (call (EvNextBatch s d) (DataSet_get_next_batch s d)) print).
Proof.
  intros Hk Hne. unfold save_after_ggnn, print.
  apply preserves_bind; [apply preserves_loop; exact Hk |]. intros acc w0 w1 _.
  apply preserves_bind; [apply preserves_log |]. intros [] w2 w3 _.
  apply preserves_write_json; [exact Hne |]. apply Hk.
Qed.

Lemma preserves_after_dataset path (CUDA : bool) a model_dir d :
  collaborators_keep path ->
  (forall s, path <> export_path (after_ggnn_dir_of a) s) ->
  preserves path (after_dataset CUDA a model_dir d).
Proof.
  intros Hk Hne.
  pose proof (Hne Test) as Hn1. pose proof (Hne Valid) as Hn2.
  pose proof (Hne Train) as Hn3. unfold export_path, after_ggnn_dir_of in Hn1, Hn2, Hn3.
  simpl in Hn1, Hn2, Hn3.
  pose proof Hk as (K1 & K2 & K3 & K4 & K5 & K6 & K7 & K8 & K9 & K10 & K11 & K12 & K13
                    & K14 & K15 & K16).
  unfold after_dataset, assert_feature_size, build_model, debug, export_embeddings,
    os_path_exists, os_makedirs.
  repeat (first [ apply preserves_save_after_ggnn; [exact Hk | assumption]
                | preserves_step ]); auto.
Qed.

Lemma preserves_after_parse path (CUDA : bool) a :
  collaborators_keep path ->
  path <> processed_path a ->
  (forall s, path <> export_path (after_ggnn_dir_of a) s) ->
  preserves path (after_parse CUDA a).
Proof.
  intros Hk Hpk Hne.
  pose proof Hk as (K1 & K2 & K3 & K4 & K5 & K6 & K7 & K8 & K9 & K10 & K11 & K12 & K13
                    & K14 & K15 & K16).
  unfold after_parse.
  apply preserves_bind.
  { unfold check_embed_size, print_stderr. repeat preserves_step. }
  intros a' w0 w1 Hck. rewrite check_embed_size_run in Hck. injection Hck as <- _.
  cbv zeta.
  apply preserves_bind; [unfold os_path_exists; repeat preserves_step |].
  intros x w2 w3 _.
  apply preserves_bind; [unfold os_makedirs; repeat preserves_step; auto |].
  intros [] w4 w5 _.
  apply preserves_bind.
  { unfold load_dataset, py_and.
    apply preserves_bind; [repeat preserves_step |]. intros c w8 w9 Hc.
    assert (Hfalse : c = false).
    { rewrite bind_run in Hc. simpl in Hc. injection Hc as <- _. reflexivity. }
    subst c.
    apply preserves_bind; [apply preserves_call; apply K1 |]. intros d w10 w11 _.
    apply preserves_bind; [| intros [] w12 w13 _; apply preserves_ret].
    apply preserves_pickle_dump. rewrite adjusted_input_dir. exact Hpk. }
  intros d w6 w7 _.
  apply preserves_after_dataset; [exact Hk |].
  unfold after_ggnn_dir_of. rewrite adjusted_input_dir. exact Hne.
Qed.

(** The paths the driver writes to are none of the paths it hands to
    [DataSet]. *)
Lemma written_paths_not_inputs (a : args.t) (path : string) :
  path = processed_path a \/ (exists s, path = export_path (after_ggnn_dir_of a) s) ->
  path <> train_src (dataset_args a)
  /\ path <> valid_src (dataset_args a)
  /\ path <> test_src (dataset_args a).
Proof.
  intros Hpath. unfold dataset_args, processed_path, after_ggnn_dir_of in *. simpl.
  rewrite !(os_path_join_relative_form (args.input_dir a)) by reflexivity.
  destruct Hpath as [-> | (s & ->)].
  - rewrite (os_path_join_relative_form (args.input_dir a)) by reflexivity.
    repeat split; intros Heq; apply append_inj, append_inj in Heq; discriminate Heq.
  - rewrite export_path_relative_form.
    repeat split; intros Heq; apply append_inj, append_inj in Heq;
      destruct s; discriminate Heq.
Qed.

End Further.

(** ** Concrete runs *)

Import Toy.

(** Finds an entry in an explicit trace. *)
Ltac pick := vm_compute; repeat (first [left; reflexivity | right]).

Example os_path_join_relative : os_path_join "models" "devign" = "models/devign".
Proof. reflexivity. Qed.

Example os_path_join_absolute : os_path_join "models" "/ckpt" = "/ckpt".
Proof. reflexivity. Qed.

Example os_path_join_trailing_sep :
  os_path_join "data/" "processed.bin" = "data/processed.bin".
Proof. reflexivity. Qed.

Example os_path_join_empty : os_path_join "" "processed.bin" = "processed.bin".
Proof. reflexivity. Qed.

Example int_of_float_one : int_of_float 1%float = inr 1.
Proof. reflexivity. Qed.

Example int_of_float_truncates : int_of_float (-2.75)%float = inr (-2).
Proof. reflexivity. Qed.

Example int_of_float_nan :
  int_of_float nan = inl (ValueError "cannot convert float NaN to integer").
Proof. reflexivity. Qed.

Example parse_args_defaults : parse_args argv0 = inr args0.
Proof. reflexivity. Qed.

Example parse_args_requires_dataset :
  parse_args (cmdline.mk None None (Some "data") None None None None None None None false)
  = inl (SystemExit 2).
Proof. reflexivity. Qed.

Example parse_args_checks_choices :
  parse_args (cmdline.mk (Some "gcn") (Some "devign") (Some "data") None None None None
                         None None None false)
  = inl (SystemExit 2).
Proof. reflexivity. Qed.

Example run0_completes : run0.1 = inr tt.
Proof. vm_compute. reflexivity. Qed.

Example run_mismatch_asserts : run_mismatch.1 = inl (AssertionError assertion_text).
Proof. vm_compute. reflexivity. Qed.

Example run_cached_overwrites :
  files (env run_cached.2) !! "data/processed.bin" = Some (FPickle 100).
Proof. vm_compute. reflexivity. Qed.

Example run_cuda_moves_model :
  In (EvModelCuda (KDevign, 200) (inr tt)) (trace (run (script argv0) env_cuda).2)
  /\ In (EvStdout "CUDA is enabled") (trace (run (script argv0) env_cuda).2).
Proof. split; pick. Qed.

Example run_export_writes_test_split :
  In (EvWrite "data/after_ggnn/test_GGNNinput_graph.json"
        (JList
           [JDict [("graph_feature", JList [JFloat 0.5; JFloat 0.5]); ("target", JInt 1)];
            JDict [("graph_feature", JList [JFloat 0.25; JFloat 0.25]); ("target", JInt 0)];
            JDict [("graph_feature", JList [JFloat 0.5; JFloat 0.5]); ("target", JInt 1)];
            JDict [("graph_feature", JList [JFloat 0.25; JFloat 0.25]); ("target", JInt 0)]]))
     (trace run_export.2).
Proof. pick. Qed.

Example train_stops_early :
  Trainer.train 1000000 128 5 (fun _ => 0.5%float)
  = Trainer.mkState Trainer.EarlyStopped 768 6 (Some 0.5%float) 1 5 [1].
Proof. vm_compute. reflexivity. Qed.

Example train_runs_out_of_steps :
  Trainer.train 300 128 5 (fun k => if k =? 1 then 1%float else 2%float)
  = Trainer.mkState Trainer.ConvergedByMaxSteps 300 2 (Some 2%float) 2 0 [1; 2].
Proof. vm_compute. reflexivity. Qed.

(** The run on [--feature_size 300] over data with 300 features: the
    warning is printed and the model gets [output_dim = 300]. *)
Lemma embed_size_autocorrect_witness :
  parse_args argv_wide = inr args_wide
  /\ In (EvStderr warning_text) (trace run_wide.2)
  /\ forall k i o s t rm, In (EvModel k i o s t rm) (trace run_wide.2) -> o = 300.
Proof.
  split; [reflexivity |].
  destruct (embed_size_autocorrect argv_wide env_wide run_wide.1 run_wide.2 args_wide)
    as (Hgt & _ & _).
  - reflexivity.
  - vm_compute. reflexivity.
  - destruct Hgt as (_ & (pre & post & Ht & _) & Hm); [reflexivity |].
    split; [| exact Hm]. rewrite Ht. apply in_or_app. right. left. reflexivity.
Defined.

(** The run on [--feature_size 300] over data with 100 features. *)
Lemma feature_size_mismatch_aborts_witness :
  In (EvDataSet dataset_args0 (inr 100)) (trace run_mismatch.2)
  /\ run_mismatch.1 = inl (AssertionError assertion_text)
  /\ forall k i o s t rm, ~ In (EvModel k i o s t rm) (trace run_mismatch.2).
Proof.
  assert (Hin : In (EvDataSet dataset_args0 (inr 100)) (trace run_mismatch.2)) by pick.
  split; [exact Hin |].
  destruct (feature_size_mismatch_aborts argv_wide env0 run_mismatch.1 run_mismatch.2
              args_wide dataset_args0 100) as (Hne & _).
  - reflexivity.
  - vm_compute. reflexivity.
  - exact Hin.
  - destruct Hne as (Hr & _ & Hm); [discriminate |]. split; [exact Hr | exact Hm].
Defined.

(** A run that finds a pickle of an earlier run in place. *)
Lemma dataset_rebuilt_from_json_witness :
  files env_cached !! "data/processed.bin" = Some (FPickle 64)
  /\ (forall path rl, ~ In (EvPickleLoad path rl) (trace run_cached.2))
  /\ exists rd, In (EvDataSet dataset_args0 rd) (trace run_cached.2).
Proof.
  split; [vm_compute; reflexivity |].
  destruct (dataset_rebuilt_from_json argv0 env_cached run_cached.1 run_cached.2)
    as (Hno & _ & Hds).
  - vm_compute. reflexivity.
  - split; [exact Hno |].
    destruct (Hds args0 eq_refl) as [Hcalled | (ex & Hr & _)]; [exact Hcalled |].
    vm_compute in Hr. discriminate Hr.
Defined.

(** The run with [--save_after_ggnn]: three files, four objects each. *)
Lemma embeddings_exported_witness :
  run_export.1 = inr tt
  /\ exists pre tc d m mk nt nv nr bt bv br,
       trace run_export.2
       = pre ++ EvTrain tc (inr tt)
                :: mk
                ++ split_events "data/after_ggnn" Test d m nt bt
                ++ split_events "data/after_ggnn" Valid d m nv bv
                ++ split_events "data/after_ggnn" Train d m nr br.
Proof.
  assert (Hr : run_export.1 = inr tt) by (vm_compute; reflexivity).
  split; [exact Hr |].
  destruct (embeddings_exported argv_export env0 run_export.2 args_export)
    as (pre & tc & d & m & mk & nt & nv & nr & bt & bv & br & Ht & _).
  - reflexivity.
  - reflexivity.
  - vm_compute. reflexivity.
  - exists pre, tc, d, m, mk, nt, nv, nr, bt, bv, br. exact Ht.
Defined.

(** The [train] call of the run on the default command line. *)
Lemma train_loss_and_optimizer_witness :
  In (EvTrain tc0 (inr tt)) (trace run0.2)
  /\ tc_loss_function tc0 = BCELoss "sum"
  /\ tc_optimizer tc0 = Adam (KDevign, 200) 0.0001 0.001.
Proof.
  assert (Hin : In (EvTrain tc0 (inr tt)) (trace run0.2)) by pick.
  split; [exact Hin |].
  destruct (train_loss_and_optimizer argv0 env0 run0.1 run0.2 tc0 (inr tt))
    as (Hl & Ho & _).
  - vm_compute. reflexivity.
  - exact Hin.
  - split; [exact Hl | exact Ho].
Defined.

(** A constant validation metric. *)
Lemma early_stop_after_five_checks_witness :
  (forall k : Z, 2 <= k -> PrimFloat.ltb 0.5 0.5 = false)
  /\ let tc := train_call (Obj := objects) "models/devign" (KDevign, 200) 100 in
     let final :=
       Trainer.train (tc_max_steps tc) (tc_dev_every tc) (tc_max_patience tc)
                     (fun _ => 0.5%float) in
     tc_max_patience tc = 5
     /\ Trainer.phase final = Trainer.EarlyStopped
     /\ Trainer.best_check final = 1
     /\ Trainer.checks final = Trainer.best_check final + 5
     /\ Trainer.patience final = 5
     /\ Trainer.steps final = 6 * 128.
Proof.
  assert (Hflat : forall k : Z, 2 <= k -> PrimFloat.ltb 0.5 0.5 = false)
    by (intros k Hk; reflexivity).
  split; [exact Hflat |].
  exact (early_stop_after_five_checks (Obj := objects) "models/devign"
           (KDevign, 200) 100 (fun _ => 0.5%float) Hflat).
Defined.

(** The run on [--node_tag nf --graph_tag g --label_tag y]. *)
Lemma dataset_field_names_witness :
  In (EvDataSet dataset_args_tags (inr 100)) (trace run_tags.2)
  /\ n_ident dataset_args_tags = "nf"
  /\ g_ident dataset_args_tags = "g"
  /\ l_ident dataset_args_tags = "y".
Proof.
  assert (Hin : In (EvDataSet dataset_args_tags (inr 100)) (trace run_tags.2)) by pick.
  split; [exact Hin |].
  destruct (dataset_field_names argv_tags env0 run_tags.1 run_tags.2 args_tags)
    as (_ & Hall).
  - reflexivity.
  - vm_compute. reflexivity.
  - exact (Hall dataset_args_tags (inr 100) Hin).
Defined.

(** C8, as stated, fails for a dataset name that begins with ['/']: the
    run on [--dataset /ckpt] passes ['/ckpt/GGNNSumModel'] to the training
    loop, which is not ['models/' + '/ckpt' + '/GGNNSumModel']. *)
Lemma save_path_absolute_dataset_name :
  parse_args argv_abs = inr args_abs
  /\ args.dataset args_abs = "/ckpt"
  /\ In (EvTrain tc_abs (inr tt)) (trace run_abs.2)
  /\ tc_save_path tc_abs = "/ckpt/GGNNSumModel"
  /\ tc_save_path tc_abs <> "models/" +:+ args.dataset args_abs +:+ "/GGNNSumModel".
Proof.
  split; [reflexivity |]. split; [reflexivity |]. split; [pick |].
  split; [reflexivity | discriminate].
Qed.

(** The [train] call of the run on the default command line. *)
Lemma save_path_depends_on_dataset_only_witness :
  In (EvTrain tc0 (inr tt)) (trace run0.2)
  /\ tc_save_path tc0 = "models/devign/GGNNSumModel".
Proof.
  assert (Hin : In (EvTrain tc0 (inr tt)) (trace run0.2)) by pick.
  split; [exact Hin |].
  destruct (save_path_depends_on_dataset_only argv0 env0 run0.1 run0.2 tc0 (inr tt))
    as (a & Hp & _ & Hrel & _ & _).
  - vm_compute. reflexivity.
  - exact Hin.
  - injection Hp as <-. apply Hrel. reflexivity.
Defined.

(** Two runs from different generator states. *)
Lemma seeded_before_anything_witness :
  torch_rng env_cached <> torch_rng (mkEnv ∅ (files env_cached) ∅ 5 9 (100, 0%nat))
  /\ run (script argv0) (mkEnv ∅ (files env_cached) ∅ 5 9 (100, 0%nat)) = run_cached.
Proof.
  split; [discriminate |].
  destruct (seeded_before_anything argv0 env_cached run_cached.1 run_cached.2)
    as (_ & Hsame).
  - vm_compute. reflexivity.
  - rewrite (Hsame (mkEnv ∅ (files env_cached) ∅ 5 9 (100, 0%nat)))
      by reflexivity.
    vm_compute. reflexivity.
Defined.

(** A run that finds a pickle of an earlier run in place. *)
Lemma dataset_always_pickled_witness :
  files env_cached !! "data/processed.bin" = Some (FPickle 64)
  /\ In (EvDataSet dataset_args0 (inr 100)) (trace run_cached.2)
  /\ exists pre post,
       trace run_cached.2
       = pre ++ EvDataSet dataset_args0 (inr 100)
                :: EvPickleDump "data/processed.bin" 100 :: post.
Proof.
  split; [vm_compute; reflexivity |].
  assert (Hin : In (EvDataSet dataset_args0 (inr 100)) (trace run_cached.2)) by pick.
  split; [exact Hin |].
  destruct (dataset_always_pickled argv0 env_cached run_cached.1 run_cached.2 args0
              dataset_args0 100) as (Hnext & _).
  - reflexivity.
  - vm_compute. reflexivity.
  - exact Hin.
  - exact Hnext.
Defined.

(** ** Concrete runs for the further properties *)
Import ToyMore.

Example save_test_nan_raises :
  save_test_nan.1 = inl (ValueError "cannot convert float NaN to integer").
Proof. vm_compute. reflexivity. Qed.


Lemma model_dimensions_witness :
  In (EvModel KDevign 100 200 6 4 (inr (KDevign, 200))) (trace run0.2)
  /\ (100 <= 200) /\ (KDevign = KDevign <-> args.model_type args0 = "devign").
Proof.
  assert (Hin : In (EvModel KDevign 100 200 6 4 (inr (KDevign, 200))) (trace run0.2))
    by pick.
  split; [exact Hin |].
  destruct (model_dimensions argv0 env0 run0.1 run0.2 args0 KDevign 100 200 6 4
              (inr (KDevign, 200)))
    as (_ & Hle & _ & _ & _ & Hk & _).
  - reflexivity.
  - vm_compute. reflexivity.
  - exact Hin.
  - split; [exact Hle | exact Hk].
Defined.

(** The run on [--dataset ..] from an empty working directory:
    [os.makedirs('models/..')] makes [models] and then finds [models/..]
    in place. *)
Example run_dotdot_ends_at_makedirs :
  run_dotdot.1 = inl (PyError "FileExistsError")
  /\ trace run_dotdot.2
     = [EvStdout "CUDA is disabled"; EvTorchManualSeed 1000; EvNumpySeed 1000;
        EvMakedirs "models/.."]
  /\ "models" ∈ dirs (env run_dotdot.2).
Proof.
  split; [vm_compute; reflexivity |]. split; [vm_compute; reflexivity |].
  vm_compute. set_solver.
Qed.

(** The default command line where [models] is a regular file. *)
Example run_models_is_a_file :
  (run (script argv0) (mkEnv ∅ {["models" := FRaw ""]} ∅ 0 0 (100, 0%nat))).1
  = inl (PyError "NotADirectoryError").
Proof. vm_compute. reflexivity. Qed.

Lemma one_dataset_one_model_one_training_witness :
  (calls is_dataset_call (trace run_export.2) <= 1)%nat
  /\ (calls is_model_call (trace run_export.2)
      <= calls is_dataset_call (trace run_export.2))%nat
  /\ (calls is_train_call (trace run_export.2)
      <= calls is_model_call (trace run_export.2))%nat.
Proof.
  destruct (one_dataset_one_model_one_training argv_export env0 run_export.1
              run_export.2 args_export) as (H1 & _ & H3 & H4).
  - reflexivity.
  - vm_compute. reflexivity.
  - split; [exact H1 |]. split; [exact H3 | exact H4].
Defined.

Lemma cuda_only_when_enabled_witness :
  environ env_cuda !! "CUDA" = Some "1"
  /\ exists pre post,
       trace (run (script argv0) env_cuda).2
       = pre ++ EvModelCuda (KDevign, 200) (inr tt) :: EvTrain tc0 (inr tt) :: post.
Proof.
  assert (Hon : environ env_cuda !! "CUDA" = Some "1") by (vm_compute; reflexivity).
  split; [exact Hon |].
  destruct (cuda_only_when_enabled argv0 env_cuda (run (script argv0) env_cuda).1
              (run (script argv0) env_cuda).2 args0) as (_ & Hgpu).
  - reflexivity.
  - vm_compute. reflexivity.
  - apply (Hgpu Hon tc0 (inr tt)). pick.
Defined.

Lemma train_only_on_matching_dataset_witness :
  In (EvTrain tc0 (inr tt)) (trace run0.2)
  /\ args.feature_size args0 = DataSet_feature_size (tc_dataset tc0)
  /\ In (EvPickleDump "data/processed.bin" 100) (trace run0.2).
Proof.
  assert (Hin : In (EvTrain tc0 (inr tt)) (trace run0.2)) by pick.
  split; [exact Hin |].
  destruct (train_only_on_matching_dataset argv0 env0 run0.1 run0.2 args0 tc0 (inr tt))
    as (Hfs & _ & Hdump & _).
  - reflexivity.
  - vm_compute. reflexivity.
  - exact Hin.
  - split; [exact Hfs | exact Hdump].
Defined.

Lemma export_only_after_training_witness :
  In (EvInitBatch Valid 100 (inr 2)) (trace run_export.2)
  /\ args.save_after_ggnn args_export = true
  /\ exists pre tc post,
       trace run_export.2 = pre ++ EvTrain tc (inr tt) :: post
       /\ In (EvInitBatch Valid 100 (inr 2)) post.
Proof.
  assert (Hin : In (EvInitBatch Valid 100 (inr 2)) (trace run_export.2)) by pick.
  split; [exact Hin |].
  assert (Hrun : run (script argv_export) env0 = (run_export.1, run_export.2))
    by (vm_compute; reflexivity).
  exact (export_only_after_training argv_export env0 _ _ args_export _
           eq_refl Hrun Hin eq_refl).
Defined.

Lemma mismatch_leaves_pickle_witness :
  In (EvDataSet (dataset_args args_wide) (inr 100)) (trace run_mismatch.2)
  /\ args.feature_size args_wide <> DataSet_feature_size 100
  /\ run_mismatch.1 = inl (AssertionError assertion_text)
  /\ files (env run_mismatch.2) !! "data/processed.bin" = Some (FPickle 100).
Proof.
  assert (Hin : In (EvDataSet (dataset_args args_wide) (inr 100)) (trace run_mismatch.2))
    by pick.
  assert (Hne : args.feature_size args_wide <> DataSet_feature_size 100) by discriminate.
  split; [exact Hin |]. split; [exact Hne |].
  assert (Hrun : run (script argv_wide) env0 = (run_mismatch.1, run_mismatch.2))
    by (vm_compute; reflexivity).
  exact (mismatch_leaves_pickle argv_wide env0 _ _ args_wide _ eq_refl Hrun Hin Hne).
Defined.

(** The run on [--dataset ..]: [os.makedirs] raises and the run ends
    before the [DataSet] constructor is called. *)
Lemma model_dir_made_before_dataset_witness :
  parse_args argv_dotdot = inr args_dotdot
  /\ run_dotdot.1 = inl (PyError "FileExistsError")
  /\ forall da rd, ~ In (EvDataSet da rd) (trace run_dotdot.2).
Proof.
  assert (Hp : parse_args argv_dotdot = inr args_dotdot) by reflexivity.
  split; [exact Hp |].
  assert (Hrun : run (script argv_dotdot) env0 = (run_dotdot.1, run_dotdot.2))
    by (vm_compute; reflexivity).
  destruct (model_dir_made_before_dataset argv_dotdot env0 _ _ args_dotdot Hp Hrun)
    as (Hraised & _).
  destruct (Hraised (PyError "FileExistsError")) as (Hr & _ & Hnone).
  - vm_compute. reflexivity.
  - vm_compute. reflexivity.
  - split; [exact Hr | exact Hnone].
Defined.

(** Two batches fetched, then the announcement. *)
Lemma save_after_ggnn_fetches_num_batches_witness :
  exists evs,
    trace save_test.2 = [] ++ evs
    /\ (calls is_fetch_call evs <= 2)%nat.
Proof.
  assert (Hrun : save_after_ggnn false "out" (KDevign, 200) (BCELoss "sum") "test" 2
                   (call (EvNextBatch Test 100) (DataSet_get_next_batch Test 100))
                   print (mkWorld env_out [])
                 = (save_test.1, save_test.2))
    by (vm_compute; reflexivity).
  destruct (save_after_ggnn_fetches_num_batches _ _ _ _ _ _ _ _ _ _ _ Hrun)
    as (evs & Ht & Hle & _).
  exists evs. split; [exact Ht | exact Hle].
Defined.

(** With no directory [out], the call prints the [Saving to] line and then
    fails to open the file. *)
Example save_test_missing_raises :
  save_test_missing.1 = inl (PyError "FileNotFoundError")
  /\ In (EvStdout "Saving to out/test_GGNNinput_graph.json") (trace save_test_missing.2).
Proof. split; [vm_compute; reflexivity | pick]. Qed.

Lemma save_after_ggnn_failure_writes_nothing_witness :
  save_test_missing.1 = inl (PyError "FileNotFoundError")
  /\ exists evs,
       trace save_test_missing.2 = [] ++ evs
       /\ forall path j, ~ In (EvWrite path j) evs.
Proof.
  assert (Hr : save_test_missing.1 = inl (PyError "FileNotFoundError"))
    by (vm_compute; reflexivity).
  split; [exact Hr |].
  assert (Hrun : save_after_ggnn false "out" (KDevign, 200) (BCELoss "sum") "test" 2
                   (call (EvNextBatch Test 100) (DataSet_get_next_batch Test 100))
                   print (mkWorld env0 [])
                 = (inl (PyError "FileNotFoundError"), save_test_missing.2))
    by (vm_compute; reflexivity).
  destruct (save_after_ggnn_failure_writes_nothing _ _ _ _ _ _ _ _ _ _ _ Hrun)
    as (evs & Ht & Hw & _).
  exists evs. split; [exact Ht | exact Hw].
Defined.

Lemma save_after_ggnn_label_not_finite_witness :
  In (EvNextBatch Test 100 (inr (0%nat, [1%float; nan]))) (trace save_test_nan.2)
  /\ exists ex', save_test_nan.1 = inl ex'.
Proof.
  assert (Hin : In (EvNextBatch Test 100 (inr (0%nat, [1%float; nan])))
                  (trace save_test_nan.2)) by pick.
  split; [exact Hin |].
  assert (Hrun : save_after_ggnn (C := nan_labels) false "out" (KDevign, 200)
                   (BCELoss "sum") "test" 2
                   (call (EvNextBatch Test 100)
                         (DataSet_get_next_batch (Collaborators := nan_labels) Test 100))
                   print (mkWorld env0 [])
                 = (save_test_nan.1, save_test_nan.2))
    by (vm_compute; reflexivity).
  destruct (save_after_ggnn_label_not_finite (C := nan_labels) _ _ _ _ _ _ _ _ _ _ _ _ _ _
              nan (ValueError "cannot convert float NaN to integer")
              Hrun eq_refl Hin) as (Hr & _).
  - right. left. reflexivity.
  - vm_compute. reflexivity.
  - exact Hr.
Defined.

Lemma save_after_ggnn_pairs_rows_with_labels_witness :
  save_test.1 = inr tt
  /\ exists bs objects,
       length bs = 2%nat
       /\ files (env save_test.2) !! "out/test_GGNNinput_graph.json"
          = Some (FJson (JList objects))
       /\ length objects
          = sum_list (map (fun b => Nat.min (length (f_output b)) (length (f_targets b))) bs).
Proof.
  assert (Hr : save_test.1 = inr tt) by (vm_compute; reflexivity).
  split; [exact Hr |].
  assert (Hrun : save_after_ggnn false "out" (KDevign, 200) (BCELoss "sum") "test" 2
                   (call (EvNextBatch Test 100) (DataSet_get_next_batch Test 100))
                   print (mkWorld env_out [])
                 = (inr tt, save_test.2))
    by (vm_compute; reflexivity).
  destruct (save_after_ggnn_pairs_rows_with_labels _ _ _ _ _ _ _ _ _ _ Hrun)
    as (bs & objects & Hlen & _ & Hfile & _ & _ & Hcount).
  exists bs, objects. split; [exact Hlen |]. split; [exact Hfile | exact Hcount].
Defined.

Lemma files_stay_under_input_dir_witness :
  Forall (paths_under "data" "models/devign") (trace run_export.2).
Proof.
  apply (files_stay_under_input_dir argv_export env0 run_export.1 run_export.2
           args_export).
  - reflexivity.
  - vm_compute. reflexivity.
Defined.

Lemma driver_writes_avoid_inputs_witness :
  In (EvWrite "data/after_ggnn/test_GGNNinput_graph.json"
        (export_content
           [mkFetched 0%nat [1%float; 0%float]
              [[0.5%float; 0.5%float]; [0.25%float; 0.25%float]] [1; 0];
            mkFetched 1%nat [1%float; 0%float]
              [[0.5%float; 0.5%float]; [0.25%float; 0.25%float]] [1; 0]]))
     (trace run_export.2)
  /\ "data/after_ggnn/test_GGNNinput_graph.json" <> "data/test_GGNNinput.json".
Proof.
  assert (Hin : In (EvWrite "data/after_ggnn/test_GGNNinput_graph.json"
                      (export_content
                         [mkFetched 0%nat [1%float; 0%float]
                            [[0.5%float; 0.5%float]; [0.25%float; 0.25%float]] [1; 0];
                          mkFetched 1%nat [1%float; 0%float]
                            [[0.5%float; 0.5%float]; [0.25%float; 0.25%float]] [1; 0]]))
                   (trace run_export.2)) by pick.
  split; [exact Hin |].
  destruct (driver_writes_avoid_inputs argv_export env0 run_export.1 run_export.2
              args_export) as (Hw & _).
  - reflexivity.
  - vm_compute. reflexivity.
  - destruct (Hw "data/after_ggnn/test_GGNNinput_graph.json") as (_ & _ & _ & Hne).
    + right. eexists. exact Hin.
    + exact Hne.
Defined.

(** The toy collaborators change no file at all. *)
Lemma toy_collaborators_keep (path : string) :
  collaborators_keep (C := collaborators) path.
Proof.
  unfold collaborators_keep, keeps_file. simpl.
  repeat split; intros; try reflexivity.
  - unfold makedirs.
    destruct (isfile e p || isdir e p); [destruct (ok && isdir e p); reflexivity |].
    destruct (existsb _ _); [reflexivity |].
    destruct (String.eqb (basename p) ".."); reflexivity.
  - unfold open_w.
    destruct (isdir e p); [reflexivity |].
    destruct (String.eqb (parent p) "" || isdir e (parent p)); [reflexivity |].
    destruct (isfile e (parent p)); reflexivity.
Qed.

